(** * The genre and book-instance controllers of the library catalogue

    A shallow embedding of the genre controller and of
    [controllers/bookinstanceController.js]: the Express handlers become
    functions from a request and a document store to a new store and a
    response.  The libraries the handlers call (validator.js,
    express-validator, Mongoose) are modelled as far as the handlers use
    them; the three Mongoose models, whose files are not part of the
    sources at hand, follow the data model of the specification.

    Text is held in UTF-8: a [string] is the sequence of bytes that
    encodes a JavaScript string, so that a character outside ASCII
    takes two to four bytes.  What the client chooses (the route
    parameter, every form field) is text; an ObjectId comes out of it
    only where Mongoose casts it. *)

From stdpp Require Import base strings list gmap.
From Stdlib Require Import Ascii String Sorted Permutation.

Local Open Scope string_scope.
Local Open Scope list_scope.

(** ** validator.js: the string functions behind the validation chains *)

Module Validator.

(** A byte that continues a character begun by an earlier byte. *)
Definition is_continuation (c : ascii) : bool :=
  let n := nat_of_ascii c in Nat.leb 128 n && Nat.ltb n 192.

Definition starts_with_continuation (s : string) : bool :=
  match s with
  | String c _ => is_continuation c
  | EmptyString => false
  end.

(** The characters of a text, in order: a character is a byte together
    with the continuation bytes that follow it (in text that is not
    well-formed UTF-8, continuation bytes in front count as one more
    character).  A character outside the basic plane is one character
    here and a surrogate pair in JavaScript. *)
Fixpoint characters (s : string) : list string :=
  match s with
  | EmptyString => []
  | String c r =>
      match characters r with
      | g :: gs =>
          if starts_with_continuation r then String c g :: gs
          else String c EmptyString :: g :: gs
      | [] => [String c EmptyString]
      end
  end.

Definition utf8 (bytes : list nat) : string :=
  fold_right (fun n s => String (ascii_of_nat n) s) EmptyString bytes.

(** The characters matched by the regular expression class [\s]: tab
    to carriage return, space, U+00A0, U+1680, U+2000 to U+200A, U+2028,
    U+2029, U+202F, U+205F, U+3000 and U+FEFF. *)
Definition whitespace : list string :=
  [ utf8 [9]; utf8 [10]; utf8 [11]; utf8 [12]; utf8 [13]; utf8 [32];
    utf8 [194; 160]; utf8 [225; 154; 128];
    utf8 [226; 128; 128]; utf8 [226; 128; 129]; utf8 [226; 128; 130];
    utf8 [226; 128; 131]; utf8 [226; 128; 132]; utf8 [226; 128; 133];
    utf8 [226; 128; 134]; utf8 [226; 128; 135]; utf8 [226; 128; 136];
    utf8 [226; 128; 137]; utf8 [226; 128; 138];
    utf8 [226; 128; 168]; utf8 [226; 128; 169]; utf8 [226; 128; 175];
    utf8 [226; 129; 159]; utf8 [227; 128; 128]; utf8 [239; 187; 191] ].

Definition is_whitespace (ch : string) : bool :=
  existsb (String.eqb ch) whitespace.

Fixpoint drop_while {A : Type} (p : A -> bool) (l : list A) : list A :=
  match l with
  | [] => []
  | a :: r => if p a then drop_while p r else l
  end.

(** [str.replace(/^\s+/g, '')] *)
Definition ltrim (s : string) : string :=
  String.concat EmptyString (drop_while is_whitespace (characters s)).

(** The text up to its last character that is not whitespace. *)
Definition rtrim (s : string) : string :=
  String.concat EmptyString
    (rev (drop_while is_whitespace (rev (characters s)))).

(** [trim(str)] is [rtrim(ltrim(str))]. *)
Definition trim (s : string) : string := rtrim (ltrim s).

(** The variation selectors U+FE0E and U+FE0F. *)
Definition is_variation_selector (ch : string) : bool :=
  String.eqb ch (utf8 [239; 184; 142]) || String.eqb ch (utf8 [239; 184; 143]).

Definition presentationSequences (s : string) : list string :=
  List.filter is_variation_selector (characters s).

(** The length [isLength] compares,
    [str.length - presentationSequences.length - surrogatePairs.length]:
    [str.length] less one for every surrogate pair is the number of
    characters. *)
Definition len (s : string) : nat :=
  List.length (characters s) - List.length (presentationSequences s).

(** [isLength(str, { min })] *)
Definition isLength (min : nat) (s : string) : bool :=
  Nat.leb min (len s).

Definition double_quote : ascii := ascii_of_nat 34.
Definition backslash : ascii := ascii_of_nat 92.

(** The replacement [escape] makes for one character; the characters
    it replaces are ASCII, one byte each. *)
Definition escape_char (c : ascii) : string :=
  if Ascii.eqb c "&" then "&amp;"
  else if Ascii.eqb c double_quote then "&quot;"
  else if Ascii.eqb c "'" then "&#x27;"
  else if Ascii.eqb c "<" then "&lt;"
  else if Ascii.eqb c ">" then "&gt;"
  else if Ascii.eqb c "/" then "&#x2F;"
  else if Ascii.eqb c backslash then "&#x5C;"
  else if Ascii.eqb c "`" then "&#96;"
  else String c EmptyString.

Fixpoint escape (s : string) : string :=
  match s with
  | EmptyString => EmptyString
  | String c r => escape_char c +:+ escape r
  end.

End Validator.

(** ** Values and documents *)

(** An ObjectId, held as the text [toString()] gives for it. *)
Record ObjectId := Oid { oid_hex : string }.

#[global] Instance ObjectId_eq_dec : EqDecision ObjectId.
Proof. solve_decision. Defined.

(** The values a form field or a document path can hold.  A date stands
  for itself through the text the runtime prints for it; [undefined]
  is the absence of the key. *)
Inductive Value :=
| VStr (s : string)
| VDate (d : string)
| VId (o : ObjectId)
| VNull.

#[global] Instance Value_eq_dec : EqDecision Value.
Proof. solve_decision. Defined.

(** A document (and the body of a request) is a finite map from field
  names to values. *)
Abbreviation Doc := (gmap string Value).

Definition is_hex_digit (c : ascii) : bool :=
  let n := nat_of_ascii c in
  (Nat.leb 48 n && Nat.leb n 57)
  || (Nat.leb 65 n && Nat.leb n 70)
  || (Nat.leb 97 n && Nat.leb n 102).

Definition to_lower_hex (c : ascii) : ascii :=
  let n := nat_of_ascii c in
  if Nat.leb 65 n && Nat.leb n 70 then ascii_of_nat (n + 32) else c.

Fixpoint string_forallb (p : ascii -> bool) (s : string) : bool :=
  match s with
  | EmptyString => true
  | String c r => p c && string_forallb p r
  end.

Fixpoint string_map (f : ascii -> ascii) (s : string) : string :=
  match s with
  | EmptyString => EmptyString
  | String c r => String (f c) (string_map f r)
  end.

(** The ObjectId Mongoose casts a string to: the string is 24
    hexadecimal digits, or the cast fails. *)
Definition castObjectId (s : string) : option ObjectId :=
  if Nat.eqb (String.length s) 24 && string_forallb is_hex_digit s
  then Some (Oid (string_map to_lower_hex s))
  else None.

(** Object literals, whose keys are distinct in every literal the
    controllers write: a key whose value is [undefined] is left out,
    which is also how Mongoose reads a filter or the argument of a model
    constructor. *)
Fixpoint obj (l : list (string * option Value)) : Doc :=
  match l with
  | [] => ∅
  | (k, Some v) :: r => <[k := v]> (obj r)
  | (_, None) :: r => obj r
  end.

(** ** express-validator: requests, validation chains, results *)

Record ValidationError := { err_path : string; err_msg : string }.

(** The request as the router hands it over: the route parameter [:id],
    the hidden id field a delete form sends ([genreid],
    [bookinstanceid]) and the other form fields, all of them text the
    client chooses.  [fresh_id] is the identifier the driver generates
    when the handler constructs a new document. *)
Record Incoming := {
  in_params_id : string;
  in_genreid : string;
  in_bookinstanceid : string;
  in_body : gmap string string;
  in_fresh_id : ObjectId
}.

(** The request object the middleware of a route share: validation
    chains rewrite [body] and record their errors in [contexts]. *)
Record Request := {
  params_id : string;
  body_genreid : string;
  body_bookinstanceid : string;
  body : Doc;
  fresh_id : ObjectId;
  contexts : list ValidationError
}.

Definition receive (i : Incoming) : Request :=
  {| params_id := in_params_id i;
     body_genreid := in_genreid i;
     body_bookinstanceid := in_bookinstanceid i;
     body := VStr <$> in_body i;
     fresh_id := in_fresh_id i;
     contexts := [] |}.

Definition set_body (k : string) (v : Value) (req : Request) : Request :=
  {| params_id := params_id req;
     body_genreid := body_genreid req;
     body_bookinstanceid := body_bookinstanceid req;
     body := <[k := v]> (body req);
     fresh_id := fresh_id req;
     contexts := contexts req |}.

Definition add_error (e : ValidationError) (req : Request) : Request :=
  {| params_id := params_id req;
     body_genreid := body_genreid req;
     body_bookinstanceid := body_bookinstanceid req;
     body := body req;
     fresh_id := fresh_id req;
     contexts := contexts req ++ [e] |}.

(** The string a standard validator or sanitizer is run on. *)
Definition toString (v : option Value) : string :=
  match v with
  | Some (VStr s) => s
  | Some (VDate d) => d
  | Some (VId o) => oid_hex o
  | Some VNull | None => EmptyString
  end.

Definition falsy (v : option Value) : bool :=
  match v with
  | None | Some VNull => true
  | Some (VStr s) => bool_decide (s = EmptyString)
  | Some _ => false
  end.

Inductive ChainItem :=
| Sanitizer (f : string -> Value)
| StandardValidator (p : string -> bool)
| OptionalFalsy.

(** The items of a chain run in order on the current value of the field;
    a failed validator records the chain's message and the run goes on,
    [optional] stops the chain when the value is falsy. *)
Fixpoint run_chain (path msg : string) (items : list ChainItem)
    (req : Request) : Request :=
  match items with
  | [] => req
  | Sanitizer f :: r =>
      run_chain path msg r (set_body path (f (toString (body req !! path))) req)
  | StandardValidator p :: r =>
      run_chain path msg r
        (if p (toString (body req !! path)) then req
         else add_error {| err_path := path; err_msg := msg |} req)
  | OptionalFalsy :: r =>
      if falsy (body req !! path) then req else run_chain path msg r req
  end.

Definition ValidationChain := Request -> Request.

Definition body_chain (path msg : string) (items : list ChainItem)
  : ValidationChain := run_chain path msg items.

Definition trim : ChainItem := Sanitizer (fun s => VStr (Validator.trim s)).
Definition escape : ChainItem := Sanitizer (fun s => VStr (Validator.escape s)).
Definition isLength (min : nat) : ChainItem :=
  StandardValidator (Validator.isLength min).

Definition validationResult (req : Request) : list ValidationError :=
  contexts req.

Definition isEmpty (errors : list ValidationError) : bool :=
  match errors with [] => true | _ => false end.

(** ** The document store and asynchronous operations *)

Record Store := {
  genres : list Doc;
  books : list Doc;
  bookinstances : list Doc
}.

(** What is thrown, or handed to [next]: an error object the code or
    the runtime builds, with its name, its message and the [status] the
    code may set on it; or one of the two errors Mongoose raises here,
    a CastError for a value of a query that does not cast, and a
    ValidationError from [save].  Of Mongoose's errors only the kind
    and the value at fault are kept, their messages are the library's;
    neither has a [status]. *)
Inductive Error :=
| JsError (error_name message : string) (status : option nat)
| CastError (value : Value)
| MongooseValidationError.

Definition error_status (e : Error) : option nat :=
  match e with
  | JsError _ _ s => s
  | CastError _ | MongooseValidationError => None
  end.

Inductive Settled (A : Type) :=
| Fulfilled (a : A)
| Rejected (e : Error).
Arguments Fulfilled {A} a.
Arguments Rejected {A} e.

(** An awaited operation: it reads and writes the store and either
    yields a value or throws. *)
Definition Async (A : Type) : Type := Store -> Store * Settled A.

#[global] Instance Async_ret : MRet Async :=
  fun A a st => (st, Fulfilled a).

#[global] Instance Async_bind : MBind Async :=
  fun A B k m st =>
    match m st with
    | (st', Fulfilled a) => k a st'
    | (st', Rejected e) => (st', Rejected e)
    end.

Definition throw {A : Type} (e : Error) : Async A :=
  fun st => (st, Rejected e).

Definition try_catch {A : Type} (m : Async A) (h : Error -> Async A)
  : Async A :=
  fun st =>
    match m st with
    | (st', Fulfilled a) => (st', Fulfilled a)
    | (st', Rejected e) => h e st'
    end.

Definition TypeError (msg : string) : Error := JsError "TypeError" msg None.

(** ** Mongoose: schemas, documents, queries *)

Definition castString (v : Value) : option Value :=
  match v with
  | VStr s => Some (VStr s)
  | VDate d => Some (VStr d)
  | VId o => Some (VStr (oid_hex o))
  | VNull => Some VNull
  end.

Definition castObjectIdValue (v : Value) : option Value :=
  match v with
  | VStr s => VId <$> castObjectId s
  | VId o => Some (VId o)
  | VNull => Some VNull
  | VDate _ => None
  end.

(** A path of a schema: how it casts a value ([None]: the cast fails),
    whether it is required, and the values an enumeration allows. *)
Record SchemaPath := schema_path {
  path_name : string;
  path_cast : Value -> option Value;
  path_required : bool;
  path_enum : option (list string)
}.

Inductive Collection := GenreC | BookC | BookInstanceC.

Record Model := {
  model_collection : Collection;
  model_schema : list SchemaPath
}.

Definition collection (c : Collection) (st : Store) : list Doc :=
  match c with
  | GenreC => genres st
  | BookC => books st
  | BookInstanceC => bookinstances st
  end.

Definition set_collection (c : Collection) (l : list Doc) (st : Store)
  : Store :=
  match c with
  | GenreC => {| genres := l; books := books st; bookinstances := bookinstances st |}
  | BookC => {| genres := genres st; books := l; bookinstances := bookinstances st |}
  | BookInstanceC => {| genres := genres st; books := books st; bookinstances := l |}
  end.

(** A document under construction: the paths set so far and the paths
    whose value did not cast (these stay unset and fail validation). *)
Record Document := {
  doc_fields : Doc;
  doc_invalid : list string
}.

Definition set_path (p : SchemaPath) (o : Doc) (d : Document) : Document :=
  match o !! path_name p with
  | None => d
  | Some v =>
      match path_cast p v with
      | Some v' =>
          {| doc_fields := <[path_name p := v']> (doc_fields d);
             doc_invalid := doc_invalid d |}
      | None =>
          {| doc_fields := doc_fields d;
             doc_invalid := doc_invalid d ++ [path_name p] |}
      end
  end.

(** The ObjectId a value given as [_id] casts to. *)
Definition cast_id (v : Value) : option ObjectId :=
  match v with
  | VStr s => castObjectId s
  | VId o => Some o
  | VDate _ | VNull => None
  end.

(** [new M(o)]: an [_id] is generated before the values of [o] are set;
    the [_id] given in [o] takes its place when it casts and is an
    invalid path when it does not.  Keys outside the schema are
    dropped. *)
Definition new (M : Model) (fresh : ObjectId) (o : Doc) : Document :=
  foldr (fun p d => set_path p o d)
    match o !! "_id" with
    | None => {| doc_fields := {[ "_id" := VId fresh ]}; doc_invalid := [] |}
    | Some v =>
        match cast_id v with
        | Some i => {| doc_fields := {[ "_id" := VId i ]}; doc_invalid := [] |}
        | None =>
            {| doc_fields := {[ "_id" := VId fresh ]}; doc_invalid := ["_id"] |}
        end
    end
    (model_schema M).

Definition required_ok (v : option Value) : bool :=
  match v with
  | None | Some VNull => false
  | Some (VStr s) => negb (bool_decide (s = EmptyString))
  | Some _ => true
  end.

Definition enum_ok (allowed : option (list string)) (v : option Value) : bool :=
  match allowed, v with
  | Some l, Some (VStr s) => bool_decide (s ∈ l)
  | _, _ => true
  end.

Definition path_ok (d : Doc) (p : SchemaPath) : bool :=
  (negb (path_required p) || required_ok (d !! path_name p))
  && enum_ok (path_enum p) (d !! path_name p).

Definition validate (M : Model) (d : Document) : bool :=
  match doc_invalid d with
  | [] => forallb (path_ok (doc_fields d)) (model_schema M)
  | _ => false
  end.

(** [doc.save()] of a newly constructed document. *)
Definition save (M : Model) (d : Document) : Async unit :=
  fun st =>
    if validate M d
    then (set_collection (model_collection M)
            (collection (model_collection M) st ++ [doc_fields d]) st,
          Fulfilled tt)
    else (st, Rejected MongooseValidationError).

Definition matches (q : Doc) (d : Doc) : bool :=
  bool_decide (map_Forall (fun k v => d !! k = Some v) q).

Definition has_id (i : ObjectId) (d : Doc) : bool :=
  bool_decide (d !! "_id" = Some (VId i)).

(** The order of a sort: a missing path sorts as null, null before
    strings, strings before ObjectIds, ObjectIds before dates; strings
    compare byte by byte. *)
Definition value_rank (v : option Value) : nat :=
  match v with
  | None | Some VNull => 0
  | Some (VStr _) => 1
  | Some (VId _) => 2
  | Some (VDate _) => 3
  end.

Definition value_leb (a b : option Value) : bool :=
  match a, b with
  | Some (VStr x), Some (VStr y) => String.leb x y
  | Some (VId x), Some (VId y) => String.leb (oid_hex x) (oid_hex y)
  | Some (VDate x), Some (VDate y) => String.leb x y
  | _, _ => Nat.leb (value_rank a) (value_rank b)
  end.

Definition key_leb (key : string) (d1 d2 : Doc) : bool :=
  value_leb (d1 !! key) (d2 !! key).

Fixpoint insert_sorted (key : string) (d : Doc) (l : list Doc) : list Doc :=
  match l with
  | [] => [d]
  | e :: r =>
      if key_leb key d e then d :: e :: r else e :: insert_sorted key d r
  end.

(** [.sort({ key: 1 })]: ascending, documents with equal keys keep the
    order of the collection. *)
Fixpoint sort (key : string) (l : list Doc) : list Doc :=
  match l with
  | [] => []
  | d :: r => insert_sorted key d (sort key r)
  end.

(** A projection keeps [_id] and the named paths. *)
Definition select (paths : list string) (d : Doc) : Doc :=
  filter (fun kv => kv.1 = "_id" \/ kv.1 ∈ paths) d.

Definition sort_by (key : option string) (l : list Doc) : list Doc :=
  match key with
  | Some k => sort k l
  | None => l
  end.

Definition project (paths : option (list string)) (l : list Doc) : list Doc :=
  match paths with
  | Some ps => select ps <$> l
  | None => l
  end.

(** The conditions of a filter, as the object literal lists them. *)
Abbreviation Conditions := (list (string * option Value)).

(** How a query casts the value given for a path: [_id] to an ObjectId,
    a path of the schema as the schema says, any other key not at
    all. *)
Definition cast_condition (M : Model) (k : string) (v : Value) : option Value :=
  if String.eqb k "_id" then VId <$> cast_id v
  else
    match List.find (fun p => String.eqb (path_name p) k) (model_schema M) with
    | Some p => path_cast p v
    | None => Some v
    end.

(** A query casts its conditions before it runs, and rejects with a
    CastError at the first value that does not cast. *)
Fixpoint cast_conditions (M : Model) (q : Conditions) : Error + Conditions :=
  match q with
  | [] => inr []
  | (k, None) :: r =>
      match cast_conditions M r with
      | inl e => inl e
      | inr r' => inr ((k, None) :: r')
      end
  | (k, Some v) :: r =>
      match cast_condition M k v with
      | None => inl (CastError v)
      | Some v' =>
          match cast_conditions M r with
          | inl e => inl e
          | inr r' => inr ((k, Some v') :: r')
          end
      end
  end.

(** [M.find(filter, projection).sort({ key: 1 }).exec()] *)
Definition find (M : Model) (q : Conditions) (projection : option (list string))
    (sort_key : option string) : Async (list Doc) :=
  fun st =>
    match cast_conditions M q with
    | inl e => (st, Rejected e)
    | inr q' =>
        (st, Fulfilled
               (project projection
                  (sort_by sort_key
                     (List.filter (matches (obj q'))
                        (collection (model_collection M) st)))))
    end.

Definition findOne (M : Model) (q : Conditions) : Async (option Doc) :=
  fun st =>
    match cast_conditions M q with
    | inl e => (st, Rejected e)
    | inr q' =>
        (st, Fulfilled
               (List.find (matches (obj q')) (collection (model_collection M) st)))
    end.

(** [M.findById(id)]: the id is cast, and the query rejects when it does
    not cast. *)
Definition findById (M : Model) (id : string) : Async (option Doc) :=
  fun st =>
    match castObjectId id with
    | None => (st, Rejected (CastError (VStr id)))
    | Some i =>
        (st, Fulfilled (List.find (has_id i) (collection (model_collection M) st)))
    end.

Fixpoint remove_first (p : Doc -> bool) (l : list Doc) : list Doc :=
  match l with
  | [] => []
  | d :: r => if p d then r else d :: remove_first p r
  end.

Fixpoint update_first (p : Doc -> bool) (f : Doc -> Doc) (l : list Doc)
  : list Doc :=
  match l with
  | [] => []
  | d :: r => if p d then f d :: r else d :: update_first p f r
  end.

(** [M.findByIdAndDelete(id)]: the first document with that [_id], if
    there is one, leaves the collection; it is what the promise yields.
    An id that does not cast rejects, and nothing is deleted. *)
Definition findByIdAndDelete (M : Model) (id : string) : Async (option Doc) :=
  fun st =>
    let c := model_collection M in
    match castObjectId id with
    | None => (st, Rejected (CastError (VStr id)))
    | Some i =>
        (set_collection c (remove_first (has_id i) (collection c st)) st,
         Fulfilled (List.find (has_id i) (collection c st)))
    end.

(** [M.findByIdAndUpdate(id, doc, {})]: the paths set in [doc] overwrite
    those of the first document with that [_id]; nothing is inserted
    when there is none.  The promise yields the document as it was.
    An id that does not cast rejects, and nothing is updated. *)
Definition findByIdAndUpdate (M : Model) (id : string) (u : Document)
  : Async (option Doc) :=
  fun st =>
    let c := model_collection M in
    match castObjectId id with
    | None => (st, Rejected (CastError (VStr id)))
    | Some i =>
        (set_collection c
           (update_first (has_id i) (fun d => doc_fields u ∪ d) (collection c st))
           st,
         Fulfilled (List.find (has_id i) (collection c st)))
    end.

(** The value [toDate] leaves: the date parsed, or null. *)
Definition date_value (d : option string) : Value :=
  match d with
  | Some x => VDate x
  | None => VNull
  end.

(** ** The models *)

(** What the controllers take from outside the sources at hand: the date
    functions of validator.js ([isISO8601], and [toDate], which yields
    no date for text [Date.parse] rejects), the cast Mongoose applies to
    a value stored under a Date path, and the values the enumeration of
    [BookInstance.status] allows. *)
Class Externals := {
  isISO8601_text : string -> bool;
  toDate_text : string -> option string;
  castDate_text : string -> option string;
  status_values : list string
}.

(** Modelled from the spec: the Genre model, missing from the sources;
    [{ id, name (string, required, length >= 1) }]. *)
Definition Genre : Model :=
  {| model_collection := GenreC;
     model_schema :=
       [ {| path_name := "name"; path_cast := castString;
            path_required := true; path_enum := None |} ] |}.

(** Modelled from the spec: the Book model, missing from the sources;
    [{ id, title, summary, genre (reference to Genre), ... }]. *)
Definition Book : Model :=
  {| model_collection := BookC;
     model_schema :=
       [ {| path_name := "title"; path_cast := castString;
            path_required := false; path_enum := None |};
         {| path_name := "summary"; path_cast := castString;
            path_required := false; path_enum := None |};
         {| path_name := "genre"; path_cast := castObjectIdValue;
            path_required := false; path_enum := None |} ] |}.

Definition castDateValue `{Externals} (v : Value) : option Value :=
  match v with
  | VDate d => Some (VDate d)
  | VNull => Some VNull
  | VStr s =>
      if bool_decide (s = EmptyString) then Some VNull
      else VDate <$> castDate_text s
  | VId _ => None
  end.

(** Modelled from the spec: the BookInstance model, missing from the
    sources; [{ id, book (reference to Book, required), imprint (string,
    required), status (enumerated string), due_back (optional date) }]. *)
Definition BookInstance `{Externals} : Model :=
  {| model_collection := BookInstanceC;
     model_schema :=
       [ {| path_name := "book"; path_cast := castObjectIdValue;
            path_required := true; path_enum := None |};
         {| path_name := "imprint"; path_cast := castString;
            path_required := true; path_enum := None |};
         {| path_name := "status"; path_cast := castString;
            path_required := false; path_enum := Some status_values |};
         {| path_name := "due_back"; path_cast := castDateValue;
            path_required := false; path_enum := None |} ] |}.

Definition id_text (d : Doc) : string :=
  match d !! "_id" with
  | Some (VId i) => oid_hex i
  | _ => "undefined"
  end.

(** Modelled from the spec: the virtual [url] of a Genre,
    [/catalog/genre/{id}]. *)
Definition Genre_url (d : Doc) : string := "/catalog/genre/" +:+ id_text d.

(** Modelled from the spec: the virtual [url] of a BookInstance,
    [/catalog/bookinstance/{id}]. *)
Definition BookInstance_url (d : Doc) : string :=
  "/catalog/bookinstance/" +:+ id_text d.

(** ** Express: responses, handlers, routes *)

Inductive Local :=
| LString (s : string)
| LDoc (d : Doc)
| LDocs (l : list Doc)
| LErrors (l : list ValidationError)
| LId (i : ObjectId)
| LNull
| LUndefined.

Definition Locals := list (string * Local).

(** What a handler does with the request: [res.render(view, locals)],
    [res.redirect(url)] or [next(err)]. *)
Inductive Response :=
| Render (view : string) (locals : Locals)
| Redirect (url : string)
| Next (e : Error).

(** The status line of a response the handler itself sends. *)
Definition status_code (r : Response) : option nat :=
  match r with
  | Render _ _ => Some 200
  | Redirect _ => Some 302
  | Next _ => None
  end.

Definition local_of_doc (o : option Doc) : Local :=
  match o with
  | Some d => LDoc d
  | None => LNull
  end.

(** Reading [v._id]: a TypeError on [undefined] and [null], the
    ObjectId itself on an ObjectId. *)
Definition read_id (v : option Value) : Async Local :=
  match v with
  | Some (VId i) => mret (LId i)
  | None =>
      throw (TypeError "Cannot read properties of undefined (reading '_id')")
  | Some VNull =>
      throw (TypeError "Cannot read properties of null (reading '_id')")
  | Some _ => mret LUndefined
  end.

Definition Handler := Request -> Store -> Store * Response.

(** [asyncHandler(fn)]: a rejection of [fn] goes to [next]. *)
Definition asyncHandler (fn : Request -> Async Response) : Handler :=
  fun req st =>
    match fn req st with
    | (st', Fulfilled r) => (st', r)
    | (st', Rejected e) => (st', Next e)
    end.

(** An export of a controller: the validation chains in front of the
    handler (none when the export is the handler alone). *)
Record Route := {
  validations : list ValidationChain;
  handler : Handler
}.

Definition route (h : Handler) : Route :=
  {| validations := []; handler := h |}.

Definition run_validations (cs : list ValidationChain) (req : Request)
  : Request :=
  foldl (fun r c => c r) req cs.

Definition serve (r : Route) (i : Incoming) (st : Store) : Store * Response :=
  handler r (run_validations (validations r) (receive i)) st.

(** [new Error(msg)] with [err.status = 404]. *)
Definition NotFound (msg : string) : Error := JsError "Error" msg (Some 404).

(** ** Mongoose: populated references *)

(** What a populated path holds: the document referred to, null when no
    document has the id, nothing when the path is unset. *)
Inductive Reference :=
| RefDoc (d : Doc)
| RefNull
| RefUndefined.

(** A document after [populate(path)]: its own paths, and what the
    populated path now holds. *)
Record Populated := {
  pop_fields : Doc;
  pop_path : string;
  pop_ref : Reference
}.

Definition populate_doc (path : string) (ref : Model) (st : Store) (d : Doc)
  : Populated :=
  {| pop_fields := d;
     pop_path := path;
     pop_ref :=
       match d !! path with
       | Some (VId i) =>
           match List.find (has_id i) (collection (model_collection ref) st) with
           | Some r => RefDoc r
           | None => RefNull
           end
       | Some _ => RefNull
       | None => RefUndefined
       end |}.

(** [query.populate(path)], [ref] being the model the schema names for
    the path (modelled from the spec: [BookInstance.book] refers to a
    Book), on the result of [findById] and of [find]. *)
Definition populate (path : string) (ref : Model) (d : option Doc)
  : Async (option Populated) :=
  fun st => (st, Fulfilled (populate_doc path ref st <$> d)).

Definition populate_all (path : string) (ref : Model) (l : list Doc)
  : Async (list Populated) :=
  fun st => (st, Fulfilled (populate_doc path ref st <$> l)).

(** Reading [r.key] of a populated reference: a TypeError on null and on
    undefined. *)
Definition read_property (r : Reference) (key : string)
  : Async (option Value) :=
  match r with
  | RefDoc d => mret (d !! key)
  | RefNull =>
      throw (TypeError ("Cannot read properties of null (reading '"
                        +:+ key +:+ "')"))
  | RefUndefined =>
      throw (TypeError ("Cannot read properties of undefined (reading '"
                        +:+ key +:+ "')"))
  end.

(** The locals of a view that is given populated documents, and the
    responses of the handlers that render such views. *)
Inductive PLocal :=
| Plain (l : Local)
| PDoc (p : Populated)
| PDocs (l : list Populated)
| PValue (v : option Value).

Inductive PResponse :=
| PRender (view : string) (locals : list (string * PLocal))
| Other (r : Response).

Definition PHandler := Request -> Store -> Store * PResponse.

(** [asyncHandler(fn)] for these handlers. *)
Definition asyncHandlerP (fn : Request -> Async PResponse) : PHandler :=
  fun req st =>
    match fn req st with
    | (st', Fulfilled r) => (st', r)
    | (st', Rejected e) => (st', Other (Next e))
    end.

Definition serveP (h : PHandler) (i : Incoming) (st : Store)
  : Store * PResponse :=
  h (receive i) st.

(** ** The genre controller

    The handlers the statements below are about, each under the name it
    is exported with. *)

Module GenreController.

Definition genre_list : Handler :=
  asyncHandler (fun req =>
    allGenres ← find Genre [] None (Some "genre_name");
    mret (Render "genre_list"
            [("title", LString "Genre List");
             ("genre_list", LDocs allGenres)])).

Definition genre_detail : Handler :=
  asyncHandler (fun req =>
    genre ← findById Genre (params_id req);
    booksInGenre ← find Book [("genre", Some (VStr (params_id req)))]
                      (Some ["title"; "summary"]) None;
    match genre with
    | None => mret (Next (NotFound "Genre not found"))
    | Some g =>
        mret (Render "genre_detail"
                [("title", LString "Genre Detail");
                 ("genre", LDoc g);
                 ("genre_books", LDocs booksInGenre)])
    end).

Definition genre_create_get : Handler :=
  fun req st => (st, Render "genre_form" [("title", LString "Create Genre")]).

Definition genre_create_post : Route :=
  {| validations :=
       [ body_chain "name" "Genre name must contain at least 3 characters"
           [trim; isLength 3; escape] ];
     handler :=
       asyncHandler (fun req =>
         let errors := validationResult req in
         let genre := new Genre (fresh_id req) (obj [("name", body req !! "name")]) in
         if negb (isEmpty errors) then
           mret (Render "genre_form"
                   [("title", LString "Create Genre");
                    ("genre", LDoc (doc_fields genre));
                    ("errors", LErrors errors)])
         else
           genreExists ← findOne Genre [("name", body req !! "name")];
           match genreExists with
           | Some g => mret (Redirect (Genre_url g))
           | None =>
               _ ← save Genre genre;
               mret (Redirect (Genre_url (doc_fields genre)))
           end) |}.

Definition genre_delete_get : Handler :=
  asyncHandler (fun req =>
    try_catch
      (genre ← findById Genre (params_id req);
       booksUsingGenre ← find Book [("genre", Some (VStr (params_id req)))]
                            (Some ["title"]) None;
       match genre with
       | None => mret (Redirect "/catalog/genres")
       | Some g =>
           mret (Render "genre_delete"
                   [("title", LString "Delete Genre");
                    ("genre", LDoc g);
                    ("books_using_genre", LDocs booksUsingGenre)])
       end)
      (fun err => mret (Next err))).

Definition genre_delete_post : Handler :=
  asyncHandler (fun req =>
    try_catch
      (genre ← findById Genre (params_id req);
       booksUsingGenre ← find Book [("genre", Some (VStr (params_id req)))]
                            None None;
       if Nat.ltb 0 (List.length booksUsingGenre) then
         mret (Render "genre_delete"
                 [("title", LString "Delete Genre");
                  ("genre", local_of_doc genre);
                  ("books_using_genre", LDocs booksUsingGenre)])
       else
         _ ← findByIdAndDelete Genre (body_genreid req);
         mret (Redirect "/catalog/genres"))
      (fun err => mret (Next err))).

Definition genre_update_get : Handler :=
  asyncHandler (fun req =>
    try_catch
      (genre ← findById Genre (params_id req);
       match genre with
       | None => mret (Next (NotFound "Genre not found"))
       | Some g =>
           mret (Render "genre_form"
                   [("title", LString "Update Genre");
                    ("genre", LDoc g)])
       end)
      (fun err => mret (Next err))).

Definition genre_update_post : Route :=
  {| validations :=
       [ body_chain "name" "Genre name must not be empty."
           [trim; isLength 1; escape] ];
     handler :=
       asyncHandler (fun req =>
         let errors := validationResult req in
         let genre :=
           new Genre (fresh_id req)
             (obj [("name", body req !! "name");
                   ("_id", Some (VStr (params_id req)))]) in
         if negb (isEmpty errors) then
           mret (Render "genre_form"
                   [("title", LString "Update Genre");
                    ("genre", LDoc (doc_fields genre));
                    ("errors", LErrors errors)])
         else
           try_catch
             (_ ← findByIdAndUpdate Genre (params_id req) genre;
              mret (Redirect (Genre_url (doc_fields genre))))
             (fun err => mret (Next err))) |}.

End GenreController.

(** ** controllers/bookinstanceController.js *)

Module BookInstanceController.

Section WithExternals.
Context `{Externals}.

Definition isISO8601 : ChainItem := StandardValidator isISO8601_text.

Definition toDate : ChainItem :=
  Sanitizer (fun s => date_value (toDate_text s)).

Definition bookinstance_create_post : Route :=
  {| validations :=
       [ body_chain "book" "Book must be specified" [trim; isLength 1; escape];
         body_chain "imprint" "Imprint must be specified"
           [trim; isLength 1; escape];
         body_chain "status" "Invalid value" [escape];
         body_chain "due_back" "Invalid date" [OptionalFalsy; isISO8601; toDate] ];
     handler :=
       asyncHandler (fun req =>
         let errors := validationResult req in
         let bookInstance :=
           new BookInstance (fresh_id req)
             (obj [("book", body req !! "book");
                   ("imprint", body req !! "imprint");
                   ("status", body req !! "status");
                   ("due_back", body req !! "due_back")]) in
         if negb (isEmpty errors) then
           allBooks ← find Book [] (Some ["title"]) (Some "title");
           selected_book ← read_id (doc_fields bookInstance !! "book");
           mret (Render "bookinstance_form"
                   [("title", LString "Create BookInstance");
                    ("book_list", LDocs allBooks);
                    ("selected_book", selected_book);
                    ("errors", LErrors errors);
                    ("bookinstance", LDoc (doc_fields bookInstance))])
         else
           _ ← save BookInstance bookInstance;
           mret (Redirect (BookInstance_url (doc_fields bookInstance)))) |}.

Definition bookinstance_delete_post : Handler :=
  asyncHandler (fun req =>
    try_catch
      (_ ← findByIdAndDelete BookInstance (body_bookinstanceid req);
       mret (Redirect "/catalog/bookinstances"))
      (fun err => mret (Next err))).

Definition bookinstance_update_post : Handler :=
  asyncHandler (fun req =>
    try_catch
      (let bookInstance :=
         new BookInstance (fresh_id req)
           (obj [("_id", Some (VStr (params_id req)));
                 ("book", body req !! "book");
                 ("imprint", body req !! "imprint");
                 ("status", body req !! "status");
                 ("due_back", body req !! "due_back")]) in
       let errors := validationResult req in
       if negb (isEmpty errors) then
         allBooks ← find Book [] (Some ["title"]) (Some "title");
         mret (Render "bookinstance_form"
                 [("title", LString "Update BookInstance");
                  ("bookinstance", LDoc (doc_fields bookInstance));
                  ("book_list", LDocs allBooks);
                  ("errors", LErrors errors)])
       else
         _ ← findByIdAndUpdate BookInstance (params_id req) bookInstance;
         mret (Redirect (BookInstance_url (doc_fields bookInstance))))
      (fun err => mret (Next err))).

Definition bookinstance_list : PHandler :=
  asyncHandlerP (fun req =>
    found ← find BookInstance [] None None;
    allBookInstances ← populate_all "book" Book found;
    mret (PRender "bookinstance_list"
            [("title", Plain (LString "Book Instance List"));
             ("bookinstance_list", PDocs allBookInstances)])).

Definition bookinstance_detail : PHandler :=
  asyncHandlerP (fun req =>
    found ← findById BookInstance (params_id req);
    bookInstance ← populate "book" Book found;
    match bookInstance with
    | None => mret (Other (Next (NotFound "Book copy not found")))
    | Some b =>
        mret (PRender "bookinstance_detail"
                [("title", Plain (LString "Book:"));
                 ("bookinstance", PDoc b)])
    end).

Definition bookinstance_create_get : Handler :=
  asyncHandler (fun req =>
    allBooks ← find Book [] (Some ["title"]) (Some "title");
    mret (Render "bookinstance_form"
            [("title", LString "Create Book Instance");
             ("book_list", LDocs allBooks)])).

Definition bookinstance_delete_get : PHandler :=
  asyncHandlerP (fun req =>
    try_catch
      (found ← findById BookInstance (params_id req);
       bookInstance ← populate "book" Book found;
       match bookInstance with
       | None => throw (NotFound "BookInstance not found")
       | Some b =>
           mret (PRender "bookinstance_delete"
                   [("title", Plain (LString "Delete Book Instance"));
                    ("bookinstance", PDoc b)])
       end)
      (fun err => mret (Other (Next err)))).

Definition bookinstance_update_get : PHandler :=
  asyncHandlerP (fun req =>
    try_catch
      (found ← findById BookInstance (params_id req);
       bookInstance ← populate "book" Book found;
       match bookInstance with
       | None => mret (Other (Next (NotFound "Book instance not found")))
       | Some b =>
           allBooks ← find Book [] (Some ["title"]) (Some "title");
           default_book_title ← read_property (pop_ref b) "title";
           mret (PRender "bookinstance_form"
                   [("title", Plain (LString "Update Book Instance"));
                    ("bookinstance", PDoc b);
                    ("book_list", Plain (LDocs allBooks));
                    ("default_book_title", PValue default_book_title)])
       end)
      (fun err => mret (Other (Next err)))).

End WithExternals.

End BookInstanceController.

(** ** Vocabulary of the statements *)

(** The text submitted under a form field (empty when the field is
    absent, as the chains read it). *)
Definition submitted (i : Incoming) (k : string) : string :=
  default EmptyString (in_body i !! k).

(** The value a [trim().isLength().escape()] chain leaves in the body. *)
Definition sanitized (s : string) : string :=
  Validator.escape (Validator.trim s).

(** A book references the genre [g]. *)
Definition references (g : ObjectId) (b : Doc) : Prop :=
  b !! "genre" = Some (VId g).

(** The documents [Book.find({ genre: id })] yields when [id] casts to
    [g]. *)
Definition books_using (g : ObjectId) (st : Store) : list Doc :=
  List.filter (matches (obj [("genre", Some (VId g))])) (books st).

Definition key_le (key : string) (d1 d2 : Doc) : Prop :=
  key_leb key d1 d2 = true.

Definition with_genres (l : list Doc) (st : Store) : Store :=
  set_collection GenreC l st.

Definition with_bookinstances (l : list Doc) (st : Store) : Store :=
  set_collection BookInstanceC l st.

(** The errors a [trim().isLength({ min }).escape()] chain records. *)
Definition field_errors (path msg : string) (min : nat) (s : string)
  : list ValidationError :=
  if Validator.isLength min (Validator.trim s) then []
  else [{| err_path := path; err_msg := msg |}].

(** The document the update handler builds: the route id with the
    fields as submitted. *)
Definition update_document `{Externals} (i : Incoming) : Document :=
  new BookInstance (in_fresh_id i)
    (obj [("_id", Some (VStr (in_params_id i)));
          ("book", VStr <$> in_body i !! "book");
          ("imprint", VStr <$> in_body i !! "imprint");
          ("status", VStr <$> in_body i !! "status");
          ("due_back", VStr <$> in_body i !! "due_back")]).

Definition date_error : ValidationError :=
  {| err_path := "due_back"; err_msg := "Invalid date" |}.

Definition name_error : ValidationError :=
  {| err_path := "name";
     err_msg := "Genre name must contain at least 3 characters" |}.

(** ** Sample data *)

Definition oid_scifi : ObjectId := Oid "65a1b2c3d4e5f60718293a01".
Definition oid_fantasy : ObjectId := Oid "65a1b2c3d4e5f60718293a02".
Definition oid_rnb : ObjectId := Oid "65a1b2c3d4e5f60718293a03".
Definition oid_dune : ObjectId := Oid "65a1b2c3d4e5f60718293b01".
Definition oid_emma : ObjectId := Oid "65a1b2c3d4e5f60718293b02".
Definition oid_copy : ObjectId := Oid "65a1b2c3d4e5f60718293c01".
Definition oid_new : ObjectId := Oid "65a1b2c3d4e5f60718293f01".
Definition oid_unknown : ObjectId := Oid "65a1b2c3d4e5f60718293e01".

Definition genre_doc (i : ObjectId) (name : string) : Doc :=
  obj [("_id", Some (VId i)); ("name", Some (VStr name))].

Definition book_doc (i : ObjectId) (title summary : string) (g : ObjectId)
  : Doc :=
  obj [("_id", Some (VId i)); ("title", Some (VStr title));
       ("summary", Some (VStr summary)); ("genre", Some (VId g))].

Definition bookinstance_doc (i book : ObjectId) (imprint status : string)
  : Doc :=
  obj [("_id", Some (VId i)); ("book", Some (VId book));
       ("imprint", Some (VStr imprint)); ("status", Some (VStr status))].

Definition genre_scifi : Doc := genre_doc oid_scifi "Science Fiction".
Definition genre_fantasy : Doc := genre_doc oid_fantasy "Fantasy".
Definition genre_rnb : Doc := genre_doc oid_rnb "R&amp;B".
Definition book_dune : Doc :=
  book_doc oid_dune "Dune" "A desert planet." oid_scifi.
Definition book_emma : Doc :=
  book_doc oid_emma "Emma" "A matchmaker." oid_unknown.
Definition copy_dune : Doc :=
  bookinstance_doc oid_copy oid_dune "Ace, 1990" "Available".

(** Two genres, in the order they were inserted; one book, one copy. *)
Definition catalogue : Store :=
  {| genres := [genre_scifi; genre_fantasy];
     books := [book_dune];
     bookinstances := [copy_dune] |}.

(** A catalogue whose second book names a genre that is not stored. *)
Definition dangling_catalogue : Store :=
  {| genres := [genre_scifi; genre_fantasy];
     books := [book_dune; book_emma];
     bookinstances := [copy_dune] |}.

Definition music_catalogue : Store :=
  {| genres := [genre_rnb]; books := []; bookinstances := [] |}.

(** A request that carries any text where an id is expected, and one
    that carries the text of three ids. *)
Definition raw_request (id genreid bookinstanceid : string)
    (fields : list (string * string)) : Incoming :=
  {| in_params_id := id;
     in_genreid := genreid;
     in_bookinstanceid := bookinstanceid;
     in_body := list_to_map fields;
     in_fresh_id := oid_new |}.

Definition request (id genreid bookinstanceid : ObjectId)
    (fields : list (string * string)) : Incoming :=
  raw_request (oid_hex id) (oid_hex genreid) (oid_hex bookinstanceid) fields.

Definition plain_request : Incoming :=
  request oid_unknown oid_unknown oid_unknown [].

(** Requests to create a genre: a stored name with blanks around it, a
    name that is the stored text of an escaped name, a short name. *)
Definition fantasy_request : Incoming :=
  request oid_unknown oid_unknown oid_unknown [("name", " Fantasy ")].
Definition entity_name_request : Incoming :=
  request oid_unknown oid_unknown oid_unknown [("name", "R&amp;B")].
Definition short_name_request : Incoming :=
  request oid_unknown oid_unknown oid_unknown [("name", " a< ")].

(** Requests to delete the genres of the sample catalogue, and a genre
    that is not stored. *)
Definition delete_scifi_request : Incoming :=
  request oid_scifi oid_scifi oid_unknown [].
Definition delete_fantasy_request : Incoming :=
  request oid_fantasy oid_fantasy oid_unknown [].
Definition delete_unknown_request : Incoming :=
  request oid_unknown oid_fantasy oid_unknown [].

(** Requests to create a copy with a due date that is no date: of a
    stored book, and with no book selected. *)
Definition bad_date_request : Incoming :=
  request oid_unknown oid_unknown oid_unknown
    [("book", "65A1B2C3D4E5F60718293B01"); ("imprint", " <Ace> ");
     ("status", "Available"); ("due_back", "tomorrow")].
Definition blank_book_request : Incoming :=
  request oid_unknown oid_unknown oid_unknown
    [("book", EmptyString); ("imprint", "Ace, 1990");
     ("status", "Available"); ("due_back", "tomorrow")].

(** The copy the form is rendered with for [bad_date_request]. *)
Definition rendered_copy : Doc :=
  obj [("_id", Some (VId oid_new)); ("book", Some (VId oid_dune));
       ("imprint", Some (VStr "&lt;Ace&gt;"));
       ("status", Some (VStr "Available")); ("due_back", Some VNull)].

(** A calendar date [YYYY-MM-DD], the fragment of ISO 8601 the sample
    instance below recognises. *)
Definition is_digit (c : ascii) : bool :=
  let n := nat_of_ascii c in Nat.leb 48 n && Nat.leb n 57.

Definition is_calendar_date (s : string) : bool :=
  match s with
  | String y1 (String y2 (String y3 (String y4 (String d1 (String m1
      (String m2 (String d2 (String a1 (String a2 EmptyString))))))))) =>
      is_digit y1 && is_digit y2 && is_digit y3 && is_digit y4
      && Ascii.eqb d1 "-" && is_digit m1 && is_digit m2
      && Ascii.eqb d2 "-" && is_digit a1 && is_digit a2
  | _ => false
  end.

Definition midnight (s : string) : option string :=
  if is_calendar_date s then Some (s +:+ "T00:00:00.000Z") else None.

Definition sample_externals : Externals :=
  {| isISO8601_text := is_calendar_date;
     toDate_text := midnight;
     castDate_text := midnight;
     status_values := ["Available"; "Maintenance"; "Loaned"; "Reserved"] |}.

(** ** Further vocabulary *)

(** The names of a list of genres, in order. *)
Definition names (l : list Doc) : list (option Value) :=
  (fun g => g !! "name") <$> l.

(** The characters [escape] replaces, the ampersand apart. *)
Definition html_special (c : ascii) : bool :=
  Ascii.eqb c Validator.double_quote || Ascii.eqb c "'" || Ascii.eqb c "<"
  || Ascii.eqb c ">" || Ascii.eqb c "/" || Ascii.eqb c Validator.backslash
  || Ascii.eqb c "`".

(** Text with none of the characters [escape] replaces. *)
Definition unescaped (s : string) : bool :=
  string_forallb (fun c => negb (html_special c || Ascii.eqb c "&")) s.

(** The characters [isLength] counts. *)
Definition counted (ch : string) : bool :=
  negb (Validator.is_variation_selector ch).

(** A byte that begins a character and is not the first byte of a
    variation selector. *)
Definition plain (a : ascii) : bool :=
  negb (Validator.is_continuation a) && negb (Nat.eqb (nat_of_ascii a) 239).

(** At most one document of the list has the id. *)
Definition at_most_one (i : ObjectId) (l : list Doc) : Prop :=
  List.length (List.filter (has_id i) l) <= 1.

(** The document the genre update handler builds. *)
Definition renamed (i : ObjectId) (name : string) : Doc :=
  <["name" := VStr name]> {[ "_id" := VId i ]}.

Definition empty_name_error : ValidationError :=
  {| err_path := "name"; err_msg := "Genre name must not be empty." |}.

(** ** Further sample data *)

Definition horror_request : Incoming :=
  request oid_unknown oid_unknown oid_unknown [("name", " Horror ")].
Definition new_genre_request : Incoming :=
  request oid_new oid_unknown oid_unknown [].
Definition rename_request : Incoming :=
  request oid_fantasy oid_unknown oid_unknown [("name", " High Fantasy ")].
Definition blank_rename_request : Incoming :=
  request oid_fantasy oid_unknown oid_unknown [("name", "   ")].
Definition short_rename_request : Incoming :=
  request oid_fantasy oid_unknown oid_unknown [("name", "SF")].
Definition duplicate_rename_request : Incoming :=
  request oid_fantasy oid_unknown oid_unknown [("name", "Science Fiction")].
Definition rename_unknown_request : Incoming :=
  request oid_unknown oid_unknown oid_unknown [("name", "Horror")].

(** A delete request whose form field names another genre than its
    route. *)
Definition mismatched_delete_request : Incoming :=
  request oid_fantasy oid_scifi oid_unknown [].

Definition copy_request : Incoming :=
  request oid_copy oid_unknown oid_copy [].
Definition new_copy_request : Incoming :=
  request oid_unknown oid_unknown oid_unknown
    [("book", "65a1b2c3d4e5f60718293b01"); ("imprint", " Ace, 1990 ");
     ("status", "Available"); ("due_back", EmptyString)].
Definition update_copy_request : Incoming :=
  request oid_copy oid_unknown oid_unknown
    [("book", "65a1b2c3d4e5f60718293b01"); ("imprint", " <b>Ace</b> ");
     ("status", "Loaned"); ("due_back", "2026-12-01")].

(** Requests that carry text that is no id: as the route parameter, as
    the form field of a delete form over a well-formed route, and as
    the route parameter of an update. *)
Definition malformed_request : Incoming :=
  raw_request "no-such-id" "no-such-id" "no-such-id" [].
Definition malformed_genreid_request : Incoming :=
  raw_request (oid_hex oid_fantasy) "fantasy" (oid_hex oid_unknown) [].
Definition malformed_bookinstanceid_request : Incoming :=
  raw_request (oid_hex oid_copy) (oid_hex oid_unknown) "the-copy" [].
Definition malformed_update_request : Incoming :=
  raw_request "the-copy" (oid_hex oid_unknown) (oid_hex oid_unknown)
    [("book", "65a1b2c3d4e5f60718293b01"); ("imprint", "Ace, 1990");
     ("status", "Loaned"); ("due_back", "2026-12-01")].

(** Text with characters outside ASCII: a no-break space, and names of
    two characters that take three and four bytes. *)
Definition nbsp : string := Validator.utf8 [194; 160].
Definition name_ne : string := "N" +:+ Validator.utf8 [195; 169].
Definition name_ee : string := Validator.utf8 [195; 169; 195; 169].

(** The sample catalogue after its book is gone. *)
Definition bookless_catalogue : Store :=
  {| genres := [genre_scifi; genre_fantasy];
     books := [];
     bookinstances := [copy_dune] |}.

(** ** Text: characters, length and escaping *)

Example trim_sample :
  Validator.trim (String (ascii_of_nat 9) "  Science Fiction  ") =
  "Science Fiction".
Proof. reflexivity. Qed.

(** Whitespace outside ASCII is trimmed as well, and a character counts
    once however many bytes encode it. *)
Example trim_unicode_sample :
  Validator.trim (nbsp +:+ " Fantasy" +:+ nbsp +:+ " ") = "Fantasy"
  /\ Validator.trim (nbsp +:+ nbsp) = EmptyString.
Proof. split; reflexivity. Qed.

Example len_sample :
  Validator.len name_ne = 2 /\ String.length name_ne = 3
  /\ Validator.len name_ee = 2 /\ String.length name_ee = 4
  /\ Validator.len (Validator.utf8 [240; 159; 147; 150]) = 1
  /\ Validator.len ("a" +:+ Validator.utf8 [239; 184; 143]) = 1.
Proof. repeat split. Qed.

Example escape_sample :
  Validator.escape "<R&B> 'n' `roll`/" =
  "&lt;R&amp;B&gt; &#x27;n&#x27; &#96;roll&#96;&#x2F;".
Proof. reflexivity. Qed.

Example castObjectId_samples :
  castObjectId "65A1B2C3D4E5F60718293B01" = Some oid_dune
  /\ castObjectId EmptyString = None
  /\ castObjectId "Dune" = None.
Proof. repeat split. Qed.

Lemma length_filter_negb {A : Type} (p : A -> bool) (l : list A) :
  List.length l - List.length (List.filter p l) =
  List.length (List.filter (fun a => negb (p a)) l).
Proof.
  induction l as [|a l IH]; [reflexivity|].
  pose proof (List.filter_length_le p l) as Hle.
  cbn. destruct (p a); cbn; lia.
Qed.

Lemma len_counted (s : string) :
  Validator.len s = List.length (List.filter counted (Validator.characters s)).
Proof. apply length_filter_negb. Qed.

Lemma characters_continued (c : ascii) (r : string) :
  Validator.starts_with_continuation r = true ->
  exists g gs,
    Validator.characters r = g :: gs
    /\ Validator.starts_with_continuation g = true
    /\ Validator.characters (String c r) = String c g :: gs.
Proof.
  revert c. induction r as [|c' r IH]; [discriminate|].
  intros c Hc. cbn [Validator.characters].
  destruct (Validator.characters r) as [|g gs] eqn:E.
  - exists (String c' EmptyString), []. rewrite Hc. repeat split. exact Hc.
  - destruct (Validator.starts_with_continuation r) eqn:Hr.
    + exists (String c' g), gs. rewrite Hc. repeat split. exact Hc.
    + exists (String c' EmptyString), (g :: gs). rewrite Hc. repeat split.
      exact Hc.
Qed.

Lemma characters_begun (c : ascii) (r : string) :
  Validator.starts_with_continuation r = false ->
  Validator.characters (String c r) =
  String c EmptyString :: Validator.characters r.
Proof.
  intros Hr. cbn [Validator.characters]. rewrite Hr.
  destruct (Validator.characters r); reflexivity.
Qed.

(** A character that does not begin with the byte 239 is no variation
    selector. *)
Lemma counted_cons (c : ascii) (g : string) :
  nat_of_ascii c <> 239 -> counted (String c g) = true.
Proof.
  intros Hc. unfold counted, Validator.is_variation_selector.
  assert (E : Ascii.eqb c (ascii_of_nat 239) = false).
  { apply Ascii.eqb_neq. intros ->. apply Hc. reflexivity. }
  cbn. rewrite E. reflexivity.
Qed.

Lemma continuation_not_239 (c : ascii) :
  Validator.is_continuation c = true -> nat_of_ascii c <> 239.
Proof.
  unfold Validator.is_continuation. intros Hc E. rewrite E in Hc.
  discriminate Hc.
Qed.

Lemma counted_continued (g : string) :
  Validator.starts_with_continuation g = true -> counted g = true.
Proof.
  destruct g as [|c g]; [discriminate|]. intros Hc.
  apply counted_cons, continuation_not_239. exact Hc.
Qed.

Lemma len_cons_le (c : ascii) (r : string) :
  Validator.len (String c r) <= 1 + Validator.len r.
Proof.
  rewrite !len_counted.
  destruct (Validator.starts_with_continuation r) eqn:Hr.
  - destruct (characters_continued c r Hr) as (g & gs & -> & Hg & ->).
    cbn. rewrite (counted_continued g Hg).
    destruct (counted (String c g)); cbn; lia.
  - rewrite (characters_begun c r Hr). cbn.
    destruct (counted (String c EmptyString)); cbn; lia.
Qed.

(** In front of a text, a byte other than 239 adds a character, unless
    the text begins in the middle of one. *)
Lemma len_cons (c : ascii) (r : string) :
  nat_of_ascii c <> 239 ->
  Validator.len (String c r) =
  if Validator.starts_with_continuation r then Validator.len r
  else 1 + Validator.len r.
Proof.
  intros Hc. rewrite !len_counted.
  destruct (Validator.starts_with_continuation r) eqn:Hr.
  - destruct (characters_continued c r Hr) as (g & gs & -> & Hg & ->).
    cbn. rewrite (counted_continued g Hg), (counted_cons c g Hc). reflexivity.
  - rewrite (characters_begun c r Hr). cbn.
    rewrite (counted_cons c EmptyString Hc). reflexivity.
Qed.

Lemma len_cons_pos (c : ascii) (r : string) :
  nat_of_ascii c <> 239 -> 1 <= Validator.len (String c r).
Proof.
  intros Hc. rewrite (len_cons c r Hc).
  destruct (Validator.starts_with_continuation r) eqn:Hr; [|lia].
  rewrite len_counted.
  destruct (characters_continued c r Hr) as (g & gs & -> & Hg & _).
  cbn. rewrite (counted_continued g Hg). cbn. lia.
Qed.

Lemma plain_not_239 (a : ascii) : plain a = true -> nat_of_ascii a <> 239.
Proof.
  unfold plain. intros Ha. apply andb_true_iff in Ha. destruct Ha as [_ Ha].
  apply negb_true_iff, Nat.eqb_neq in Ha. exact Ha.
Qed.

Lemma plain_begins (a : ascii) :
  plain a = true -> Validator.is_continuation a = false.
Proof.
  unfold plain. intros Ha. apply andb_true_iff in Ha. destruct Ha as [Ha _].
  apply negb_true_iff in Ha. exact Ha.
Qed.

(** Plain bytes in front of a text do not make it shorter. *)
Lemma len_app_plain (x t : string) :
  string_forallb plain x = true ->
  Validator.len t <= Validator.len (x +:+ t).
Proof.
  induction x as [|a x IH]; [reflexivity|].
  change (String a x +:+ t) with (String a (x +:+ t)).
  cbn [string_forallb]. intros Hx. apply andb_true_iff in Hx.
  destruct Hx as [Ha Hx]. specialize (IH Hx).
  rewrite (len_cons a) by (apply plain_not_239; exact Ha).
  destruct (Validator.starts_with_continuation _); lia.
Qed.

Ltac replaced E :=
  apply Ascii.eqb_eq in E; subst; left;
  split; [reflexivity|]; do 2 eexists; split; [reflexivity|];
  split; reflexivity.

(** The characters [escape] replaces are ASCII, and so is what it puts
    in their place; every other byte stays as it is. *)
Lemma escape_char_cases (c : ascii) :
  (Validator.is_continuation c = false
   /\ exists a x,
        Validator.escape_char c = String "&" (String a x)
        /\ plain a = true /\ string_forallb plain x = true)
  \/ Validator.escape_char c = String c EmptyString.
Proof.
  unfold Validator.escape_char.
  destruct (Ascii.eqb c "&") eqn:E1; [replaced E1|].
  destruct (Ascii.eqb c Validator.double_quote) eqn:E2; [replaced E2|].
  destruct (Ascii.eqb c "'") eqn:E3; [replaced E3|].
  destruct (Ascii.eqb c "<") eqn:E4; [replaced E4|].
  destruct (Ascii.eqb c ">") eqn:E5; [replaced E5|].
  destruct (Ascii.eqb c "/") eqn:E6; [replaced E6|].
  destruct (Ascii.eqb c Validator.backslash) eqn:E7; [replaced E7|].
  destruct (Ascii.eqb c "`") eqn:E8; [replaced E8|].
  right. reflexivity.
Qed.

Lemma escape_cons (c : ascii) (r : string) :
  Validator.escape (String c r) =
  Validator.escape_char c +:+ Validator.escape r.
Proof. reflexivity. Qed.

Lemma escape_starts (r : string) :
  Validator.starts_with_continuation (Validator.escape r) =
  Validator.starts_with_continuation r.
Proof.
  destruct r as [|c r]; [reflexivity|]. rewrite escape_cons.
  destruct (escape_char_cases c) as [(Hc & a & x & -> & _)| ->].
  - cbn. symmetry. exact Hc.
  - reflexivity.
Qed.

Lemma escape_continuation (c : ascii) :
  Validator.is_continuation c = true ->
  Validator.escape_char c = String c EmptyString.
Proof.
  intros Hc. destruct (escape_char_cases c) as [(Hn & _)|E]; [|exact E].
  congruence.
Qed.

(** A text that begins in the middle of a character keeps that
    beginning when it is escaped. *)
Lemma escape_first_character (r : string) :
  Validator.starts_with_continuation r = true ->
  hd_error (Validator.characters (Validator.escape r)) =
  hd_error (Validator.characters r).
Proof.
  induction r as [|c r IH]; [discriminate|]. intros Hc.
  rewrite escape_cons, (escape_continuation c Hc).
  change (String c EmptyString +:+ Validator.escape r)
    with (String c (Validator.escape r)).
  destruct (Validator.starts_with_continuation r) eqn:Hr.
  - destruct (characters_continued c r Hr) as (g & gs & Eg & _ & ->).
    assert (Hr' : Validator.starts_with_continuation (Validator.escape r) = true)
      by (rewrite escape_starts; exact Hr).
    destruct (characters_continued c _ Hr') as (g' & gs' & Eg' & _ & ->).
    specialize (IH eq_refl). rewrite Eg, Eg' in IH. cbn in IH.
    injection IH as ->. reflexivity.
  - rewrite (characters_begun c r Hr).
    rewrite characters_begun by (rewrite escape_starts; exact Hr).
    reflexivity.
Qed.

(** Escaping never shortens a text, counted in characters. *)
Lemma escape_len (s : string) :
  Validator.len s <= Validator.len (Validator.escape s).
Proof.
  induction s as [|c r IH]; [reflexivity|].
  rewrite escape_cons.
  destruct (escape_char_cases c) as [(_ & a & x & -> & Ha & Hx)| ->].
  - change (String "&" (String a x) +:+ Validator.escape r)
      with (String "&" (String a (x +:+ Validator.escape r))).
    rewrite (len_cons "&") by (vm_compute; lia).
    cbn [Validator.starts_with_continuation]. rewrite (plain_begins a Ha).
    pose proof (len_app_plain (String a x) (Validator.escape r)) as Happ.
    cbn [string_forallb] in Happ. rewrite Ha, Hx in Happ.
    specialize (Happ eq_refl).
    change (String a x +:+ Validator.escape r)
      with (String a (x +:+ Validator.escape r)) in Happ.
    pose proof (len_cons_le c r). lia.
  - change (String c EmptyString +:+ Validator.escape r)
      with (String c (Validator.escape r)).
    rewrite !len_counted in *.
    destruct (Validator.starts_with_continuation r) eqn:Hr.
    + pose proof (escape_first_character r Hr) as Hhd.
      destruct (characters_continued c r Hr) as (g & gs & Eg & _ & ->).
      assert (Hr' : Validator.starts_with_continuation (Validator.escape r) = true)
        by (rewrite escape_starts; exact Hr).
      destruct (characters_continued c _ Hr') as (g' & gs' & Eg' & _ & ->).
      rewrite Eg, Eg' in *. cbn in Hhd. injection Hhd as ->.
      cbn in *. destruct (counted g), (counted (String c g)); cbn in *; lia.
    + rewrite (characters_begun c r Hr).
      rewrite characters_begun by (rewrite escape_starts; exact Hr).
      cbn. destruct (counted _); cbn; lia.
Qed.

Lemma string_forallb_app (p : ascii -> bool) (s t : string) :
  string_forallb p (s +:+ t) = string_forallb p s && string_forallb p t.
Proof.
  induction s as [|c s IH]; [reflexivity|].
  change (String c s +:+ t) with (String c (s +:+ t)).
  cbn [string_forallb]. rewrite IH. apply andb_assoc.
Qed.

Lemma escape_char_safe (c : ascii) :
  string_forallb (fun a => negb (html_special a)) (Validator.escape_char c)
  = true.
Proof.
  unfold Validator.escape_char.
  destruct (Ascii.eqb c "&") eqn:E1; [reflexivity|].
  destruct (Ascii.eqb c Validator.double_quote) eqn:E2; [reflexivity|].
  destruct (Ascii.eqb c "'") eqn:E3; [reflexivity|].
  destruct (Ascii.eqb c "<") eqn:E4; [reflexivity|].
  destruct (Ascii.eqb c ">") eqn:E5; [reflexivity|].
  destruct (Ascii.eqb c "/") eqn:E6; [reflexivity|].
  destruct (Ascii.eqb c Validator.backslash) eqn:E7; [reflexivity|].
  destruct (Ascii.eqb c "`") eqn:E8; [reflexivity|].
  cbn. unfold html_special. rewrite E2, E3, E4, E5, E6, E7, E8. reflexivity.
Qed.

Lemma escape_safe (s : string) :
  string_forallb (fun a => negb (html_special a)) (Validator.escape s) = true.
Proof.
  induction s as [|c s IH]; [reflexivity|].
  cbn. rewrite string_forallb_app, escape_char_safe, IH. reflexivity.
Qed.

Lemma escape_unescaped (s : string) :
  unescaped s = true -> Validator.escape s = s.
Proof.
  unfold unescaped. induction s as [|c s IH]; [reflexivity|].
  cbn. intros Hc. apply andb_true_iff in Hc. destruct Hc as [Hc Hs].
  rewrite (IH Hs). apply negb_true_iff in Hc. unfold html_special in Hc.
  repeat (apply orb_false_iff in Hc; destruct Hc as [Hc ?]).
  unfold Validator.escape_char.
  repeat match goal with H : Ascii.eqb c _ = false |- _ => rewrite H; clear H end.
  reflexivity.
Qed.


(** ** Validation chains *)

Lemma toString_received (i : Incoming) (k : string) :
  toString (body (receive i) !! k) = submitted i k.
Proof.
  unfold submitted. simpl. rewrite lookup_fmap.
  destruct (in_body i !! k); reflexivity.
Qed.

Lemma run_chain_trim_isLength_escape (path msg : string) (n : nat)
    (req : Request) :
  run_chain path msg [trim; isLength n; escape] req =
  {| params_id := params_id req;
     body_genreid := body_genreid req;
     body_bookinstanceid := body_bookinstanceid req;
     body := <[path := VStr (sanitized (toString (body req !! path)))]> (body req);
     fresh_id := fresh_id req;
     contexts :=
       contexts req ++
       (if Validator.isLength n (Validator.trim (toString (body req !! path)))
        then [] else [{| err_path := path; err_msg := msg |}]) |}.
Proof.
  unfold trim, isLength, escape, sanitized. cbn [run_chain].
  cbn [set_body body]. rewrite lookup_insert_eq. cbn [toString].
  destruct (Validator.isLength n _); cbn; rewrite lookup_insert_eq;
    unfold set_body, add_error; cbn; rewrite insert_insert_eq;
    rewrite ?app_nil_r; reflexivity.
Qed.

Lemma run_chain_escape (path msg : string) (req : Request) :
  run_chain path msg [escape] req =
  set_body path (VStr (Validator.escape (toString (body req !! path)))) req.
Proof. reflexivity. Qed.

Lemma run_chain_optional (path msg : string) (p : string -> bool)
    (f : string -> Value) (req : Request) :
  run_chain path msg [OptionalFalsy; StandardValidator p; Sanitizer f] req =
  if falsy (body req !! path) then req
  else
    {| params_id := params_id req;
       body_genreid := body_genreid req;
       body_bookinstanceid := body_bookinstanceid req;
       body := <[path := f (toString (body req !! path))]> (body req);
       fresh_id := fresh_id req;
       contexts :=
         contexts req ++
         (if p (toString (body req !! path)) then []
          else [{| err_path := path; err_msg := msg |}]) |}.
Proof.
  cbn [run_chain]. destruct (falsy _); [reflexivity|].
  destruct (p _); unfold set_body, add_error; cbn;
    rewrite ?app_nil_r; reflexivity.
Qed.

Lemma toString_fmap (m : gmap string string) (k : string) :
  toString ((VStr <$> m) !! k) = default EmptyString (m !! k).
Proof. rewrite lookup_fmap. destruct (m !! k); reflexivity. Qed.

Lemma falsy_fmap (m : gmap string string) (k : string) :
  falsy ((VStr <$> m) !! k) =
  bool_decide (default EmptyString (m !! k) = EmptyString).
Proof. rewrite lookup_fmap. destruct (m !! k); reflexivity. Qed.

Lemma isEmpty_app_cons (a b : list ValidationError) (e : ValidationError) :
  isEmpty (a ++ b ++ [e]) = false.
Proof. destruct a; [destruct b|]; reflexivity. Qed.

(** ** Queries *)

Lemma matches_singleton (k : string) (v : Value) (d : Doc) :
  matches (obj [(k, Some v)]) d = true <-> d !! k = Some v.
Proof.
  unfold matches. cbn [obj]. rewrite insert_empty.
  rewrite bool_decide_eq_true, map_Forall_singleton. reflexivity.
Qed.

Lemma matches_empty (d : Doc) : matches ∅ d = true.
Proof.
  unfold matches. apply bool_decide_eq_true. apply map_Forall_empty.
Qed.

Lemma filter_matches_empty (l : list Doc) : List.filter (matches ∅) l = l.
Proof.
  induction l as [|d l IH]; [reflexivity|].
  cbn. rewrite matches_empty. f_equal. exact IH.
Qed.

Lemma has_id_true (i : ObjectId) (d : Doc) :
  has_id i d = true <-> d !! "_id" = Some (VId i).
Proof. unfold has_id. apply bool_decide_eq_true. Qed.

Lemma books_using_spec (g : ObjectId) (st : Store) (b : Doc) :
  In b (books_using g st) <-> In b (books st) /\ references g b.
Proof.
  unfold books_using, references. rewrite filter_In, matches_singleton.
  reflexivity.
Qed.

Lemma books_using_nil (g : ObjectId) (st : Store) :
  books_using g st = [] <-> forall b, In b (books st) -> ~ references g b.
Proof.
  split.
  - intros E b Hb Hr.
    assert (Hin : In b (books_using g st)) by (apply books_using_spec; auto).
    rewrite E in Hin. destruct Hin.
  - intros Hno. destruct (books_using g st) as [|b l] eqn:E; [reflexivity|].
    assert (Hin : In b (books_using g st)) by (rewrite E; left; reflexivity).
    apply books_using_spec in Hin. destruct Hin as [Hb Hr].
    destruct (Hno b Hb Hr).
Qed.

Lemma find_has_id_none (i : ObjectId) (l : list Doc) :
  List.find (has_id i) l = None <->
  forall d, In d l -> d !! "_id" <> Some (VId i).
Proof.
  split.
  - intros E d Hd Hid. apply has_id_true in Hid.
    pose proof (find_none _ _ E d Hd) as Hf. congruence.
  - intros Hno. destruct (List.find (has_id i) l) as [d|] eqn:E; [|reflexivity].
    apply find_some in E. destruct E as [Hd Hid].
    apply has_id_true in Hid. destruct (Hno d Hd Hid).
Qed.

Lemma remove_first_absent (p : Doc -> bool) (l : list Doc) :
  List.find p l = None -> remove_first p l = l.
Proof.
  induction l as [|d l IH]; [reflexivity|].
  cbn. destruct (p d); [discriminate|].
  intros E. f_equal. exact (IH E).
Qed.

Lemma remove_first_found (p : Doc -> bool) (l : list Doc) (d : Doc) :
  List.find p l = Some d ->
  exists l1 l2 : list Doc, l = l1 ++ d :: l2 /\ remove_first p l = l1 ++ l2
                /\ List.find p l1 = None.
Proof.
  induction l as [|e l IH]; [discriminate|].
  cbn. destruct (p e) eqn:Ep.
  - intros [= ->]. exists [], l. repeat split.
  - intros E. destruct (IH E) as (l1 & l2 & -> & Hr & Hn).
    exists (e :: l1), l2. cbn. rewrite Hr, Ep. repeat split. exact Hn.
Qed.

(** A query without conditions yields the whole collection. *)
Lemma find_all (M : Model) (projection : option (list string))
    (sort_key : option string) (st : Store) :
  find M [] projection sort_key st =
  (st, Fulfilled
         (project projection
            (sort_by sort_key (collection (model_collection M) st)))).
Proof. unfold find. cbn. rewrite filter_matches_empty. reflexivity. Qed.

(** [Book.find({ genre: id }, projection)]: the id is cast as the schema
    says, and the query rejects when it does not cast. *)
Lemma find_books_of_genre (id : string) (projection : option (list string))
    (st : Store) :
  find Book [("genre", Some (VStr id))] projection None st =
  match castObjectId id with
  | Some g => (st, Fulfilled (project projection (books_using g st)))
  | None => (st, Rejected (CastError (VStr id)))
  end.
Proof.
  unfold find, books_using. cbn. destruct (castObjectId id); reflexivity.
Qed.

(** [Genre.findOne({ name: v })] for a name that is text. *)
Lemma findOne_genre_named (s : string) (st : Store) :
  findOne Genre [("name", Some (VStr s))] st =
  (st, Fulfilled
         (List.find (matches (obj [("name", Some (VStr s))])) (genres st))).
Proof. reflexivity. Qed.

Lemma castObjectId_cast_id (id : string) :
  cast_id (VStr id) = castObjectId id.
Proof. reflexivity. Qed.

(** ** Sorting *)

Lemma value_leb_total (a b : option Value) :
  value_leb a b = true \/ value_leb b a = true.
Proof.
  destruct a as [[x|x|x|]|], b as [[y|y|y|]|]; cbn;
    try (left; reflexivity); try (right; reflexivity);
    apply String.leb_total.
Qed.

Lemma insert_sorted_Permutation (key : string) (d : Doc) (l : list Doc) :
  Permutation (insert_sorted key d l) (d :: l).
Proof.
  induction l as [|e l IH]; cbn; [reflexivity|].
  destruct (key_leb key d e); [reflexivity|].
  rewrite IH. apply perm_swap.
Qed.

Lemma sort_Permutation (key : string) (l : list Doc) :
  Permutation (sort key l) l.
Proof.
  induction l as [|d l IH]; cbn; [reflexivity|].
  rewrite insert_sorted_Permutation. constructor. exact IH.
Qed.

Lemma insert_sorted_HdRel (key : string) (a d : Doc) (l : list Doc) :
  key_le key a d -> HdRel (key_le key) a l ->
  HdRel (key_le key) a (insert_sorted key d l).
Proof.
  intros Had Hl. destruct l as [|e l]; cbn.
  - constructor. exact Had.
  - destruct (key_leb key d e); constructor; [exact Had|].
    inversion Hl; assumption.
Qed.

Lemma insert_sorted_Sorted (key : string) (d : Doc) (l : list Doc) :
  Sorted (key_le key) l -> Sorted (key_le key) (insert_sorted key d l).
Proof.
  induction 1 as [|e l Hs IH Hhd]; cbn.
  - repeat constructor.
  - destruct (key_leb key d e) eqn:E.
    + constructor; [constructor; assumption|]. constructor. exact E.
    + constructor; [exact IH|].
      apply insert_sorted_HdRel; [|exact Hhd].
      unfold key_le, key_leb in *.
      destruct (value_leb_total (d !! key) (e !! key)) as [T|T];
        [congruence|exact T].
Qed.

Lemma sort_Sorted (key : string) (l : list Doc) :
  Sorted (key_le key) (sort key l).
Proof.
  induction l as [|d l IH]; cbn; [constructor|].
  apply insert_sorted_Sorted. exact IH.
Qed.

(** Sorting on a path no document has leaves the order as it is. *)
Lemma sort_missing_key (key : string) (l : list Doc) :
  (forall d, In d l -> d !! key = None) -> sort key l = l.
Proof.
  induction l as [|d l IH]; intros Hk; cbn; [reflexivity|].
  rewrite IH by (intros e He; apply Hk; right; exact He).
  destruct l as [|e l]; [reflexivity|]. cbn.
  unfold key_leb.
  rewrite (Hk d) by (left; reflexivity).
  rewrite (Hk e) by (right; left; reflexivity).
  reflexivity.
Qed.

(** ** Documents *)

Lemma new_Genre_named (fresh : ObjectId) (s : string) :
  new Genre fresh (obj [("name", Some (VStr s))]) =
  {| doc_fields := <["name" := VStr s]> {[ "_id" := VId fresh ]};
     doc_invalid := [] |}.
Proof. reflexivity. Qed.

Lemma validate_Genre_named (fresh : ObjectId) (s : string) :
  validate Genre (new Genre fresh (obj [("name", Some (VStr s))])) =
  negb (bool_decide (s = EmptyString)).
Proof.
  rewrite new_Genre_named. unfold validate, path_ok.
  cbn [doc_invalid doc_fields Genre model_schema forallb path_required
       path_name path_enum].
  rewrite lookup_insert_eq. cbn.
  destruct (bool_decide (s = EmptyString)); reflexivity.
Qed.

Lemma id_text_insert (k : string) (v : Value) (d : Doc) :
  k <> "_id" -> id_text (<[k := v]> d) = id_text d.
Proof. intros Hk. unfold id_text. rewrite lookup_insert_ne by exact Hk. reflexivity. Qed.

Lemma id_text_singleton (i : ObjectId) :
  id_text {[ "_id" := VId i ]} = oid_hex i.
Proof. reflexivity. Qed.

Lemma set_path_cast (p : SchemaPath) (o : Doc) (d : Document) (v v' : Value) :
  o !! path_name p = Some v -> path_cast p v = Some v' ->
  set_path p o d =
  {| doc_fields := <[path_name p := v']> (doc_fields d);
     doc_invalid := doc_invalid d |}.
Proof. intros Hv Hc. unfold set_path. rewrite Hv, Hc. reflexivity. Qed.

Lemma set_path_invalid (p : SchemaPath) (o : Doc) (d : Document) (v : Value) :
  o !! path_name p = Some v -> path_cast p v = None ->
  set_path p o d =
  {| doc_fields := doc_fields d;
     doc_invalid := doc_invalid d ++ [path_name p] |}.
Proof. intros Hv Hc. unfold set_path. rewrite Hv, Hc. reflexivity. Qed.

Lemma set_path_keeps_id (p : SchemaPath) (o : Doc) (d : Document) :
  path_name p <> "_id" ->
  doc_fields (set_path p o d) !! "_id" = doc_fields d !! "_id".
Proof.
  intros Hp. unfold set_path.
  destruct (o !! path_name p) as [v|]; [|reflexivity].
  destruct (path_cast p v); cbn; [|reflexivity].
  apply lookup_insert_ne. exact Hp.
Qed.

Lemma obj_lookup_None (l : list (string * option Value)) (k : string) :
  k ∉ l.*1 -> obj l !! k = None.
Proof.
  induction l as [|[k0 [v|]] r IH]; cbn [obj fmap list_fmap fst]; intros Hk.
  - apply lookup_empty.
  - apply not_elem_of_cons in Hk. destruct Hk as [Hne Hr].
    rewrite lookup_insert_ne by congruence. exact (IH Hr).
  - apply not_elem_of_cons in Hk. destruct Hk as [_ Hr]. exact (IH Hr).
Qed.

(** Reading a key of an object literal whose keys are distinct. *)
Lemma obj_lookup (l : list (string * option Value)) (k : string)
    (ov : option Value) :
  NoDup l.*1 -> In (k, ov) l -> obj l !! k = ov.
Proof.
  induction l as [|[k0 o0] r IH]; [intros _ []|].
  cbn [fmap list_fmap fst]. intros Hnd Hin.
  apply NoDup_cons in Hnd. destruct Hnd as [Hk0 Hr].
  destruct Hin as [[= -> ->]|Hin].
  - destruct ov as [v|]; cbn [obj].
    + apply lookup_insert_eq.
    + apply obj_lookup_None. exact Hk0.
  - assert (Hne : k0 <> k).
    { intros ->. apply Hk0. apply list_elem_of_fmap. exists (k, ov).
      split; [reflexivity|]. apply list_elem_of_In. exact Hin. }
    destruct o0 as [v0|]; cbn [obj].
    + rewrite lookup_insert_ne by exact Hne. exact (IH Hr Hin).
    + exact (IH Hr Hin).
Qed.

Lemma set_path_other (p : SchemaPath) (o : Doc) (d : Document) (k : string) :
  path_name p <> k ->
  doc_fields (set_path p o d) !! k = doc_fields d !! k.
Proof.
  intros Hp. unfold set_path.
  destruct (o !! path_name p) as [v|]; [|reflexivity].
  destruct (path_cast p v); cbn; [|reflexivity].
  apply lookup_insert_ne. exact Hp.
Qed.

(** A path of the schema whose value casts is set to the cast value. *)
Lemma new_path (M : Model) (fresh : ObjectId) (o : Doc) (p : SchemaPath)
    (v v' : Value) :
  NoDup (path_name <$> model_schema M) ->
  In p (model_schema M) ->
  path_name p <> "_id" ->
  o !! path_name p = Some v ->
  path_cast p v = Some v' ->
  doc_fields (new M fresh o) !! path_name p = Some v'.
Proof.
  intros Hnd Hin Hid Hv Hc. unfold new.
  induction (model_schema M) as [|q ps IH]; [destruct Hin|].
  cbn [foldr]. apply NoDup_cons in Hnd. destruct Hnd as [Hq Hps].
  destruct Hin as [->|Hin].
  - rewrite (set_path_cast _ _ _ v v') by assumption. apply lookup_insert_eq.
  - rewrite set_path_other; [exact (IH Hps Hin)|].
    intros E. apply Hq. rewrite E.
    apply list_elem_of_fmap. exists p. split; [reflexivity|].
    apply list_elem_of_In. exact Hin.
Qed.

(** A document keeps the [_id] it is constructed with, when that
    casts. *)
Lemma new_id (M : Model) (fresh i : ObjectId) (o : Doc) (v : Value) :
  Forall (fun p => path_name p <> "_id") (model_schema M) ->
  o !! "_id" = Some v -> cast_id v = Some i ->
  doc_fields (new M fresh o) !! "_id" = Some (VId i).
Proof.
  intros Hs Ho Hv. unfold new. rewrite Ho, Hv.
  induction Hs as [|p ps Hp _ IH]; cbn [foldr].
  - apply lookup_singleton_eq.
  - rewrite set_path_keeps_id by exact Hp. exact IH.
Qed.

(** A document has no other paths than [_id] and those of its schema. *)
Lemma new_other (M : Model) (fresh : ObjectId) (o : Doc) (k : string) :
  k <> "_id" -> k ∉ path_name <$> model_schema M ->
  doc_fields (new M fresh o) !! k = None.
Proof.
  intros Hid Hk. unfold new.
  induction (model_schema M) as [|p ps IH]; cbn [foldr].
  - destruct (o !! "_id") as [v|]; [destruct (cast_id v)|];
      cbn [doc_fields]; apply lookup_singleton_ne; congruence.
  - cbn [fmap list_fmap] in Hk. apply not_elem_of_cons in Hk.
    destruct Hk as [Hp Hps].
    rewrite set_path_other by congruence. exact (IH Hps).
Qed.

Lemma update_first_absent (p : Doc -> bool) (f : Doc -> Doc) (l : list Doc) :
  List.find p l = None -> update_first p f l = l.
Proof.
  induction l as [|d l IH]; [reflexivity|].
  cbn. destruct (p d); [discriminate|].
  intros E. f_equal. exact (IH E).
Qed.

Lemma update_first_found (p : Doc -> bool) (f : Doc -> Doc) (l : list Doc)
    (d : Doc) :
  List.find p l = Some d ->
  exists l1 l2 : list Doc,
    l = l1 ++ d :: l2 /\ update_first p f l = l1 ++ f d :: l2
    /\ List.find p l1 = None.
Proof.
  induction l as [|e l IH]; [discriminate|].
  cbn. destruct (p e) eqn:Ep.
  - intros [= ->]. exists [], l. repeat split.
  - intros E. destruct (IH E) as (l1 & l2 & -> & Hr & Hn).
    exists (e :: l1), l2. cbn. rewrite Hr, Ep. repeat split. exact Hn.
Qed.

Lemma with_bookinstances_same (st : Store) :
  with_bookinstances (bookinstances st) st = st.
Proof. destruct st; reflexivity. Qed.

Lemma castObjectId_sanitized_nonempty (s : string) (b : ObjectId) :
  castObjectId (sanitized s) = Some b ->
  Validator.isLength 1 (Validator.trim s) = true.
Proof.
  unfold sanitized. destruct (Validator.trim s) as [|c r]; [discriminate|].
  intros Hb. apply Nat.leb_le, len_cons_pos.
  unfold castObjectId in Hb.
  destruct (Nat.eqb _ 24 && string_forallb is_hex_digit _) eqn:E;
    [|discriminate Hb].
  apply andb_true_iff in E. destruct E as [_ E].
  rewrite escape_cons, string_forallb_app in E.
  apply andb_true_iff in E. destruct E as [E _].
  destruct (escape_char_cases c) as [(_ & a & x & Ec & _)|Ec];
    rewrite Ec in E; [discriminate E|].
  cbn in E. intros E239.
  rewrite andb_true_r in E. unfold is_hex_digit in E. rewrite E239 in E.
  discriminate E.
Qed.

Lemma escape_nonempty (s : string) :
  Validator.escape s = EmptyString -> s = EmptyString.
Proof.
  destruct s as [|c r]; [reflexivity|].
  cbn. unfold Validator.escape_char.
  repeat (destruct (Ascii.eqb c _); [discriminate|]). discriminate.
Qed.

Lemma sanitized_nonempty (n : nat) (s : string) :
  Validator.isLength (S n) (Validator.trim s) = true ->
  sanitized s <> EmptyString.
Proof.
  unfold sanitized. intros Hlen E. apply escape_nonempty in E.
  rewrite E in Hlen. discriminate Hlen.
Qed.

Lemma isLength_le (n : nat) (s : string) :
  Validator.isLength n s = true <-> n <= Validator.len s.
Proof. apply Nat.leb_le. Qed.

Lemma isLength_gt (n : nat) (s : string) :
  Validator.isLength n s = false <-> Validator.len s < n.
Proof. apply Nat.leb_gt. Qed.

(** ** Lists of documents *)

Lemma find_app_None (p : Doc -> bool) (l l' : list Doc) :
  List.find p l = None -> List.find p (l ++ l') = List.find p l'.
Proof.
  induction l as [|d l IH]; [reflexivity|].
  cbn. destruct (p d); [discriminate|]. exact IH.
Qed.

Lemma find_middle (p : Doc -> bool) (l1 l2 : list Doc) (d : Doc) :
  List.find p l1 = None -> p d = true ->
  List.find p (l1 ++ d :: l2) = Some d.
Proof.
  intros Hn Hd. rewrite find_app_None by exact Hn. cbn. rewrite Hd. reflexivity.
Qed.

Lemma filter_nil_find (p : Doc -> bool) (l : list Doc) :
  List.filter p l = [] -> List.find p l = None.
Proof.
  induction l as [|d l IH]; [reflexivity|].
  cbn. destruct (p d); [discriminate|]. exact IH.
Qed.

Lemma find_remove_first (p : Doc -> bool) (l : list Doc) :
  List.length (List.filter p l) <= 1 ->
  List.find p (remove_first p l) = None.
Proof.
  induction l as [|d l IH]; [reflexivity|].
  cbn. destruct (p d) eqn:E.
  - cbn. intros Hl. apply filter_nil_find.
    destruct (List.filter p l); [reflexivity|cbn in Hl; lia].
  - intros Hl. cbn. rewrite E. exact (IH Hl).
Qed.

Lemma remove_first_length (p : Doc -> bool) (l : list Doc) :
  List.length l <= List.length (remove_first p l) + 1.
Proof.
  induction l as [|d l IH]; cbn; [lia|].
  destruct (p d); cbn; lia.
Qed.

Lemma remove_first_In (p : Doc -> bool) (l : list Doc) (d : Doc) :
  In d (remove_first p l) -> In d l.
Proof.
  induction l as [|e l IH]; [intros []|].
  cbn. destruct (p e); [right; assumption|].
  intros [->|Hd]; [left; reflexivity|right; exact (IH Hd)].
Qed.

Lemma remove_first_keeps (p : Doc -> bool) (l : list Doc) (d : Doc) :
  In d l -> p d = false -> In d (remove_first p l).
Proof.
  induction l as [|e l IH]; [intros []|].
  cbn. intros [->|Hd] Hp.
  - rewrite Hp. left. reflexivity.
  - destruct (p e); [exact Hd|right; exact (IH Hd Hp)].
Qed.

Lemma update_first_idem (p : Doc -> bool) (f : Doc -> Doc) (l : list Doc) :
  (forall d, p d = true -> p (f d) = true) ->
  (forall d, f (f d) = f d) ->
  update_first p f (update_first p f l) = update_first p f l.
Proof.
  intros Hp Hf. induction l as [|d l IH]; [reflexivity|].
  cbn. destruct (p d) eqn:E; cbn.
  - rewrite (Hp d E), Hf. reflexivity.
  - rewrite E, IH. reflexivity.
Qed.

Lemma update_first_keeps (p : Doc -> bool) (f : Doc -> Doc) (l : list Doc)
    (d : Doc) :
  In d l -> p d = false -> In d (update_first p f l).
Proof.
  induction l as [|e l IH]; [intros []|].
  cbn. intros [->|Hd] Hp.
  - rewrite Hp. left. reflexivity.
  - destruct (p e); right; [exact Hd|exact (IH Hd Hp)].
Qed.

Lemma update_first_fmap {B : Type} (g : Doc -> B) (p : Doc -> bool)
    (f : Doc -> Doc) (l : list Doc) :
  (forall d, p d = true -> g (f d) = g d) ->
  g <$> update_first p f l = g <$> l.
Proof.
  intros Hg. induction l as [|d l IH]; [reflexivity|].
  cbn. destruct (p d) eqn:E; cbn; [rewrite (Hg d E)|rewrite IH]; reflexivity.
Qed.

Lemma with_genres_same (st : Store) : with_genres (genres st) st = st.
Proof. destruct st; reflexivity. Qed.

Lemma select_lookup (ps : list string) (d : Doc) (k : string) :
  select ps d !! k =
  if bool_decide (k = "_id" \/ k ∈ ps) then d !! k else None.
Proof.
  unfold select. apply option_eq. intros v.
  rewrite map_lookup_filter_Some. cbn.
  case_bool_decide as Hk.
  - split; [intros [Hv _]; exact Hv|intros Hv; split; [exact Hv|exact Hk]].
  - split; [intros [_ Hp]; destruct (Hk Hp)|discriminate].
Qed.

(** The document the genre update handler builds, laid over a genre
    with the same id, changes its name and nothing else. *)
Lemma renamed_union (i : ObjectId) (s : string) (g : Doc) :
  has_id i g = true -> renamed i s ∪ g = <["name" := VStr s]> g.
Proof.
  intros Hg. apply has_id_true in Hg. unfold renamed.
  rewrite <- insert_union_l, <- insert_union_singleton_l.
  rewrite (insert_id g "_id" (VId i)) by exact Hg. reflexivity.
Qed.

(** The document the genre update handler builds: under the route id
    when that casts, else under a generated one. *)
Lemma new_Genre_renamed (fresh : ObjectId) (id s : string) :
  new Genre fresh (obj [("name", Some (VStr s)); ("_id", Some (VStr id))]) =
  match castObjectId id with
  | Some i => {| doc_fields := renamed i s; doc_invalid := [] |}
  | None => {| doc_fields := renamed fresh s; doc_invalid := ["_id"] |}
  end.
Proof.
  unfold new. cbn [obj].
  rewrite lookup_insert_ne by done. rewrite lookup_insert_eq.
  cbn [cast_id]. destruct (castObjectId id); reflexivity.
Qed.

(** Taking the second of two documents, or the only one, out of a
    list. *)
Lemma split_pair (a b : Doc) (l1 l2 : list Doc) :
  [a; b] = l1 ++ b :: l2 -> a <> b -> l1 = [a] /\ l2 = [].
Proof.
  intros E Hab. destruct l1 as [|x [|y l1]]; cbn in E.
  - injection E as Ea _. destruct (Hab Ea).
  - injection E as -> <-. split; reflexivity.
  - injection E as _ _ E. destruct l1; discriminate E.
Qed.

Lemma split_single (a : Doc) (l1 l2 : list Doc) :
  [a] = l1 ++ a :: l2 -> l1 = [] /\ l2 = [].
Proof.
  intros E. destruct l1 as [|x l1]; cbn in E.
  - injection E as <-. split; reflexivity.
  - injection E as _ E. destruct l1; discriminate E.
Qed.

(** No document of a list written out has a given property: each is
    looked at in turn. *)
Ltac no_such_doc :=
  let d := fresh "d" in let Hd := fresh "Hd" in let E := fresh "E" in
  intros d Hd E;
  repeat (destruct Hd as [<-|Hd]; [vm_compute in E; discriminate E|]);
  destruct Hd.

(** ** Properties of the genre controller *)

Section GenreProperties.
Import GenreController.

Lemma genre_create_validated (i : Incoming) :
  run_validations (validations genre_create_post) (receive i) =
  {| params_id := in_params_id i;
     body_genreid := in_genreid i;
     body_bookinstanceid := in_bookinstanceid i;
     body := <["name" := VStr (sanitized (submitted i "name"))]> (VStr <$> in_body i);
     fresh_id := in_fresh_id i;
     contexts :=
       if Validator.isLength 3 (Validator.trim (submitted i "name"))
       then [] else [name_error] |}.
Proof.
  unfold run_validations, genre_create_post, validations, body_chain.
  cbn [foldl]. rewrite run_chain_trim_isLength_escape, toString_received.
  reflexivity.
Qed.

Lemma genre_create_post_invalid (i : Incoming) (st : Store) :
  Validator.isLength 3 (Validator.trim (submitted i "name")) = false ->
  serve genre_create_post i st =
  (st, Render "genre_form"
         [("title", LString "Create Genre");
          ("genre", LDoc (<["name" := VStr (sanitized (submitted i "name"))]>
                            {[ "_id" := VId (in_fresh_id i) ]}));
          ("errors", LErrors [name_error])]).
Proof.
  intros Hlen. unfold serve. rewrite genre_create_validated, Hlen.
  unfold genre_create_post, handler, asyncHandler.
  cbn [validationResult contexts isEmpty negb body fresh_id].
  rewrite lookup_insert_eq, new_Genre_named.
  reflexivity.
Qed.

Lemma genre_create_post_valid (i : Incoming) (st : Store) :
  Validator.isLength 3 (Validator.trim (submitted i "name")) = true ->
  serve genre_create_post i st =
  let name := VStr (sanitized (submitted i "name")) in
  let genre := <["name" := name]> {[ "_id" := VId (in_fresh_id i) ]} in
  match List.find (matches (obj [("name", Some name)])) (genres st) with
  | Some g => (st, Redirect (Genre_url g))
  | None =>
      if bool_decide (sanitized (submitted i "name") = EmptyString)
      then (st, Next MongooseValidationError)
      else (with_genres (genres st ++ [genre]) st, Redirect (Genre_url genre))
  end.
Proof.
  intros Hlen. unfold serve. rewrite genre_create_validated, Hlen.
  unfold genre_create_post, handler, asyncHandler.
  cbn [validationResult contexts isEmpty negb body fresh_id].
  rewrite lookup_insert_eq.
  unfold mbind, Async_bind. rewrite findOne_genre_named.
  destruct (List.find _ (genres st)) as [g|]; [reflexivity|].
  unfold save. rewrite validate_Genre_named, new_Genre_named.
  destruct (bool_decide (sanitized (submitted i "name") = EmptyString));
    reflexivity.
Qed.

(** What the handlers that look a genre up by the route id do: a route
    id that does not cast makes the first query reject. *)
Lemma genre_detail_eval (i : Incoming) (st : Store) :
  serve (route genre_detail) i st =
  (st,
   match castObjectId (in_params_id i) with
   | None => Next (CastError (VStr (in_params_id i)))
   | Some r =>
       match List.find (has_id r) (genres st) with
       | Some g =>
           Render "genre_detail"
             [("title", LString "Genre Detail");
              ("genre", LDoc g);
              ("genre_books",
               LDocs (select ["title"; "summary"] <$> books_using r st))]
       | None => Next (NotFound "Genre not found")
       end
   end).
Proof.
  unfold serve, route, handler, validations, run_validations.
  cbn [foldl]. unfold genre_detail, asyncHandler.
  unfold mbind, Async_bind, findById.
  cbn [Genre model_collection collection receive params_id].
  destruct (castObjectId (in_params_id i)) as [r|] eqn:E; [|reflexivity].
  rewrite find_books_of_genre, E.
  destruct (List.find _ (genres st)); reflexivity.
Qed.

Lemma genre_update_get_eval (i : Incoming) (st : Store) :
  serve (route genre_update_get) i st =
  (st,
   match castObjectId (in_params_id i) with
   | None => Next (CastError (VStr (in_params_id i)))
   | Some r =>
       match List.find (has_id r) (genres st) with
       | Some g =>
           Render "genre_form"
             [("title", LString "Update Genre"); ("genre", LDoc g)]
       | None => Next (NotFound "Genre not found")
       end
   end).
Proof.
  unfold serve, route, handler, validations, run_validations.
  cbn [foldl]. unfold genre_update_get, asyncHandler, try_catch.
  unfold mbind, Async_bind, findById.
  cbn [Genre model_collection collection receive params_id].
  destruct (castObjectId (in_params_id i)) as [r|]; [|reflexivity].
  destruct (List.find _ (genres st)); reflexivity.
Qed.

Lemma genre_delete_get_eval (i : Incoming) (st : Store) :
  serve (route genre_delete_get) i st =
  (st,
   match castObjectId (in_params_id i) with
   | None => Next (CastError (VStr (in_params_id i)))
   | Some r =>
       match List.find (has_id r) (genres st) with
       | Some g =>
           Render "genre_delete"
             [("title", LString "Delete Genre");
              ("genre", LDoc g);
              ("books_using_genre",
               LDocs (select ["title"] <$> books_using r st))]
       | None => Redirect "/catalog/genres"
       end
   end).
Proof.
  unfold serve, route, handler, validations, run_validations.
  cbn [foldl]. unfold genre_delete_get, asyncHandler, try_catch.
  unfold mbind, Async_bind, findById.
  cbn [Genre model_collection collection receive params_id].
  destruct (castObjectId (in_params_id i)) as [r|] eqn:E; [|reflexivity].
  rewrite find_books_of_genre, E.
  destruct (List.find _ (genres st)); reflexivity.
Qed.

Lemma genre_delete_post_eval (i : Incoming) (st : Store) :
  serve (route genre_delete_post) i st =
  match castObjectId (in_params_id i) with
  | None => (st, Next (CastError (VStr (in_params_id i))))
  | Some r =>
      match books_using r st with
      | [] =>
          match castObjectId (in_genreid i) with
          | None => (st, Next (CastError (VStr (in_genreid i))))
          | Some g =>
              (with_genres (remove_first (has_id g) (genres st)) st,
               Redirect "/catalog/genres")
          end
      | _ :: _ =>
          (st, Render "genre_delete"
                 [("title", LString "Delete Genre");
                  ("genre", local_of_doc (List.find (has_id r) (genres st)));
                  ("books_using_genre", LDocs (books_using r st))])
      end
  end.
Proof.
  unfold serve, route, handler, validations, run_validations.
  cbn [foldl]. unfold genre_delete_post, asyncHandler, try_catch.
  unfold mbind, Async_bind, findById.
  cbn [Genre model_collection collection receive params_id body_genreid].
  destruct (castObjectId (in_params_id i)) as [r|] eqn:E; [|reflexivity].
  rewrite find_books_of_genre, E. cbn [project].
  destruct (books_using r st); [|reflexivity].
  cbn [List.length Nat.ltb Nat.leb]. unfold findByIdAndDelete.
  cbn [Genre model_collection collection].
  destruct (castObjectId (in_genreid i)); reflexivity.
Qed.

Lemma genre_update_validated (i : Incoming) :
  run_validations (validations genre_update_post) (receive i) =
  {| params_id := in_params_id i;
     body_genreid := in_genreid i;
     body_bookinstanceid := in_bookinstanceid i;
     body := <["name" := VStr (sanitized (submitted i "name"))]> (VStr <$> in_body i);
     fresh_id := in_fresh_id i;
     contexts :=
       if Validator.isLength 1 (Validator.trim (submitted i "name"))
       then [] else [empty_name_error] |}.
Proof.
  unfold run_validations, genre_update_post, validations, body_chain.
  cbn [foldl]. rewrite run_chain_trim_isLength_escape, toString_received.
  reflexivity.
Qed.

Lemma genre_update_post_eval (i : Incoming) (st : Store) :
  serve genre_update_post i st =
  if Validator.isLength 1 (Validator.trim (submitted i "name")) then
    match castObjectId (in_params_id i) with
    | Some r =>
        (with_genres
           (update_first (has_id r)
              (fun d => renamed r (sanitized (submitted i "name")) ∪ d)
              (genres st)) st,
         Redirect ("/catalog/genre/" +:+ oid_hex r))
    | None => (st, Next (CastError (VStr (in_params_id i))))
    end
  else
    (st, Render "genre_form"
           [("title", LString "Update Genre");
            ("genre",
             LDoc (renamed (default (in_fresh_id i)
                              (castObjectId (in_params_id i)))
                     (sanitized (submitted i "name"))));
            ("errors", LErrors [empty_name_error])]).
Proof.
  unfold serve. rewrite genre_update_validated.
  unfold genre_update_post, handler, asyncHandler.
  cbn [validationResult contexts body fresh_id params_id].
  rewrite lookup_insert_eq, new_Genre_renamed.
  unfold try_catch, mbind, Async_bind, findByIdAndUpdate.
  cbn [Genre model_collection collection].
  destruct (Validator.isLength 1 _), (castObjectId (in_params_id i));
    reflexivity.
Qed.

Lemma genre_list_eval (i : Incoming) (st : Store) :
  serve (route genre_list) i st =
  (st, Render "genre_list"
         [("title", LString "Genre List");
          ("genre_list", LDocs (sort "genre_name" (genres st)))]).
Proof.
  unfold serve, route, handler, validations, run_validations. cbn [foldl].
  unfold genre_list, asyncHandler, mbind, Async_bind.
  rewrite find_all. reflexivity.
Qed.

(** The list handler on a store none of whose genres has a path
    [genre_name]: the genres come out in the order of the collection. *)
Lemma genre_list_store_order (i : Incoming) (st : Store) :
  (forall g, In g (genres st) -> g !! "genre_name" = None) ->
  serve (route genre_list) i st =
  (st, Render "genre_list"
         [("title", LString "Genre List");
          ("genre_list", LDocs (genres st))]).
Proof.
  intros Hkey. rewrite genre_list_eval, sort_missing_key by exact Hkey.
  reflexivity.
Qed.

(** A valid name no stored genre has: the genre is inserted and the
    response redirects to its detail URL. *)
Lemma genre_create_post_new_name (i : Incoming) (st : Store) :
  3 <= Validator.len (Validator.trim (submitted i "name")) ->
  (forall g, In g (genres st) ->
             g !! "name" <> Some (VStr (sanitized (submitted i "name")))) ->
  serve genre_create_post i st =
  (with_genres
     (genres st ++
      [<["name" := VStr (sanitized (submitted i "name"))]>
         {[ "_id" := VId (in_fresh_id i) ]}]) st,
   Redirect ("/catalog/genre/" +:+ oid_hex (in_fresh_id i))).
Proof.
  intros Hlen Hnew. apply isLength_le in Hlen.
  rewrite genre_create_post_valid by exact Hlen. cbv zeta.
  destruct (List.find _ (genres st)) as [g|] eqn:E.
  - apply find_some in E. destruct E as [Hin Hm].
    apply matches_singleton in Hm. destruct (Hnew g Hin Hm).
  - rewrite bool_decide_eq_false_2 by exact (sanitized_nonempty 2 _ Hlen).
    reflexivity.
Qed.

(** What the delete handler does once no book refers to the route id
    and the form field casts: the first genre with the id of the form
    field leaves the store, everything else stays. *)
Lemma genre_delete_post_deletes (i : Incoming) (st : Store) (r g : ObjectId) :
  castObjectId (in_params_id i) = Some r ->
  (forall b, In b (books st) -> ~ references r b) ->
  castObjectId (in_genreid i) = Some g ->
  (serve (route genre_delete_post) i st).2 = Redirect "/catalog/genres"
  /\ books (serve (route genre_delete_post) i st).1 = books st
  /\ bookinstances (serve (route genre_delete_post) i st).1 = bookinstances st
  /\ (List.find (has_id g) (genres st) = None ->
      genres (serve (route genre_delete_post) i st).1 = genres st)
  /\ (forall d, List.find (has_id g) (genres st) = Some d ->
        exists l1 l2 : list Doc,
          genres st = l1 ++ d :: l2
          /\ List.find (has_id g) l1 = None
          /\ genres (serve (route genre_delete_post) i st).1 = l1 ++ l2).
Proof.
  intros Hr Hno Hg. apply books_using_nil in Hno.
  rewrite genre_delete_post_eval, Hr, Hno, Hg.
  cbn [fst snd with_genres set_collection genres books bookinstances].
  split; [reflexivity|]. split; [reflexivity|]. split; [reflexivity|]. split.
  - apply remove_first_absent.
  - intros d Hd.
    destruct (remove_first_found _ _ _ Hd) as (l1 & l2 & E1 & E2 & E3).
    exists l1, l2. repeat split; assumption.
Qed.

(** C1: when at least one book references the genre named by the route
    parameter, the delete handler leaves the store as it is and renders
    the confirmation view with the genre and the books that reference
    it. *)
Theorem genre_delete_post_with_books (i : Incoming) (st : Store)
    (r : ObjectId) (b : Doc) :
  castObjectId (in_params_id i) = Some r ->
  In b (books st) -> references r b ->
  serve (route genre_delete_post) i st =
  (st, Render "genre_delete"
         [("title", LString "Delete Genre");
          ("genre", local_of_doc (List.find (has_id r) (genres st)));
          ("books_using_genre", LDocs (books_using r st))])
  /\ In b (books_using r st).
Proof.
  intros Hid Hb Hr.
  assert (Hin : In b (books_using r st))
    by (apply books_using_spec; split; assumption).
  split; [|exact Hin].
  rewrite genre_delete_post_eval, Hid.
  destruct (books_using r st); [destruct Hin|reflexivity].
Qed.

Lemma genre_delete_post_with_books_witness :
  serve (route genre_delete_post) delete_scifi_request catalogue =
  (catalogue,
   Render "genre_delete"
     [("title", LString "Delete Genre");
      ("genre", LDoc genre_scifi);
      ("books_using_genre", LDocs [book_dune])])
  /\ In book_dune [book_dune].
Proof.
  apply (genre_delete_post_with_books delete_scifi_request catalogue
           oid_scifi book_dune).
  - reflexivity.
  - left. reflexivity.
  - reflexivity.
Defined.

(** C2, for the name as the chain leaves it: when the submitted name
    passes validation (three characters or more once trimmed) and,
    trimmed and HTML-escaped, is the name of a stored genre, nothing is
    inserted and the response redirects to the detail URL of a stored
    genre with that name. *)
Theorem genre_create_post_existing_name (i : Incoming) (st : Store) (g : Doc) :
  3 <= Validator.len (Validator.trim (submitted i "name")) ->
  In g (genres st) ->
  g !! "name" = Some (VStr (sanitized (submitted i "name"))) ->
  exists g' : Doc,
    In g' (genres st)
    /\ g' !! "name" = Some (VStr (sanitized (submitted i "name")))
    /\ serve genre_create_post i st = (st, Redirect (Genre_url g')).
Proof.
  intros Hlen Hg Hname.
  rewrite genre_create_post_valid by (apply isLength_le; exact Hlen).
  cbv zeta.
  destruct (List.find _ (genres st)) as [g'|] eqn:E.
  - apply find_some in E. destruct E as [Hin Hm].
    apply matches_singleton in Hm. exists g'. auto.
  - apply matches_singleton in Hname.
    pose proof (find_none _ _ E g Hg) as Hf. congruence.
Qed.

Lemma genre_create_post_existing_name_witness :
  exists g' : Doc,
    In g' (genres catalogue)
    /\ g' !! "name" = Some (VStr "Fantasy")
    /\ serve genre_create_post fantasy_request catalogue =
       (catalogue, Redirect (Genre_url g')).
Proof.
  apply (genre_create_post_existing_name fantasy_request catalogue
           genre_fantasy).
  - vm_compute. lia.
  - right. left. reflexivity.
  - reflexivity.
Defined.

(** C2 does not hold for the name as submitted: it is valid and is,
    character for character, the name of the stored genre, yet a record
    is inserted, because the lookup is made with the escaped name. *)
Lemma genre_create_post_exact_match_inserts :
  3 <= Validator.len (Validator.trim (submitted entity_name_request "name"))
  /\ In genre_rnb (genres music_catalogue)
  /\ genre_rnb !! "name" = Some (VStr (submitted entity_name_request "name"))
  /\ serve genre_create_post entity_name_request music_catalogue =
     ({| genres := [genre_rnb; genre_doc oid_new "R&amp;amp;B"];
         books := [];
         bookinstances := [] |},
      Redirect "/catalog/genre/65a1b2c3d4e5f60718293f01").
Proof.
  split; [vm_compute; lia|].
  split; [left; reflexivity|]. split; reflexivity.
Qed.

(** C4: on a store holding "Science Fiction" before "Fantasy" the list
    handler renders the genres in that order, which is not ascending by
    name; the sort is made on [genre_name], a path genres do not have. *)
Theorem genre_list_not_sorted_by_name :
  serve (route genre_list) plain_request catalogue =
  (catalogue,
   Render "genre_list"
     [("title", LString "Genre List");
      ("genre_list", LDocs [genre_scifi; genre_fantasy])])
  /\ ~ Sorted (key_le "name") [genre_scifi; genre_fantasy]
  /\ sort "name" (genres catalogue) = [genre_fantasy; genre_scifi].
Proof.
  split; [reflexivity|]. split; [|reflexivity].
  intros Hs. inversion Hs as [|? ? _ Hhd]; subst.
  inversion Hhd as [|? ? Hle]; subst.
  vm_compute in Hle. discriminate Hle.
Qed.

(** C5, with the value as the chain leaves it: when the submitted name,
    trimmed, has fewer than three characters, the store is left as it
    is and the form is rendered again, with status 200, with the name
    trimmed and HTML-escaped and one error, on the field [name]. *)
Theorem genre_create_post_short_name (i : Incoming) (st : Store) :
  Validator.len (Validator.trim (submitted i "name")) < 3 ->
  serve genre_create_post i st =
  (st, Render "genre_form"
         [("title", LString "Create Genre");
          ("genre", LDoc (<["name" := VStr (sanitized (submitted i "name"))]>
                            {[ "_id" := VId (in_fresh_id i) ]}));
          ("errors",
           LErrors [{| err_path := "name";
                       err_msg := "Genre name must contain at least 3 characters" |}])])
  /\ status_code (serve genre_create_post i st).2 = Some 200.
Proof.
  intros Hlen.
  rewrite genre_create_post_invalid by (apply isLength_gt; exact Hlen).
  split; reflexivity.
Qed.

Lemma genre_create_post_short_name_witness :
  serve genre_create_post short_name_request catalogue =
  (catalogue,
   Render "genre_form"
     [("title", LString "Create Genre");
      ("genre", LDoc (genre_doc oid_new "a&lt;"));
      ("errors",
       LErrors [{| err_path := "name";
                   err_msg := "Genre name must contain at least 3 characters" |}])])
  /\ status_code (serve genre_create_post short_name_request catalogue).2 =
     Some 200.
Proof.
  apply (genre_create_post_short_name short_name_request catalogue).
  vm_compute. lia.
Defined.

(** C5 does not hold for the value as entered: what the form is
    rendered with is not the value entered. *)
Lemma genre_create_post_value_not_as_entered :
  Validator.len (Validator.trim (submitted short_name_request "name")) < 3
  /\ (serve genre_create_post short_name_request catalogue).2 =
     Render "genre_form"
       [("title", LString "Create Genre");
        ("genre", LDoc (genre_doc oid_new "a&lt;"));
        ("errors", LErrors [name_error])]
  /\ genre_doc oid_new "a&lt;" !! "name" <>
     Some (VStr (submitted short_name_request "name")).
Proof.
  split; [vm_compute; lia|]. split; [reflexivity|].
  intros E. vm_compute in E. discriminate E.
Qed.

(** C5 at names whose characters lie outside ASCII: a name of two
    characters that take three bytes is refused, and a name of
    no-break spaces is rendered as the empty name. *)
Example genre_create_post_short_unicode_names :
  serve genre_create_post
    (request oid_unknown oid_unknown oid_unknown [("name", name_ne)])
    catalogue =
  (catalogue,
   Render "genre_form"
     [("title", LString "Create Genre");
      ("genre", LDoc (genre_doc oid_new name_ne));
      ("errors", LErrors [name_error])])
  /\ serve genre_create_post
       (request oid_unknown oid_unknown oid_unknown
          [("name", nbsp +:+ nbsp +:+ nbsp)])
       catalogue =
     (catalogue,
      Render "genre_form"
        [("title", LString "Create Genre");
         ("genre", LDoc (genre_doc oid_new EmptyString));
         ("errors", LErrors [name_error])]).
Proof. split; reflexivity. Qed.

(** C6, for an id that casts: when the route id is a well-formed id no
    stored genre has, the detail handler hands [next] an error with
    status 404, and the delete form handler redirects to the genre
    list; the store stays as it is. *)
Theorem genre_missing_detail_and_delete_get (i : Incoming) (st : Store)
    (r : ObjectId) :
  castObjectId (in_params_id i) = Some r ->
  (forall g, In g (genres st) -> g !! "_id" <> Some (VId r)) ->
  serve (route genre_detail) i st = (st, Next (NotFound "Genre not found"))
  /\ error_status (NotFound "Genre not found") = Some 404
  /\ serve (route genre_delete_get) i st = (st, Redirect "/catalog/genres").
Proof.
  intros Hid Hno. apply find_has_id_none in Hno.
  rewrite genre_detail_eval, genre_delete_get_eval, Hid, Hno.
  repeat split.
Qed.

Lemma genre_missing_detail_and_delete_get_witness :
  serve (route genre_detail) plain_request catalogue =
  (catalogue, Next (NotFound "Genre not found"))
  /\ error_status (NotFound "Genre not found") = Some 404
  /\ serve (route genre_delete_get) plain_request catalogue =
     (catalogue, Redirect "/catalog/genres").
Proof.
  apply (genre_missing_detail_and_delete_get plain_request catalogue
           oid_unknown).
  - reflexivity.
  - no_such_doc.
Defined.

(** A route id that does not cast: the handlers that look a genre up
    hand [next] the CastError of the query, which has no status, and
    leave the store as it is. *)
Lemma genre_malformed_route_id (i : Incoming) (st : Store) :
  castObjectId (in_params_id i) = None ->
  let e := CastError (VStr (in_params_id i)) in
  error_status e = None
  /\ serve (route genre_detail) i st = (st, Next e)
  /\ serve (route genre_delete_get) i st = (st, Next e)
  /\ serve (route genre_delete_post) i st = (st, Next e)
  /\ serve (route genre_update_get) i st = (st, Next e).
Proof.
  intros Hid.
  rewrite genre_detail_eval, genre_delete_get_eval, genre_delete_post_eval,
    genre_update_get_eval, Hid.
  repeat split.
Qed.

(** C6 does not hold for every id that matches no genre: for a route
    id that is not a well-formed id, which no stored genre has, the
    detail handler hands [next] an error without status 404, and the
    delete form handler hands [next] the same error instead of
    redirecting. *)
Lemma genre_malformed_id_not_404 :
  (forall g, In g (genres catalogue) ->
             id_text g <> in_params_id malformed_request)
  /\ serve (route genre_detail) malformed_request catalogue =
     (catalogue, Next (CastError (VStr "no-such-id")))
  /\ error_status (CastError (VStr "no-such-id")) = None
  /\ serve (route genre_delete_get) malformed_request catalogue =
     (catalogue, Next (CastError (VStr "no-such-id"))).
Proof.
  split; [no_such_doc|repeat split].
Qed.

(** C9, for ids that cast: when the route id is well-formed and no book
    references it, and the form field [genreid] is well-formed, the
    delete handler redirects to the genre list, and the first genre
    whose id is that of the form field has left the store; the other
    genres, in their order, the books and the book instances stay. *)
Theorem genre_delete_post_without_books (i : Incoming) (st : Store)
    (r g : ObjectId) :
  castObjectId (in_params_id i) = Some r ->
  (forall b, In b (books st) -> ~ references r b) ->
  castObjectId (in_genreid i) = Some g ->
  (serve (route genre_delete_post) i st).2 = Redirect "/catalog/genres"
  /\ books (serve (route genre_delete_post) i st).1 = books st
  /\ bookinstances (serve (route genre_delete_post) i st).1 = bookinstances st
  /\ (List.find (has_id g) (genres st) = None ->
      genres (serve (route genre_delete_post) i st).1 = genres st)
  /\ (forall d, List.find (has_id g) (genres st) = Some d ->
        exists l1 l2 : list Doc,
          genres st = l1 ++ d :: l2
          /\ List.find (has_id g) l1 = None
          /\ genres (serve (route genre_delete_post) i st).1 = l1 ++ l2).
Proof. apply genre_delete_post_deletes. Qed.

Lemma genre_delete_post_without_books_witness :
  (serve (route genre_delete_post) delete_fantasy_request catalogue).2 =
    Redirect "/catalog/genres"
  /\ genres (serve (route genre_delete_post) delete_fantasy_request
               catalogue).1 = [genre_scifi]
  /\ books (serve (route genre_delete_post) delete_fantasy_request
              catalogue).1 = [book_dune]
  /\ bookinstances (serve (route genre_delete_post) delete_fantasy_request
                      catalogue).1 = [copy_dune].
Proof.
  destruct (genre_delete_post_without_books delete_fantasy_request catalogue
              oid_fantasy oid_fantasy) as (Hres & Hb & Hc & _ & Hg).
  - reflexivity.
  - no_such_doc.
  - reflexivity.
  - split; [exact Hres|]. split; [|split; [exact Hb|exact Hc]].
    destruct (Hg genre_fantasy eq_refl) as (l1 & l2 & E1 & _ & E3).
    rewrite E3. apply split_pair in E1.
    + destruct E1 as [-> ->]. reflexivity.
    + intros E. apply (f_equal (fun d : Doc => d !! "_id")) in E.
      vm_compute in E. discriminate E.
Defined.

(** C9 does not hold for every request: with a well-formed route id no
    book references and a form field that is not a well-formed id, the
    delete rejects, nothing is removed and the error goes to [next]. *)
Lemma genre_delete_post_malformed_genreid :
  castObjectId (in_params_id malformed_genreid_request) = Some oid_fantasy
  /\ (forall b, In b (books catalogue) -> ~ references oid_fantasy b)
  /\ serve (route genre_delete_post) malformed_genreid_request catalogue =
     (catalogue, Next (CastError (VStr "fantasy"))).
Proof.
  split; [reflexivity|]. split; [no_such_doc|reflexivity].
Qed.

(** C10, for a route id that casts: when the route id is a well-formed
    id no stored genre has, the delete form handler redirects, but the
    delete handler has no such branch: with no book referencing the id
    it deletes by the form field [genreid] (when that casts) and
    redirects to the list, and with books referencing it it renders the
    confirmation view with a null genre. *)
Theorem genre_delete_post_missing_genre (i : Incoming) (st : Store)
    (r : ObjectId) :
  castObjectId (in_params_id i) = Some r ->
  (forall g, In g (genres st) -> g !! "_id" <> Some (VId r)) ->
  serve (route genre_delete_get) i st = (st, Redirect "/catalog/genres")
  /\ ((forall b, In b (books st) -> ~ references r b) ->
      forall g : ObjectId, castObjectId (in_genreid i) = Some g ->
        (serve (route genre_delete_post) i st).2 = Redirect "/catalog/genres"
        /\ books (serve (route genre_delete_post) i st).1 = books st
        /\ bookinstances (serve (route genre_delete_post) i st).1 =
           bookinstances st
        /\ (List.find (has_id g) (genres st) = None ->
            genres (serve (route genre_delete_post) i st).1 = genres st)
        /\ forall d, List.find (has_id g) (genres st) = Some d ->
             exists l1 l2 : list Doc,
               genres st = l1 ++ d :: l2
               /\ List.find (has_id g) l1 = None
               /\ genres (serve (route genre_delete_post) i st).1 = l1 ++ l2)
  /\ (forall b, In b (books st) -> references r b ->
        serve (route genre_delete_post) i st =
        (st, Render "genre_delete"
               [("title", LString "Delete Genre");
                ("genre", LNull);
                ("books_using_genre", LDocs (books_using r st))])
        /\ In b (books_using r st)).
Proof.
  intros Hid Hno. apply find_has_id_none in Hno.
  split; [rewrite genre_delete_get_eval, Hid, Hno; reflexivity|].
  split.
  - intros Hbooks g Hg.
    exact (genre_delete_post_deletes i st r g Hid Hbooks Hg).
  - intros b Hb Hr.
    assert (Hin : In b (books_using r st))
      by (apply books_using_spec; split; assumption).
    split; [|exact Hin].
    rewrite genre_delete_post_eval, Hid, Hno.
    destruct (books_using r st); [destruct Hin|reflexivity].
Qed.

Lemma genre_delete_post_missing_genre_witness :
  (serve (route genre_delete_get) delete_unknown_request catalogue =
   (catalogue, Redirect "/catalog/genres")
   /\ (serve (route genre_delete_post) delete_unknown_request catalogue).2 =
      Redirect "/catalog/genres"
   /\ genres (serve (route genre_delete_post) delete_unknown_request
                catalogue).1 = [genre_scifi])
  /\ (serve (route genre_delete_get) delete_unknown_request dangling_catalogue =
      (dangling_catalogue, Redirect "/catalog/genres")
      /\ serve (route genre_delete_post) delete_unknown_request
           dangling_catalogue =
         (dangling_catalogue,
          Render "genre_delete"
            [("title", LString "Delete Genre");
             ("genre", LNull);
             ("books_using_genre", LDocs [book_emma])])).
Proof.
  split.
  - destruct (genre_delete_post_missing_genre delete_unknown_request catalogue
                oid_unknown) as (Hget & Hdel & _).
    + reflexivity.
    + no_such_doc.
    + split; [exact Hget|].
      assert (Hno : forall b, In b (books catalogue) ->
                              ~ references oid_unknown b) by no_such_doc.
      destruct (Hdel Hno oid_fantasy eq_refl) as (Hres & _ & _ & _ & Hg).
      split; [exact Hres|].
      destruct (Hg genre_fantasy eq_refl) as (l1 & l2 & E1 & _ & E3).
      rewrite E3. apply split_pair in E1.
      * destruct E1 as [-> ->]. reflexivity.
      * intros E. apply (f_equal (fun d : Doc => d !! "_id")) in E.
        vm_compute in E. discriminate E.
  - destruct (genre_delete_post_missing_genre delete_unknown_request
                dangling_catalogue oid_unknown) as (Hget & _ & Hrender).
    + reflexivity.
    + no_such_doc.
    + split; [exact Hget|].
      destruct (Hrender book_emma) as [Hr _].
      * right. left. reflexivity.
      * reflexivity.
      * exact Hr.
Defined.

(** C10 does not hold for every route id that matches no genre: for a
    route id that is not a well-formed id, which no stored genre has
    and no stored book refers to, both queries of the delete handler
    reject, so that it neither deletes nor redirects nor renders, and
    the delete form handler does not redirect either. *)
Lemma genre_delete_post_malformed_route :
  (forall g, In g (genres catalogue) ->
             id_text g <> in_params_id malformed_request)
  /\ (forall b, In b (books catalogue) ->
                toString (b !! "genre") <> in_params_id malformed_request)
  /\ serve (route genre_delete_post) malformed_request catalogue =
     (catalogue, Next (CastError (VStr "no-such-id")))
  /\ serve (route genre_delete_get) malformed_request catalogue =
     (catalogue, Next (CastError (VStr "no-such-id"))).
Proof.
  split; [no_such_doc|]. split; [no_such_doc|]. split; reflexivity.
Qed.

(** *** Further properties of the genre controller *)

(** X1: the list handler renders every stored genre exactly once and
    leaves the store as it is, whatever paths the genres have. *)
Theorem genre_list_lists_every_genre (i : Incoming) (st : Store) :
  exists l : list Doc,
    serve (route genre_list) i st =
    (st, Render "genre_list"
           [("title", LString "Genre List"); ("genre_list", LDocs l)])
    /\ Permutation l (genres st).
Proof.
  exists (sort "genre_name" (genres st)).
  split; [apply genre_list_eval|apply sort_Permutation].
Qed.

(** X2: for a stored genre the detail handler renders that genre with
    the books that reference it, in store order, each cut down to its
    id, title and summary. *)
Theorem genre_detail_shows_titles_and_summaries (i : Incoming) (st : Store)
    (r : ObjectId) (g : Doc) :
  castObjectId (in_params_id i) = Some r ->
  List.find (has_id r) (genres st) = Some g ->
  exists shown : list Doc,
    serve (route genre_detail) i st =
    (st, Render "genre_detail"
           [("title", LString "Genre Detail");
            ("genre", LDoc g);
            ("genre_books", LDocs shown)])
    /\ Forall2
         (fun s b =>
            s !! "_id" = b !! "_id" /\ s !! "title" = b !! "title"
            /\ s !! "summary" = b !! "summary"
            /\ forall k, k <> "_id" -> k <> "title" -> k <> "summary" ->
                         s !! k = None)
         shown (books_using r st)
    /\ forall b, In b (books_using r st) <->
                 In b (books st) /\ references r b.
Proof.
  intros Hid Hg.
  exists (select ["title"; "summary"] <$> books_using r st).
  split; [rewrite genre_detail_eval, Hid, Hg; reflexivity|].
  split; [|intros b; apply books_using_spec].
  induction (books_using r st) as [|b l IH]; constructor; [|exact IH].
  repeat split; try (rewrite select_lookup; reflexivity).
  intros k H1 H2 H3. rewrite select_lookup.
  rewrite bool_decide_eq_false_2; [reflexivity|].
  intros [E|E]; [exact (H1 E)|].
  apply elem_of_cons in E. destruct E as [E|E]; [exact (H2 E)|].
  apply elem_of_cons in E. destruct E as [E|E]; [exact (H3 E)|].
  apply elem_of_nil in E. exact E.
Qed.

(** X3: a valid name (three characters or more once trimmed) that no
    stored genre has is always saved: one genre with the sanitized name
    and the fresh id is put after the stored ones, books and book
    instances stay, and the response redirects to the new genre. *)
Theorem genre_create_post_saves_new_name (i : Incoming) (st : Store) :
  3 <= Validator.len (Validator.trim (submitted i "name")) ->
  (forall g, In g (genres st) ->
             g !! "name" <> Some (VStr (sanitized (submitted i "name")))) ->
  genres (serve genre_create_post i st).1 =
    genres st ++ [renamed (in_fresh_id i) (sanitized (submitted i "name"))]
  /\ books (serve genre_create_post i st).1 = books st
  /\ bookinstances (serve genre_create_post i st).1 = bookinstances st
  /\ (serve genre_create_post i st).2 =
     Redirect ("/catalog/genre/" +:+ oid_hex (in_fresh_id i)).
Proof.
  intros Hlen Hnew. rewrite (genre_create_post_new_name i st Hlen Hnew).
  repeat split.
Qed.

(** X4: submitting the same valid new name a second time inserts
    nothing: the response redirects to the genre the first request
    created. *)
Theorem genre_create_post_twice (i i' : Incoming) (st : Store) :
  3 <= Validator.len (Validator.trim (submitted i "name")) ->
  (forall g, In g (genres st) ->
             g !! "name" <> Some (VStr (sanitized (submitted i "name")))) ->
  submitted i' "name" = submitted i "name" ->
  serve genre_create_post i' (serve genre_create_post i st).1 =
  ((serve genre_create_post i st).1,
   Redirect ("/catalog/genre/" +:+ oid_hex (in_fresh_id i)))
  /\ (serve genre_create_post i st).2 =
     Redirect ("/catalog/genre/" +:+ oid_hex (in_fresh_id i))
  /\ genres (serve genre_create_post i st).1 =
     genres st ++ [renamed (in_fresh_id i) (sanitized (submitted i "name"))].
Proof.
  intros Hlen Hnew Hsame.
  rewrite (genre_create_post_new_name i st Hlen Hnew).
  split; [|split; reflexivity]. cbn [fst].
  rewrite genre_create_post_valid
    by (rewrite Hsame; apply isLength_le; exact Hlen).
  cbv zeta. rewrite Hsame.
  unfold with_genres, set_collection. cbn [genres].
  rewrite find_app_None.
  - cbn [List.find].
    rewrite (proj2 (matches_singleton "name" _ _))
      by apply lookup_insert_eq.
    reflexivity.
  - destruct (List.find _ (genres st)) as [g|] eqn:E; [|reflexivity].
    apply find_some in E. destruct E as [Hin Hm].
    apply matches_singleton in Hm. destruct (Hnew g Hin Hm).
Qed.

(** X5: the create handler keeps the names of the stored genres
    distinct. *)
Theorem genre_create_post_keeps_names_distinct (i : Incoming) (st : Store) :
  NoDup (names (genres st)) ->
  NoDup (names (genres (serve genre_create_post i st).1)).
Proof.
  intros Hnd.
  destruct (Validator.isLength 3 (Validator.trim (submitted i "name"))) eqn:Hlen.
  - rewrite genre_create_post_valid by exact Hlen. cbv zeta.
    destruct (List.find _ (genres st)) as [g|] eqn:E; [exact Hnd|].
    destruct (bool_decide _); [exact Hnd|].
    cbn [fst with_genres set_collection genres].
    unfold names. rewrite fmap_app. apply NoDup_app.
    split; [exact Hnd|]. split; [|apply NoDup_singleton].
    intros n Hn Hn'. apply list_elem_of_singleton in Hn'. subst n.
    apply list_elem_of_fmap in Hn. destruct Hn as (g & Hg & Hin).
    apply list_elem_of_In in Hin.
    pose proof (find_none _ _ E g Hin) as Hf.
    rewrite lookup_insert_eq in Hg. symmetry in Hg.
    apply matches_singleton in Hg. congruence.
  - rewrite genre_create_post_invalid by exact Hlen. exact Hnd.
Qed.

(** X6: whatever is submitted, a genre the create handler adds has the
    fresh id and a name of at least three characters (a character
    counting once, however many bytes encode it) with no quote, angle
    bracket, slash, backslash or backtick in it. *)
Theorem genre_create_post_stores_sanitized (i : Incoming) (st : Store)
    (g : Doc) :
  In g (genres (serve genre_create_post i st).1) ->
  ~ In g (genres st) ->
  exists s : string,
    g = renamed (in_fresh_id i) s
    /\ 3 <= Validator.len s
    /\ string_forallb (fun c => negb (html_special c)) s = true.
Proof.
  intros Hin Hnew.
  destruct (Validator.isLength 3 (Validator.trim (submitted i "name"))) eqn:Hlen.
  - rewrite genre_create_post_valid in Hin by exact Hlen. cbv zeta in Hin.
    destruct (List.find _ (genres st)) as [g'|]; [destruct (Hnew Hin)|].
    destruct (bool_decide _); [destruct (Hnew Hin)|].
    cbn [fst with_genres set_collection genres] in Hin.
    apply in_app_or in Hin. destruct Hin as [Hin|[<-|[]]]; [destruct (Hnew Hin)|].
    exists (sanitized (submitted i "name")).
    split; [reflexivity|]. split; [|apply escape_safe].
    apply isLength_le in Hlen. unfold sanitized.
    pose proof (escape_len (Validator.trim (submitted i "name"))). lia.
  - rewrite genre_create_post_invalid in Hin by exact Hlen.
    destruct (Hnew Hin).
Qed.

Lemma has_id_renamed (i : ObjectId) (s : string) :
  has_id i (renamed i s) = true.
Proof. apply has_id_true. reflexivity. Qed.

Lemma has_id_insert_name (i : ObjectId) (v : Value) (g : Doc) :
  has_id i (<["name" := v]> g) = has_id i g.
Proof. unfold has_id. rewrite lookup_insert_ne by done. reflexivity. Qed.

(** What a valid update request with a route id that casts does to the
    genres. *)
Lemma genre_update_post_found (i : Incoming) (st : Store) (r : ObjectId)
    (g : Doc) :
  Validator.isLength 1 (Validator.trim (submitted i "name")) = true ->
  castObjectId (in_params_id i) = Some r ->
  List.find (has_id r) (genres st) = Some g ->
  exists l1 l2 : list Doc,
    genres st = l1 ++ g :: l2
    /\ List.find (has_id r) l1 = None
    /\ serve genre_update_post i st =
       (with_genres
          (l1 ++ <["name" := VStr (sanitized (submitted i "name"))]> g :: l2) st,
        Redirect ("/catalog/genre/" +:+ oid_hex r)).
Proof.
  intros Hlen Hid Hg. rewrite genre_update_post_eval, Hlen, Hid.
  destruct (update_first_found _
              (fun d => renamed r (sanitized (submitted i "name")) ∪ d) _ _ Hg)
    as (l1 & l2 & E1 & E2 & E3).
  exists l1, l2. split; [exact E1|]. split; [exact E3|].
  rewrite E2, renamed_union; [reflexivity|].
  apply find_some in Hg. exact (proj2 Hg).
Qed.

(** X7: a genre just created is what the detail page of its id shows,
    under the sanitized name, which is the submitted name itself when
    trimming leaves that alone and it has none of the escaped
    characters. *)
Theorem genre_create_then_detail (i i' : Incoming) (st : Store) :
  3 <= Validator.len (Validator.trim (submitted i "name")) ->
  (forall g, In g (genres st) ->
             g !! "name" <> Some (VStr (sanitized (submitted i "name")))) ->
  (forall g, In g (genres st) -> g !! "_id" <> Some (VId (in_fresh_id i))) ->
  castObjectId (in_params_id i') = Some (in_fresh_id i) ->
  serve (route genre_detail) i' (serve genre_create_post i st).1 =
  ((serve genre_create_post i st).1,
   Render "genre_detail"
     [("title", LString "Genre Detail");
      ("genre", LDoc (renamed (in_fresh_id i) (sanitized (submitted i "name"))));
      ("genre_books",
       LDocs (select ["title"; "summary"] <$> books_using (in_fresh_id i) st))])
  /\ In (renamed (in_fresh_id i) (sanitized (submitted i "name")))
        (genres (serve genre_create_post i st).1)
  /\ (Validator.trim (submitted i "name") = submitted i "name" ->
      unescaped (submitted i "name") = true ->
      sanitized (submitted i "name") = submitted i "name").
Proof.
  intros Hlen Hnew Hfresh Hid. split; [|split].
  - rewrite genre_detail_eval, Hid.
    rewrite (genre_create_post_new_name i st Hlen Hnew).
    cbn [fst with_genres set_collection genres].
    rewrite (find_middle _ _ []
               (renamed (in_fresh_id i) (sanitized (submitted i "name"))));
      [reflexivity| |apply has_id_renamed].
    apply find_has_id_none. exact Hfresh.
  - rewrite (genre_create_post_new_name i st Hlen Hnew).
    cbn [fst with_genres set_collection genres].
    apply in_or_app. right. left. reflexivity.
  - intros Ht Hu. unfold sanitized. rewrite Ht. apply escape_unescaped. exact Hu.
Qed.

(** X8: an update whose name is empty once trimmed (blank, or nothing
    but whitespace of any kind) changes nothing: the form is rendered
    again with the error on [name]; for a well-formed route id the
    genre it is rendered with has that id and the empty name. *)
Theorem genre_update_post_blank_name (i : Incoming) (st : Store)
    (r : ObjectId) :
  castObjectId (in_params_id i) = Some r ->
  Validator.trim (submitted i "name") = EmptyString ->
  serve genre_update_post i st =
  (st, Render "genre_form"
         [("title", LString "Update Genre");
          ("genre", LDoc (renamed r EmptyString));
          ("errors",
           LErrors [{| err_path := "name";
                       err_msg := "Genre name must not be empty." |}])]).
Proof.
  intros Hid Hb. rewrite genre_update_post_eval, Hid. unfold sanitized.
  rewrite Hb. reflexivity.
Qed.

(** X9: a valid update (a name of one character or more once trimmed,
    a well-formed route id) gives the genre with the route id the
    sanitized name and changes nothing else: its other paths, the
    genres around it, the books and the book instances stay; the
    response redirects to the detail page of the id. *)
Theorem genre_update_post_renames (i : Incoming) (st : Store) (r : ObjectId)
    (g : Doc) :
  1 <= Validator.len (Validator.trim (submitted i "name")) ->
  castObjectId (in_params_id i) = Some r ->
  List.find (has_id r) (genres st) = Some g ->
  exists l1 l2 : list Doc,
    genres st = l1 ++ g :: l2
    /\ List.find (has_id r) l1 = None
    /\ genres (serve genre_update_post i st).1 =
       l1 ++ <["name" := VStr (sanitized (submitted i "name"))]> g :: l2
    /\ books (serve genre_update_post i st).1 = books st
    /\ bookinstances (serve genre_update_post i st).1 = bookinstances st
    /\ (serve genre_update_post i st).2 =
       Redirect ("/catalog/genre/" +:+ oid_hex r).
Proof.
  intros Hlen Hid Hg. apply isLength_le in Hlen.
  destruct (genre_update_post_found i st r g Hlen Hid Hg)
    as (l1 & l2 & E1 & E2 & E3).
  exists l1, l2. rewrite E3. repeat split; assumption.
Qed.

(** X10: a valid update for a well-formed id no stored genre has
    changes nothing and inserts nothing, yet redirects to the detail
    page of that id, which answers not found. *)
Theorem genre_update_post_unknown_id (i : Incoming) (st : Store)
    (r : ObjectId) :
  1 <= Validator.len (Validator.trim (submitted i "name")) ->
  castObjectId (in_params_id i) = Some r ->
  (forall g, In g (genres st) -> g !! "_id" <> Some (VId r)) ->
  serve genre_update_post i st =
  (st, Redirect ("/catalog/genre/" +:+ oid_hex r))
  /\ serve (route genre_detail) i st = (st, Next (NotFound "Genre not found")).
Proof.
  intros Hlen Hid Hno. apply find_has_id_none in Hno.
  apply isLength_le in Hlen.
  split.
  - rewrite genre_update_post_eval, Hlen, Hid.
    rewrite (update_first_absent _ _ _ Hno), with_genres_same. reflexivity.
  - rewrite genre_detail_eval, Hid, Hno. reflexivity.
Qed.

(** X11: a name of one or two characters once trimmed is refused when a
    genre is created and accepted when a genre is updated: the stored
    genre with the route id takes it as its name. *)
Theorem genre_short_name_create_and_update (i : Incoming) (st : Store)
    (r : ObjectId) (g : Doc) :
  1 <= Validator.len (Validator.trim (submitted i "name")) ->
  Validator.len (Validator.trim (submitted i "name")) < 3 ->
  castObjectId (in_params_id i) = Some r ->
  List.find (has_id r) (genres st) = Some g ->
  serve genre_create_post i st =
  (st, Render "genre_form"
         [("title", LString "Create Genre");
          ("genre", LDoc (renamed (in_fresh_id i) (sanitized (submitted i "name"))));
          ("errors", LErrors [name_error])])
  /\ (serve genre_update_post i st).2 =
     Redirect ("/catalog/genre/" +:+ oid_hex r)
  /\ exists l1 l2 : list Doc,
       genres st = l1 ++ g :: l2
       /\ List.find (has_id r) l1 = None
       /\ genres (serve genre_update_post i st).1 =
          l1 ++ <["name" := VStr (sanitized (submitted i "name"))]> g :: l2.
Proof.
  intros H1 H3 Hid Hg. apply isLength_le in H1. apply isLength_gt in H3.
  split.
  - rewrite genre_create_post_invalid by exact H3. reflexivity.
  - destruct (genre_update_post_found i st r g H1 Hid Hg)
      as (l1 & l2 & E1 & E2 & E3).
    rewrite E3. split; [reflexivity|].
    exists l1, l2. repeat split; assumption.
Qed.

(** X12: the update handler does not look for the name among the other
    genres: renaming a genre to the name of another leaves two stored
    genres with one name. *)
Theorem genre_update_post_duplicates_name (i : Incoming) (st : Store)
    (r : ObjectId) (g other : Doc) :
  1 <= Validator.len (Validator.trim (submitted i "name")) ->
  castObjectId (in_params_id i) = Some r ->
  List.find (has_id r) (genres st) = Some g ->
  In other (genres st) ->
  other !! "_id" <> Some (VId r) ->
  other !! "name" = Some (VStr (sanitized (submitted i "name"))) ->
  In other (genres (serve genre_update_post i st).1)
  /\ In (<["name" := VStr (sanitized (submitted i "name"))]> g)
        (genres (serve genre_update_post i st).1)
  /\ ~ NoDup (names (genres (serve genre_update_post i st).1)).
Proof.
  intros Hlen Hid Hg Ho Hoid Honame. apply isLength_le in Hlen.
  destruct (genre_update_post_found i st r g Hlen Hid Hg)
    as (l1 & l2 & E1 & E2 & E3).
  rewrite E3. cbn [fst with_genres set_collection genres].
  assert (Hog : other <> g).
  { intros ->. apply find_some in Hg. destruct Hg as [_ Hg].
    apply has_id_true in Hg. exact (Hoid Hg). }
  assert (Hplace : In other l1 \/ In other l2).
  { rewrite E1 in Ho. apply in_app_or in Ho.
    destruct Ho as [Ho|[Ho|Ho]]; [left; exact Ho| |right; exact Ho].
    destruct (Hog (eq_sym Ho)). }
  split; [|split].
  - apply in_or_app. destruct Hplace as [H1|H2]; [left; exact H1|].
    right. right. exact H2.
  - apply in_or_app. right. left. reflexivity.
  - unfold names. rewrite fmap_app, fmap_cons, lookup_insert_eq.
    intros Hnd. apply NoDup_app in Hnd. destruct Hnd as (_ & Hdis & Hnd).
    apply NoDup_cons in Hnd. destruct Hnd as [Hnotin _].
    destruct Hplace as [H1|H2].
    + apply (Hdis (Some (VStr (sanitized (submitted i "name"))))).
      * apply list_elem_of_fmap. exists other.
        split; [symmetry; exact Honame|apply list_elem_of_In; exact H1].
      * left.
    + apply Hnotin. apply list_elem_of_fmap. exists other.
      split; [symmetry; exact Honame|apply list_elem_of_In; exact H2].
Qed.

(** X13: after a valid update of a stored genre the update form of the
    same id is filled with the genre under its new name. *)
Theorem genre_update_post_then_get (i : Incoming) (st : Store) (r : ObjectId)
    (g : Doc) :
  1 <= Validator.len (Validator.trim (submitted i "name")) ->
  castObjectId (in_params_id i) = Some r ->
  List.find (has_id r) (genres st) = Some g ->
  serve (route genre_update_get) i (serve genre_update_post i st).1 =
  ((serve genre_update_post i st).1,
   Render "genre_form"
     [("title", LString "Update Genre");
      ("genre", LDoc (<["name" := VStr (sanitized (submitted i "name"))]> g))]).
Proof.
  intros Hlen Hid Hg. apply isLength_le in Hlen.
  destruct (genre_update_post_found i st r g Hlen Hid Hg)
    as (l1 & l2 & E1 & E2 & E3).
  rewrite genre_update_get_eval, Hid, E3.
  cbn [fst with_genres set_collection genres].
  rewrite find_middle; [reflexivity|exact E2|].
  rewrite has_id_insert_name. apply find_some in Hg. exact (proj2 Hg).
Qed.

(** X14: the delete handler looks for books under the route id and
    deletes under the form field: when the two differ, a genre that
    books refer to is deleted, and the books stay, referring to an id
    no stored genre has. *)
Theorem genre_delete_post_orphans_books (i : Incoming) (st : Store)
    (r gid : ObjectId) (g b : Doc) :
  castObjectId (in_params_id i) = Some r ->
  (forall b', In b' (books st) -> ~ references r b') ->
  castObjectId (in_genreid i) = Some gid ->
  List.find (has_id gid) (genres st) = Some g ->
  at_most_one gid (genres st) ->
  In b (books st) -> references gid b ->
  In b (books (serve (route genre_delete_post) i st).1)
  /\ (forall g', In g' (genres (serve (route genre_delete_post) i st).1) ->
                 g' !! "_id" <> Some (VId gid))
  /\ (serve (route genre_delete_post) i st).2 = Redirect "/catalog/genres".
Proof.
  intros Hid Hno Hgid Hg Hone Hb Hr. apply books_using_nil in Hno.
  rewrite genre_delete_post_eval, Hid, Hno, Hgid.
  cbn [fst snd with_genres set_collection genres books].
  split; [exact Hb|]. split; [|reflexivity].
  apply find_has_id_none. apply find_remove_first. exact Hone.
Qed.

(** X15: once a genre without books is deleted under its own id, its
    detail page answers not found, and deleting it again changes
    nothing. *)
Theorem genre_delete_post_then_gone (i : Incoming) (st : Store)
    (r : ObjectId) :
  castObjectId (in_params_id i) = Some r ->
  (forall b, In b (books st) -> ~ references r b) ->
  in_genreid i = in_params_id i ->
  at_most_one r (genres st) ->
  serve (route genre_detail) i (serve (route genre_delete_post) i st).1 =
  ((serve (route genre_delete_post) i st).1, Next (NotFound "Genre not found"))
  /\ serve (route genre_delete_post) i (serve (route genre_delete_post) i st).1 =
     ((serve (route genre_delete_post) i st).1, Redirect "/catalog/genres").
Proof.
  intros Hid Hno Hsame Hone. apply books_using_nil in Hno.
  assert (Hgone : List.find (has_id r) (remove_first (has_id r) (genres st))
                  = None)
    by (apply find_remove_first; exact Hone).
  rewrite genre_detail_eval, !genre_delete_post_eval.
  unfold books_using in *.
  rewrite Hsame, Hid, Hno. cbn [fst with_genres set_collection genres books].
  rewrite Hno, Hgone, (remove_first_absent _ _ Hgone). split; reflexivity.
Qed.

(** X17: the delete handler never touches books or book instances and
    removes at most one genre; the genres left are stored genres, and
    every genre whose id is not the one of the form field stays. *)
Theorem genre_delete_post_frame (i : Incoming) (st : Store) :
  books (serve (route genre_delete_post) i st).1 = books st
  /\ bookinstances (serve (route genre_delete_post) i st).1 = bookinstances st
  /\ List.length (genres st) <=
     List.length (genres (serve (route genre_delete_post) i st).1) + 1
  /\ (forall g, In g (genres (serve (route genre_delete_post) i st).1) ->
                In g (genres st))
  /\ (forall g, In g (genres st) ->
                (forall gid, castObjectId (in_genreid i) = Some gid ->
                             g !! "_id" <> Some (VId gid)) ->
                In g (genres (serve (route genre_delete_post) i st).1)).
Proof.
  rewrite genre_delete_post_eval.
  destruct (castObjectId (in_params_id i)) as [r|];
    [|cbn [fst]; repeat split; try lia; auto].
  destruct (books_using r st);
    [|cbn [fst]; repeat split; try lia; auto].
  destruct (castObjectId (in_genreid i)) as [gid|];
    [|cbn [fst]; repeat split; try lia; auto].
  cbn [fst with_genres set_collection genres books bookinstances].
  split; [reflexivity|]. split; [reflexivity|].
  split; [apply remove_first_length|].
  split; [intros g; apply remove_first_In|].
  intros g Hg Hother. apply remove_first_keeps; [exact Hg|].
  destruct (has_id gid g) eqn:E; [|reflexivity].
  apply has_id_true in E. destruct (Hother gid eq_refl E).
Qed.

End GenreProperties.

(** ** Properties of the book-instance controller *)

Section BookInstanceProperties.
Context `{Externals}.
Import BookInstanceController.

Lemma BookInstance_schema_no_id :
  Forall (fun p => path_name p <> "_id") (model_schema BookInstance).
Proof. repeat constructor; discriminate. Qed.

Lemma BookInstance_schema_NoDup :
  NoDup (path_name <$> model_schema BookInstance).
Proof. compute_done. Qed.

(** The request after the chains of the create route, whatever is
    submitted. *)
Lemma bookinstance_create_validated_any (i : Incoming) :
  run_validations (validations bookinstance_create_post) (receive i) =
  {| params_id := in_params_id i;
     body_genreid := in_genreid i;
     body_bookinstanceid := in_bookinstanceid i;
     body :=
       (if bool_decide (submitted i "due_back" = EmptyString) then fun m => m
        else <["due_back" := date_value (toDate_text (submitted i "due_back"))]>)
         (<["status" := VStr (Validator.escape (submitted i "status"))]>
            (<["imprint" := VStr (sanitized (submitted i "imprint"))]>
               (<["book" := VStr (sanitized (submitted i "book"))]>
                  (VStr <$> in_body i))));
     fresh_id := in_fresh_id i;
     contexts :=
       field_errors "book" "Book must be specified" 1 (submitted i "book")
       ++ field_errors "imprint" "Imprint must be specified" 1
            (submitted i "imprint")
       ++ (if bool_decide (submitted i "due_back" = EmptyString) then []
           else if isISO8601_text (submitted i "due_back") then []
           else [date_error]) |}.
Proof.
  unfold run_validations, bookinstance_create_post, validations, body_chain.
  cbn [foldl].
  rewrite !run_chain_trim_isLength_escape, run_chain_escape.
  unfold isISO8601, toDate. rewrite run_chain_optional.
  unfold set_body.
  cbn [body contexts params_id body_genreid body_bookinstanceid fresh_id
       receive].
  rewrite !lookup_insert_ne by done.
  rewrite !toString_fmap, falsy_fmap.
  fold (submitted i "book") (submitted i "imprint") (submitted i "status")
       (submitted i "due_back").
  unfold field_errors. cbn [app].
  destruct (bool_decide (submitted i "due_back" = EmptyString)).
  - rewrite app_nil_r. reflexivity.
  - rewrite <- app_assoc. reflexivity.
Qed.

Lemma bookinstance_create_validated (i : Incoming) :
  submitted i "due_back" <> EmptyString ->
  run_validations (validations bookinstance_create_post) (receive i) =
  {| params_id := in_params_id i;
     body_genreid := in_genreid i;
     body_bookinstanceid := in_bookinstanceid i;
     body :=
       <["due_back" := date_value (toDate_text (submitted i "due_back"))]>
         (<["status" := VStr (Validator.escape (submitted i "status"))]>
            (<["imprint" := VStr (sanitized (submitted i "imprint"))]>
               (<["book" := VStr (sanitized (submitted i "book"))]>
                  (VStr <$> in_body i))));
     fresh_id := in_fresh_id i;
     contexts :=
       field_errors "book" "Book must be specified" 1 (submitted i "book")
       ++ field_errors "imprint" "Imprint must be specified" 1
            (submitted i "imprint")
       ++ (if isISO8601_text (submitted i "due_back") then []
           else [date_error]) |}.
Proof.
  intros Hdue. rewrite bookinstance_create_validated_any.
  rewrite !(bool_decide_eq_false_2 _ Hdue). reflexivity.
Qed.

(** The document the create handler builds from the sanitized fields. *)
Lemma new_BookInstance_fields (fresh : ObjectId) (b im s : string)
    (v v' : Value) :
  castDateValue v = Some v' ->
  new BookInstance fresh
    (obj [("book", Some (VStr b)); ("imprint", Some (VStr im));
          ("status", Some (VStr s)); ("due_back", Some v)]) =
  let rest : Doc :=
    <["imprint" := VStr im]>
      (<["status" := VStr s]>
         (<["due_back" := v']> {[ "_id" := VId fresh ]})) in
  match castObjectId b with
  | Some o => {| doc_fields := <["book" := VId o]> rest; doc_invalid := [] |}
  | None => {| doc_fields := rest; doc_invalid := ["book"] |}
  end.
Proof.
  intros Hv. unfold new, BookInstance, model_schema. cbn [foldr].
  rewrite (set_path_cast (schema_path "due_back" _ _ _) _ _ v v')
    by (try reflexivity; exact Hv).
  rewrite (set_path_cast (schema_path "status" _ _ _) _ _ (VStr s) (VStr s))
    by reflexivity.
  rewrite (set_path_cast (schema_path "imprint" _ _ _) _ _ (VStr im) (VStr im))
    by reflexivity.
  cbv zeta. destruct (castObjectId b) as [o|] eqn:E.
  - rewrite (set_path_cast (schema_path "book" _ _ _) _ _ (VStr b) (VId o));
      [reflexivity|reflexivity|cbn; rewrite E; reflexivity].
  - rewrite (set_path_invalid (schema_path "book" _ _ _) _ _ (VStr b));
      [reflexivity|reflexivity|cbn; rewrite E; reflexivity].
Qed.

Lemma castDateValue_date_value (d : option string) :
  castDateValue (date_value d) = Some (date_value d).
Proof. destruct d; reflexivity. Qed.

Lemma validate_BookInstance_ok (fresh b : ObjectId) (im s : string) (v : Value) :
  im <> EmptyString -> s ∈ status_values ->
  validate BookInstance
    {| doc_fields :=
         <["book" := VId b]>
           (<["imprint" := VStr im]>
              (<["status" := VStr s]>
                 (<["due_back" := v]> {[ "_id" := VId fresh ]})));
       doc_invalid := [] |} = true.
Proof.
  intros Him Hs. unfold validate, path_ok.
  cbn [doc_invalid doc_fields BookInstance model_schema forallb path_required
       path_name path_enum negb orb].
  rewrite lookup_insert_eq.
  rewrite (lookup_insert_ne _ "book" "imprint") by done.
  rewrite lookup_insert_eq.
  rewrite (lookup_insert_ne _ "book" "status") by done.
  rewrite (lookup_insert_ne _ "imprint" "status") by done.
  rewrite lookup_insert_eq.
  cbn [required_ok enum_ok].
  rewrite (bool_decide_eq_false_2 _ Him), (bool_decide_eq_true_2 _ Hs).
  cbn. reflexivity.
Qed.

(** A document whose book did not cast has no book and does not pass
    validation. *)
Lemma new_BookInstance_no_book (fresh : ObjectId) (o : Doc) (sb : string) :
  o !! "book" = Some (VStr sb) -> castObjectId sb = None ->
  doc_fields (new BookInstance fresh o) !! "book" = None
  /\ validate BookInstance (new BookInstance fresh o) = false.
Proof.
  intros Ho Hc. unfold new, BookInstance, model_schema. cbn [foldr].
  rewrite (set_path_invalid (schema_path "book" _ _ _) _ _ (VStr sb));
    [|exact Ho|cbn; rewrite Hc; reflexivity].
  cbn [doc_fields doc_invalid]. split.
  - rewrite !set_path_other by discriminate.
    destruct (o !! "_id") as [v|]; [destruct (cast_id v)|]; reflexivity.
  - unfold validate. cbn [doc_invalid].
    destruct (doc_invalid _); reflexivity.
Qed.

Lemma posted_lookups (m : Doc) (vb vi vs : Value) (f : Doc -> Doc) :
  (f = (fun m => m) \/ exists v, f = <["due_back" := v]>) ->
  f (<["status" := vs]> (<["imprint" := vi]> (<["book" := vb]> m))) !! "book"
    = Some vb
  /\ f (<["status" := vs]> (<["imprint" := vi]> (<["book" := vb]> m))) !! "imprint"
    = Some vi
  /\ f (<["status" := vs]> (<["imprint" := vi]> (<["book" := vb]> m))) !! "status"
    = Some vs.
Proof.
  intros [->|[v ->]]; repeat split;
    rewrite ?(lookup_insert_ne _ "due_back") by done;
    rewrite ?(lookup_insert_ne _ "status" "imprint") by done;
    rewrite ?(lookup_insert_ne _ "status" "book") by done;
    rewrite ?(lookup_insert_ne _ "imprint" "book") by done;
    apply lookup_insert_eq.
Qed.

Lemma create_post_bad_date_eval (i : Incoming) (st : Store) :
  submitted i "due_back" <> EmptyString ->
  isISO8601_text (submitted i "due_back") = false ->
  serve bookinstance_create_post i st =
  let rest : Doc :=
    <["imprint" := VStr (sanitized (submitted i "imprint"))]>
      (<["status" := VStr (Validator.escape (submitted i "status"))]>
         (<["due_back" := date_value (toDate_text (submitted i "due_back"))]>
            {[ "_id" := VId (in_fresh_id i) ]})) in
  match castObjectId (sanitized (submitted i "book")) with
  | Some b =>
      (st, Render "bookinstance_form"
             [("title", LString "Create BookInstance");
              ("book_list", LDocs (select ["title"] <$> sort "title" (books st)));
              ("selected_book", LId b);
              ("errors",
               LErrors
                 (field_errors "book" "Book must be specified" 1
                    (submitted i "book")
                  ++ field_errors "imprint" "Imprint must be specified" 1
                       (submitted i "imprint")
                  ++ [date_error]));
              ("bookinstance", LDoc (<["book" := VId b]> rest))])
  | None =>
      (st, Next (TypeError "Cannot read properties of undefined (reading '_id')"))
  end.
Proof.
  intros Hdue Hiso. unfold serve.
  rewrite bookinstance_create_validated by exact Hdue. rewrite Hiso.
  unfold bookinstance_create_post, handler, asyncHandler.
  cbn [validationResult contexts body fresh_id].
  rewrite isEmpty_app_cons. cbn [negb].
  rewrite lookup_insert_eq.
  rewrite (lookup_insert_ne _ "due_back" "status") by done.
  rewrite lookup_insert_eq.
  rewrite (lookup_insert_ne _ "due_back" "imprint") by done.
  rewrite (lookup_insert_ne _ "status" "imprint") by done.
  rewrite lookup_insert_eq.
  rewrite !(lookup_insert_ne _ _ "book") by done.
  rewrite lookup_insert_eq.
  rewrite (new_BookInstance_fields _ _ _ _ _ _ (castDateValue_date_value _)).
  cbv zeta.
  unfold mbind, Async_bind. rewrite find_all.
  cbn [Book model_collection collection project sort_by].
  destruct (castObjectId (sanitized (submitted i "book"))) as [b|].
  - cbn [doc_fields]. rewrite lookup_insert_eq. reflexivity.
  - cbn [doc_fields]. reflexivity.
Qed.

(** When the submitted book is not an id the document has no book, and
    the handler throws where it reads the selected book. *)
Lemma bookinstance_create_post_no_book_throws (i : Incoming) (st : Store) :
  submitted i "due_back" <> EmptyString ->
  isISO8601_text (submitted i "due_back") = false ->
  castObjectId (sanitized (submitted i "book")) = None ->
  serve bookinstance_create_post i st =
  (st, Next (TypeError "Cannot read properties of undefined (reading '_id')")).
Proof.
  intros Hdue Hiso Hb.
  rewrite (create_post_bad_date_eval i st Hdue Hiso). cbv zeta.
  rewrite Hb. reflexivity.
Qed.

(** The update handler: no chain has run, so the body is as submitted;
    a route id that does not cast makes the update reject. *)
Lemma bookinstance_update_post_eval (i : Incoming) (st : Store) :
  serve (route bookinstance_update_post) i st =
  match castObjectId (in_params_id i) with
  | Some b =>
      (with_bookinstances
         (update_first (has_id b)
            (fun d => doc_fields (update_document i) ∪ d) (bookinstances st)) st,
       Redirect (BookInstance_url (doc_fields (update_document i))))
  | None => (st, Next (CastError (VStr (in_params_id i))))
  end.
Proof.
  unfold serve, route, handler, validations, run_validations. cbn [foldl].
  unfold bookinstance_update_post, asyncHandler, try_catch.
  cbn [validationResult contexts receive isEmpty negb body params_id fresh_id].
  rewrite !lookup_fmap. fold (update_document i).
  unfold mbind, Async_bind, findByIdAndUpdate.
  cbn [BookInstance model_collection collection].
  destruct (castObjectId (in_params_id i)); reflexivity.
Qed.

Lemma update_document_keys (i : Incoming) (k : string) (ov : option Value) :
  In (k, ov)
     [("_id", Some (VStr (in_params_id i)));
      ("book", VStr <$> in_body i !! "book");
      ("imprint", VStr <$> in_body i !! "imprint");
      ("status", VStr <$> in_body i !! "status");
      ("due_back", VStr <$> in_body i !! "due_back")] ->
  obj [("_id", Some (VStr (in_params_id i)));
       ("book", VStr <$> in_body i !! "book");
       ("imprint", VStr <$> in_body i !! "imprint");
       ("status", VStr <$> in_body i !! "status");
       ("due_back", VStr <$> in_body i !! "due_back")] !! k = ov.
Proof. apply obj_lookup. compute_done. Qed.

(** The paths of the document the update handler builds: the route id,
    and the submitted book, imprint, status and due date as the schema
    casts them; it has no other path. *)
Lemma update_document_fields (i : Incoming) (b : ObjectId) :
  castObjectId (in_params_id i) = Some b ->
  doc_fields (update_document i) !! "_id" = Some (VId b)
  /\ (forall s o, in_body i !! "book" = Some s -> castObjectId s = Some o ->
                  doc_fields (update_document i) !! "book" = Some (VId o))
  /\ (forall s, in_body i !! "imprint" = Some s ->
                doc_fields (update_document i) !! "imprint" = Some (VStr s))
  /\ (forall s, in_body i !! "status" = Some s ->
                doc_fields (update_document i) !! "status" = Some (VStr s))
  /\ (forall s v, in_body i !! "due_back" = Some s ->
                  castDateValue (VStr s) = Some v ->
                  doc_fields (update_document i) !! "due_back" = Some v)
  /\ (forall k, k ∉ ["_id"; "book"; "imprint"; "status"; "due_back"] ->
                doc_fields (update_document i) !! k = None).
Proof.
  intros Hid. unfold update_document.
  split; [|split; [|split; [|split; [|split]]]].
  - apply (new_id _ _ _ _ (VStr (in_params_id i)));
      [apply BookInstance_schema_no_id|apply lookup_insert_eq|exact Hid].
  - intros s o Hs Ho.
    apply (new_path BookInstance _ _
             (schema_path "book" castObjectIdValue true None) (VStr s));
      [apply BookInstance_schema_NoDup|left; reflexivity|discriminate| |].
    + cbn [path_name].
      rewrite (update_document_keys i "book" (VStr <$> in_body i !! "book"))
        by (right; left; reflexivity).
      rewrite Hs. reflexivity.
    + cbn. rewrite Ho. reflexivity.
  - intros s Hs.
    apply (new_path BookInstance _ _
             (schema_path "imprint" castString true None) (VStr s));
      [apply BookInstance_schema_NoDup|right; left; reflexivity|discriminate| |].
    + cbn [path_name].
      rewrite (update_document_keys i "imprint" (VStr <$> in_body i !! "imprint"))
        by (right; right; left; reflexivity).
      rewrite Hs. reflexivity.
    + reflexivity.
  - intros s Hs.
    apply (new_path BookInstance _ _
             (schema_path "status" castString false (Some status_values))
             (VStr s));
      [apply BookInstance_schema_NoDup|right; right; left; reflexivity
      |discriminate| |].
    + cbn [path_name].
      rewrite (update_document_keys i "status" (VStr <$> in_body i !! "status"))
        by (right; right; right; left; reflexivity).
      rewrite Hs. reflexivity.
    + reflexivity.
  - intros s v Hs Hv.
    apply (new_path BookInstance _ _
             (schema_path "due_back" castDateValue false None) (VStr s));
      [apply BookInstance_schema_NoDup|right; right; right; left; reflexivity
      |discriminate| |exact Hv].
    cbn [path_name].
    rewrite (update_document_keys i "due_back" (VStr <$> in_body i !! "due_back"))
      by (right; right; right; right; left; reflexivity).
    rewrite Hs. reflexivity.
  - intros k Hk. apply new_other.
    + intros ->. apply Hk. left.
    + intros Hin. apply Hk. right. exact Hin.
Qed.

Lemma has_id_update (i : Incoming) (b : ObjectId) (d : Doc) :
  castObjectId (in_params_id i) = Some b ->
  has_id b (doc_fields (update_document i) ∪ d) = true.
Proof.
  intros Hid. apply has_id_true. apply lookup_union_Some_l.
  apply (update_document_fields i b Hid).
Qed.

(** The update handler for a route id that casts: what is stored, and
    where the response leads. *)
Lemma bookinstance_update_post_store (i : Incoming) (st : Store)
    (b : ObjectId) :
  castObjectId (in_params_id i) = Some b ->
  serve (route bookinstance_update_post) i st =
  (with_bookinstances
     (update_first (has_id b)
        (fun d => doc_fields (update_document i) ∪ d) (bookinstances st)) st,
   Redirect ("/catalog/bookinstance/" +:+ oid_hex b)).
Proof.
  intros Hid. rewrite bookinstance_update_post_eval, Hid.
  unfold BookInstance_url, id_text.
  rewrite (proj1 (update_document_fields i b Hid)). reflexivity.
Qed.

(** What the update handler changes: the first book instance with the
    route id takes the paths of the new document and keeps its others. *)
Lemma bookinstance_update_post_record (i : Incoming) (st : Store)
    (b : ObjectId) (d : Doc) :
  castObjectId (in_params_id i) = Some b ->
  List.find (has_id b) (bookinstances st) = Some d ->
  exists l1 l2 : list Doc,
    bookinstances st = l1 ++ d :: l2
    /\ bookinstances (serve (route bookinstance_update_post) i st).1 =
       l1 ++ (doc_fields (update_document i) ∪ d) :: l2
    /\ List.find (has_id b) l1 = None.
Proof.
  intros Hid Hd. rewrite (bookinstance_update_post_store i st b Hid).
  destruct (update_first_found _
              (fun e => doc_fields (update_document i) ∪ e) _ _ Hd)
    as (l1 & l2 & E1 & E2 & E3).
  exists l1, l2. repeat split; assumption.
Qed.

(** C3, for a route id that casts: no validation chain stands in front
    of the update handler, so the error list it reads is empty whatever
    is submitted and the form is never rendered again; when the route
    id is a well-formed id the response redirects to the detail URL of
    that id, and the first book instance with that id, if there is one,
    now holds the submitted imprint and status as they were sent and
    the submitted book and due date as the schema casts them, its
    place, its id and its other paths being as before; nothing else in
    the store changes. *)
Theorem bookinstance_update_post_always_updates (i : Incoming) (st : Store)
    (b : ObjectId) :
  castObjectId (in_params_id i) = Some b ->
  validationResult
    (run_validations (validations (route bookinstance_update_post))
       (receive i)) = []
  /\ (serve (route bookinstance_update_post) i st).2 =
     Redirect ("/catalog/bookinstance/" +:+ oid_hex b)
  /\ genres (serve (route bookinstance_update_post) i st).1 = genres st
  /\ books (serve (route bookinstance_update_post) i st).1 = books st
  /\ (List.find (has_id b) (bookinstances st) = None ->
      bookinstances (serve (route bookinstance_update_post) i st).1 =
      bookinstances st)
  /\ (forall d, List.find (has_id b) (bookinstances st) = Some d ->
        exists (l1 l2 : list Doc) (d' : Doc),
          bookinstances st = l1 ++ d :: l2
          /\ List.find (has_id b) l1 = None
          /\ bookinstances (serve (route bookinstance_update_post) i st).1 =
             l1 ++ d' :: l2
          /\ d' !! "_id" = Some (VId b)
          /\ (forall s, in_body i !! "imprint" = Some s ->
                        d' !! "imprint" = Some (VStr s))
          /\ (forall s, in_body i !! "status" = Some s ->
                        d' !! "status" = Some (VStr s))
          /\ (forall s o, in_body i !! "book" = Some s ->
                          castObjectId s = Some o ->
                          d' !! "book" = Some (VId o))
          /\ (forall s v, in_body i !! "due_back" = Some s ->
                          castDateValue (VStr s) = Some v ->
                          d' !! "due_back" = Some v)
          /\ (forall k, k ∉ ["_id"; "book"; "imprint"; "status"; "due_back"] ->
                        d' !! k = d !! k)).
Proof.
  intros Hid. split; [reflexivity|].
  destruct (update_document_fields i b Hid)
    as (Fid & Fbook & Fim & Fst & Fdue & Fother).
  split; [rewrite (bookinstance_update_post_store i st b Hid); reflexivity|].
  split; [rewrite (bookinstance_update_post_store i st b Hid); reflexivity|].
  split; [rewrite (bookinstance_update_post_store i st b Hid); reflexivity|].
  split.
  - intros Hnone. rewrite (bookinstance_update_post_store i st b Hid).
    cbn [fst with_bookinstances set_collection bookinstances].
    apply update_first_absent. exact Hnone.
  - intros d Hd.
    destruct (bookinstance_update_post_record i st b d Hid Hd)
      as (l1 & l2 & E1 & E2 & E3).
    exists l1, l2, (doc_fields (update_document i) ∪ d).
    split; [exact E1|]. split; [exact E3|]. split; [exact E2|].
    split; [apply lookup_union_Some_l; exact Fid|].
    split; [intros s Hs; apply lookup_union_Some_l; exact (Fim s Hs)|].
    split; [intros s Hs; apply lookup_union_Some_l; exact (Fst s Hs)|].
    split; [intros s o Hs Ho; apply lookup_union_Some_l; exact (Fbook s o Hs Ho)|].
    split; [intros s v Hs Hv; apply lookup_union_Some_l; exact (Fdue s v Hs Hv)|].
    intros k Hk. apply lookup_union_r. exact (Fother k Hk).
Qed.

(** A route id that does not cast: the update rejects, the store stays
    as it is and the error goes to [next]. *)
Lemma bookinstance_update_post_malformed (i : Incoming) (st : Store) :
  castObjectId (in_params_id i) = None ->
  serve (route bookinstance_update_post) i st =
  (st, Next (CastError (VStr (in_params_id i)))).
Proof. intros Hid. rewrite bookinstance_update_post_eval, Hid. reflexivity. Qed.

(** C7, for a submitted book that is an id and with the values as the
    chains leave them: when [due_back] is submitted non-empty and is not
    ISO 8601, nothing is inserted; and when the submitted book, trimmed
    and escaped, is a well-formed id, the form is rendered again with
    all books (their titles, sorted by title), that id as the selected
    book, the validation errors, and the fields as the chains left them:
    imprint trimmed and escaped, status escaped, [due_back] the date
    [toDate] makes of it or null. *)
Theorem bookinstance_create_post_invalid_date (i : Incoming) (st : Store) :
  submitted i "due_back" <> EmptyString ->
  isISO8601_text (submitted i "due_back") = false ->
  (serve bookinstance_create_post i st).1 = st
  /\ Permutation (sort "title" (books st)) (books st)
  /\ Sorted (key_le "title") (sort "title" (books st))
  /\ forall b : ObjectId,
       castObjectId (sanitized (submitted i "book")) = Some b ->
       (serve bookinstance_create_post i st).2 =
       Render "bookinstance_form"
         [("title", LString "Create BookInstance");
          ("book_list", LDocs (select ["title"] <$> sort "title" (books st)));
          ("selected_book", LId b);
          ("errors",
           LErrors
             (field_errors "imprint" "Imprint must be specified" 1
                (submitted i "imprint")
              ++ [{| err_path := "due_back"; err_msg := "Invalid date" |}]));
          ("bookinstance",
           LDoc
             (<["book" := VId b]>
                (<["imprint" := VStr (sanitized (submitted i "imprint"))]>
                   (<["status" := VStr (Validator.escape (submitted i "status"))]>
                      (<["due_back" :=
                           date_value (toDate_text (submitted i "due_back"))]>
                         {[ "_id" := VId (in_fresh_id i) ]})))))].
Proof.
  intros Hdue Hiso.
  rewrite (create_post_bad_date_eval i st Hdue Hiso).
  cbv zeta. split.
  - destruct (castObjectId _); reflexivity.
  - split; [apply sort_Permutation|]. split; [apply sort_Sorted|].
    intros b Hb. rewrite Hb. cbn [snd].
    unfold field_errors at 1.
    rewrite (castObjectId_sanitized_nonempty _ _ Hb). reflexivity.
Qed.

Lemma bookinstance_delete_post_eval (i : Incoming) (st : Store) :
  serve (route bookinstance_delete_post) i st =
  match castObjectId (in_bookinstanceid i) with
  | Some b =>
      (with_bookinstances (remove_first (has_id b) (bookinstances st)) st,
       Redirect "/catalog/bookinstances")
  | None => (st, Next (CastError (VStr (in_bookinstanceid i))))
  end.
Proof.
  unfold serve, route, handler, validations, run_validations. cbn [foldl].
  unfold bookinstance_delete_post, asyncHandler, try_catch.
  unfold mbind, Async_bind, findByIdAndDelete.
  cbn [BookInstance model_collection collection receive body_bookinstanceid].
  destruct (castObjectId (in_bookinstanceid i)); reflexivity.
Qed.

(** C8, for a form field that casts: when [bookinstanceid] is a
    well-formed id the delete handler looks at nothing else and
    redirects to the list of book instances; the first book instance
    with that id has left the store, and when no record has that id the
    store is as it was and the response is the same redirect. *)
Theorem bookinstance_delete_post_always_redirects (i : Incoming) (st : Store)
    (b : ObjectId) :
  castObjectId (in_bookinstanceid i) = Some b ->
  (serve (route bookinstance_delete_post) i st).2 =
    Redirect "/catalog/bookinstances"
  /\ genres (serve (route bookinstance_delete_post) i st).1 = genres st
  /\ books (serve (route bookinstance_delete_post) i st).1 = books st
  /\ (List.find (has_id b) (bookinstances st) = None ->
      serve (route bookinstance_delete_post) i st =
      (st, Redirect "/catalog/bookinstances"))
  /\ (forall d, List.find (has_id b) (bookinstances st) = Some d ->
        exists l1 l2 : list Doc,
          bookinstances st = l1 ++ d :: l2
          /\ List.find (has_id b) l1 = None
          /\ bookinstances (serve (route bookinstance_delete_post) i st).1 =
             l1 ++ l2).
Proof.
  intros Hid. rewrite bookinstance_delete_post_eval, Hid.
  cbn [fst snd with_bookinstances set_collection genres books bookinstances].
  split; [reflexivity|]. split; [reflexivity|]. split; [reflexivity|]. split.
  - intros Hnone. rewrite (remove_first_absent _ _ Hnone).
    destruct st; reflexivity.
  - intros d Hd.
    destruct (remove_first_found _ _ _ Hd) as (l1 & l2 & E1 & E2 & E3).
    exists l1, l2. repeat split; assumption.
Qed.

(** *** Further properties of the book-instance controller *)

Lemma bookinstance_create_get_eval (i : Incoming) (st : Store) :
  serve (route bookinstance_create_get) i st =
  (st, Render "bookinstance_form"
         [("title", LString "Create Book Instance");
          ("book_list", LDocs (select ["title"] <$> sort "title" (books st)))]).
Proof.
  unfold serve, route, handler, validations, run_validations. cbn [foldl].
  unfold bookinstance_create_get, asyncHandler, mbind, Async_bind.
  rewrite find_all. reflexivity.
Qed.

Lemma bookinstance_list_eval (i : Incoming) (st : Store) :
  serveP bookinstance_list i st =
  (st, PRender "bookinstance_list"
         [("title", Plain (LString "Book Instance List"));
          ("bookinstance_list",
           PDocs (populate_doc "book" Book st <$> bookinstances st))]).
Proof.
  unfold serveP, bookinstance_list, asyncHandlerP, mbind, Async_bind.
  rewrite find_all. reflexivity.
Qed.

Lemma bookinstance_detail_eval (i : Incoming) (st : Store) :
  serveP bookinstance_detail i st =
  (st,
   match castObjectId (in_params_id i) with
   | None => Other (Next (CastError (VStr (in_params_id i))))
   | Some b =>
       match List.find (has_id b) (bookinstances st) with
       | Some d =>
           PRender "bookinstance_detail"
             [("title", Plain (LString "Book:"));
              ("bookinstance", PDoc (populate_doc "book" Book st d))]
       | None => Other (Next (NotFound "Book copy not found"))
       end
   end).
Proof.
  unfold serveP, bookinstance_detail, asyncHandlerP, mbind, Async_bind,
    findById, populate.
  cbn [BookInstance model_collection collection receive params_id].
  destruct (castObjectId (in_params_id i)); [|reflexivity].
  destruct (List.find _ (bookinstances st)); reflexivity.
Qed.

Lemma bookinstance_delete_get_eval (i : Incoming) (st : Store) :
  serveP bookinstance_delete_get i st =
  (st,
   match castObjectId (in_params_id i) with
   | None => Other (Next (CastError (VStr (in_params_id i))))
   | Some b =>
       match List.find (has_id b) (bookinstances st) with
       | Some d =>
           PRender "bookinstance_delete"
             [("title", Plain (LString "Delete Book Instance"));
              ("bookinstance", PDoc (populate_doc "book" Book st d))]
       | None => Other (Next (NotFound "BookInstance not found"))
       end
   end).
Proof.
  unfold serveP, bookinstance_delete_get, asyncHandlerP, try_catch, mbind,
    Async_bind, findById, populate.
  cbn [BookInstance model_collection collection receive params_id].
  destruct (castObjectId (in_params_id i)); [|reflexivity].
  destruct (List.find _ (bookinstances st)); reflexivity.
Qed.

Lemma bookinstance_update_get_eval (i : Incoming) (st : Store) :
  serveP bookinstance_update_get i st =
  (st,
   match castObjectId (in_params_id i) with
   | None => Other (Next (CastError (VStr (in_params_id i))))
   | Some b =>
       match List.find (has_id b) (bookinstances st) with
       | Some d =>
           match pop_ref (populate_doc "book" Book st d) with
           | RefDoc bk =>
               PRender "bookinstance_form"
                 [("title", Plain (LString "Update Book Instance"));
                  ("bookinstance", PDoc (populate_doc "book" Book st d));
                  ("book_list",
                   Plain (LDocs (select ["title"] <$> sort "title" (books st))));
                  ("default_book_title", PValue (bk !! "title"))]
           | RefNull =>
               Other (Next (TypeError
                              "Cannot read properties of null (reading 'title')"))
           | RefUndefined =>
               Other (Next (TypeError
                              "Cannot read properties of undefined (reading 'title')"))
           end
       | None => Other (Next (NotFound "Book instance not found"))
       end
   end).
Proof.
  unfold serveP, bookinstance_update_get, asyncHandlerP, try_catch, mbind,
    Async_bind, findById, populate.
  cbn [BookInstance Book model_collection collection receive params_id].
  destruct (castObjectId (in_params_id i)); [|reflexivity].
  destruct (List.find _ (bookinstances st)) as [d|]; [|reflexivity].
  cbn [fmap option_fmap option_map]. cbv beta iota.
  rewrite find_all.
  destruct (pop_ref (populate_doc "book" Book st d)); reflexivity.
Qed.

(** X16: the handlers of the GET routes of both controllers leave the
    store as it is, whatever the request. *)
Theorem get_handlers_read_only (i : Incoming) (st : Store) :
  (serve (route GenreController.genre_list) i st).1 = st
  /\ (serve (route GenreController.genre_detail) i st).1 = st
  /\ (serve (route GenreController.genre_create_get) i st).1 = st
  /\ (serve (route GenreController.genre_delete_get) i st).1 = st
  /\ (serve (route GenreController.genre_update_get) i st).1 = st
  /\ (serveP bookinstance_list i st).1 = st
  /\ (serveP bookinstance_detail i st).1 = st
  /\ (serve (route bookinstance_create_get) i st).1 = st
  /\ (serveP bookinstance_delete_get i st).1 = st
  /\ (serveP bookinstance_update_get i st).1 = st.
Proof.
  rewrite genre_list_eval, genre_detail_eval, genre_delete_get_eval,
    genre_update_get_eval, bookinstance_list_eval, bookinstance_detail_eval,
    bookinstance_create_get_eval, bookinstance_delete_get_eval,
    bookinstance_update_get_eval.
  repeat split.
Qed.

(** X18: the create form lists every stored book exactly once, by
    ascending title, each cut down to its id and title. *)
Theorem bookinstance_create_get_lists_books (i : Incoming) (st : Store) :
  exists l : list Doc,
    serve (route bookinstance_create_get) i st =
    (st, Render "bookinstance_form"
           [("title", LString "Create Book Instance");
            ("book_list", LDocs (select ["title"] <$> l))])
    /\ Permutation l (books st)
    /\ Sorted (key_le "title") l
    /\ Forall2
         (fun s b =>
            s !! "_id" = b !! "_id" /\ s !! "title" = b !! "title"
            /\ forall k, k <> "_id" -> k <> "title" -> s !! k = None)
         (select ["title"] <$> l) l.
Proof.
  exists (sort "title" (books st)).
  split; [apply bookinstance_create_get_eval|].
  split; [apply sort_Permutation|]. split; [apply sort_Sorted|].
  induction (sort "title" (books st)) as [|b l IH]; constructor; [|exact IH].
  repeat split; try (rewrite select_lookup; reflexivity).
  intros k H1 H2. rewrite select_lookup.
  rewrite bool_decide_eq_false_2; [reflexivity|].
  intros [E|E]; [exact (H1 E)|].
  apply elem_of_cons in E. destruct E as [E|E]; [exact (H2 E)|].
  apply elem_of_nil in E. exact E.
Qed.

(** X19: a request whose book is a well-formed id, whose imprint has a
    character left once trimmed, whose status is one the schema allows
    and whose due date is empty or ISO 8601 is saved: one book instance
    with the sanitized fields, the due date null when it was empty, is
    put after the stored ones, and the response redirects to it.
    Whether a book with that id is stored is not looked at. *)
Theorem bookinstance_create_post_saves (i : Incoming) (st : Store)
    (b : ObjectId) (d : string) :
  castObjectId (sanitized (submitted i "book")) = Some b ->
  1 <= Validator.len (Validator.trim (submitted i "imprint")) ->
  Validator.escape (submitted i "status") ∈ status_values ->
  in_body i !! "due_back" = Some d ->
  d = EmptyString \/ isISO8601_text d = true ->
  serve bookinstance_create_post i st =
  ({| genres := genres st;
      books := books st;
      bookinstances :=
        bookinstances st ++
        [<["book" := VId b]>
           (<["imprint" := VStr (sanitized (submitted i "imprint"))]>
              (<["status" := VStr (Validator.escape (submitted i "status"))]>
                 (<["due_back" :=
                      if bool_decide (d = EmptyString) then VNull
                      else date_value (toDate_text d)]>
                    {[ "_id" := VId (in_fresh_id i) ]})))] |},
   Redirect ("/catalog/bookinstance/" +:+ oid_hex (in_fresh_id i))).
Proof.
  intros Hb Him Hst Hd Hdate.
  assert (Hsub : submitted i "due_back" = d)
    by (unfold submitted; rewrite Hd; reflexivity).
  assert (Himl : Validator.isLength 1 (Validator.trim (submitted i "imprint"))
                 = true) by (apply isLength_le; exact Him).
  subst d.
  unfold serve. rewrite bookinstance_create_validated_any.
  unfold field_errors.
  rewrite (castObjectId_sanitized_nonempty _ _ Hb), Himl.
  unfold bookinstance_create_post, handler, asyncHandler.
  cbn [validationResult contexts body fresh_id app].
  case_bool_decide as Hempty.
  - cbn [isEmpty negb].
    destruct (posted_lookups (VStr <$> in_body i)
                (VStr (sanitized (submitted i "book")))
                (VStr (sanitized (submitted i "imprint")))
                (VStr (Validator.escape (submitted i "status")))
                (fun m => m) (or_introl eq_refl)) as (L1 & L2 & L3).
    rewrite L1, L2, L3.
    rewrite !(lookup_insert_ne _ _ "due_back") by done.
    rewrite lookup_fmap, Hd. cbn [fmap option_fmap option_map].
    rewrite (new_BookInstance_fields _ _ _ _ _ VNull)
      by (cbn; rewrite (bool_decide_eq_true_2 _ Hempty); reflexivity).
    cbv zeta. rewrite Hb.
    unfold mbind, Async_bind, save.
    rewrite validate_BookInstance_ok;
      [reflexivity|exact (sanitized_nonempty 0 _ Himl)|exact Hst].
  - destruct Hdate as [Hdate|Hiso]; [destruct (Hempty Hdate)|].
    rewrite Hiso. cbn [isEmpty negb].
    destruct (posted_lookups (VStr <$> in_body i)
                (VStr (sanitized (submitted i "book")))
                (VStr (sanitized (submitted i "imprint")))
                (VStr (Validator.escape (submitted i "status")))
                (<["due_back" :=
                    date_value (toDate_text (submitted i "due_back"))]>)
                (or_intror (ex_intro _ _ eq_refl))) as (L1 & L2 & L3).
    rewrite L1, L2, L3, lookup_insert_eq.
    rewrite (new_BookInstance_fields _ _ _ _ _
               (date_value (toDate_text (submitted i "due_back"))))
      by apply castDateValue_date_value.
    cbv zeta. rewrite Hb.
    unfold mbind, Async_bind, save.
    rewrite validate_BookInstance_ok;
      [reflexivity|exact (sanitized_nonempty 0 _ Himl)|exact Hst].
Qed.

(** X20: when the submitted book, trimmed and escaped, is not a
    well-formed id (a blank selection is the common case), the create
    handler never renders the form again, whatever else is submitted:
    nothing is inserted and an error goes to [next], the TypeError of
    reading [_id] of a book that is not there, or the ValidationError
    of [save]. *)
Theorem bookinstance_create_post_without_book (i : Incoming) (st : Store) :
  castObjectId (sanitized (submitted i "book")) = None ->
  exists e : Error,
    serve bookinstance_create_post i st = (st, Next e)
    /\ (e = TypeError "Cannot read properties of undefined (reading '_id')"
        \/ e = MongooseValidationError).
Proof.
  intros Hb. unfold serve. rewrite bookinstance_create_validated_any.
  unfold bookinstance_create_post, handler, asyncHandler.
  cbn [validationResult contexts body fresh_id].
  match goal with
  | |- context [new BookInstance ?f ?o] =>
      assert (Ho : o !! "book" = Some (VStr (sanitized (submitted i "book"))));
      [|destruct (new_BookInstance_no_book f o _ Ho Hb) as [Hnone Hinv];
        generalize dependent (new BookInstance f o); intros doc Hnone Hinv]
  end.
  { case_bool_decide.
    - destruct (posted_lookups (VStr <$> in_body i)
                  (VStr (sanitized (submitted i "book")))
                  (VStr (sanitized (submitted i "imprint")))
                  (VStr (Validator.escape (submitted i "status")))
                  (fun m => m) (or_introl eq_refl)) as (L1 & _).
      rewrite L1. apply lookup_insert_eq.
    - destruct (posted_lookups (VStr <$> in_body i)
                  (VStr (sanitized (submitted i "book")))
                  (VStr (sanitized (submitted i "imprint")))
                  (VStr (Validator.escape (submitted i "status")))
                  (<["due_back" := date_value (toDate_text (submitted i "due_back"))]>)
                  (or_intror (ex_intro _ _ eq_refl))) as (L1 & _).
      rewrite L1. apply lookup_insert_eq. }
  destruct (isEmpty _).
  - cbn [negb]. unfold mbind, Async_bind, save. rewrite Hinv.
    eexists. split; [reflexivity|right; reflexivity].
  - cbn [negb]. unfold mbind, Async_bind. rewrite find_all.
    rewrite Hnone. cbn.
    eexists. split; [reflexivity|left; reflexivity].
Qed.

(** X21: for a well-formed id no stored book instance has, the detail
    page, the delete form and the update form all hand [next] an error
    with status 404, each with its own message (the genre delete form
    redirects instead). *)
Theorem bookinstance_missing_is_not_found (i : Incoming) (st : Store)
    (b : ObjectId) :
  castObjectId (in_params_id i) = Some b ->
  (forall d, In d (bookinstances st) -> d !! "_id" <> Some (VId b)) ->
  serveP bookinstance_detail i st =
    (st, Other (Next (JsError "Error" "Book copy not found" (Some 404))))
  /\ serveP bookinstance_delete_get i st =
     (st, Other (Next (JsError "Error" "BookInstance not found" (Some 404))))
  /\ serveP bookinstance_update_get i st =
     (st, Other (Next (JsError "Error" "Book instance not found" (Some 404)))).
Proof.
  intros Hid Hno. apply find_has_id_none in Hno.
  rewrite bookinstance_detail_eval, bookinstance_delete_get_eval,
    bookinstance_update_get_eval, Hid, Hno.
  repeat split.
Qed.

(** X22: for a stored book instance whose book is no longer stored, the
    detail page and the delete form are rendered with a null book, but
    the update form is not: reading the title of the null book throws,
    and the error goes to [next]. *)
Theorem bookinstance_with_missing_book (i : Incoming) (st : Store)
    (r : ObjectId) (d : Doc) (b : ObjectId) :
  castObjectId (in_params_id i) = Some r ->
  List.find (has_id r) (bookinstances st) = Some d ->
  d !! "book" = Some (VId b) ->
  (forall bk, In bk (books st) -> bk !! "_id" <> Some (VId b)) ->
  serveP bookinstance_update_get i st =
    (st, Other (Next (TypeError
                        "Cannot read properties of null (reading 'title')")))
  /\ serveP bookinstance_detail i st =
     (st, PRender "bookinstance_detail"
            [("title", Plain (LString "Book:"));
             ("bookinstance",
              PDoc {| pop_fields := d; pop_path := "book"; pop_ref := RefNull |})])
  /\ serveP bookinstance_delete_get i st =
     (st, PRender "bookinstance_delete"
            [("title", Plain (LString "Delete Book Instance"));
             ("bookinstance",
              PDoc {| pop_fields := d; pop_path := "book"; pop_ref := RefNull |})]).
Proof.
  intros Hid Hd Hb Hno. apply find_has_id_none in Hno.
  rewrite bookinstance_detail_eval, bookinstance_delete_get_eval,
    bookinstance_update_get_eval, Hid, Hd.
  unfold populate_doc. cbn [pop_ref Book model_collection collection].
  rewrite Hb, Hno. repeat split.
Qed.

(** X23: for a stored book instance of a stored book the update form is
    rendered with the instance, its book populated, the titles of all
    books by ascending title, and the title of that book as the
    default. *)
Theorem bookinstance_update_get_shows_book (i : Incoming) (st : Store)
    (r : ObjectId) (d bk : Doc) (b : ObjectId) :
  castObjectId (in_params_id i) = Some r ->
  List.find (has_id r) (bookinstances st) = Some d ->
  d !! "book" = Some (VId b) ->
  List.find (has_id b) (books st) = Some bk ->
  serveP bookinstance_update_get i st =
  (st, PRender "bookinstance_form"
         [("title", Plain (LString "Update Book Instance"));
          ("bookinstance",
           PDoc {| pop_fields := d; pop_path := "book"; pop_ref := RefDoc bk |});
          ("book_list",
           Plain (LDocs (select ["title"] <$> sort "title" (books st))));
          ("default_book_title", PValue (bk !! "title"))])
  /\ bk !! "_id" = Some (VId b) /\ In bk (books st).
Proof.
  intros Hid Hd Hb Hbk.
  rewrite bookinstance_update_get_eval, Hid, Hd.
  unfold populate_doc. cbn [pop_ref Book model_collection collection].
  rewrite Hb, Hbk. split; [reflexivity|].
  apply find_some in Hbk. destruct Hbk as [Hin Hbid].
  apply has_id_true in Hbid. split; assumption.
Qed.

(** X24: sending the same update twice leaves the store as sending it
    once. *)
Theorem bookinstance_update_post_idempotent (i : Incoming) (st : Store) :
  serve (route bookinstance_update_post) i
    (serve (route bookinstance_update_post) i st).1 =
  serve (route bookinstance_update_post) i st.
Proof.
  destruct (castObjectId (in_params_id i)) as [b|] eqn:Hid.
  - rewrite !(bookinstance_update_post_store _ _ b Hid).
    cbn [fst with_bookinstances set_collection bookinstances genres books].
    rewrite update_first_idem; [reflexivity| |].
    + intros d _. apply has_id_update. exact Hid.
    + intros d. rewrite map_union_assoc, map_union_idemp. reflexivity.
  - rewrite !(bookinstance_update_post_malformed _ _ Hid). reflexivity.
Qed.

(** X25: an update never touches genres or books, neither adds nor
    removes a book instance, changes no id, and leaves every book
    instance whose id is not the route id as it is. *)
Theorem bookinstance_update_post_frame (i : Incoming) (st : Store) :
  genres (serve (route bookinstance_update_post) i st).1 = genres st
  /\ books (serve (route bookinstance_update_post) i st).1 = books st
  /\ (fun d => d !! "_id") <$>
       bookinstances (serve (route bookinstance_update_post) i st).1 =
     (fun d => d !! "_id") <$> bookinstances st
  /\ (forall d, In d (bookinstances st) ->
                (forall b, castObjectId (in_params_id i) = Some b ->
                           d !! "_id" <> Some (VId b)) ->
                In d (bookinstances (serve (route bookinstance_update_post) i st).1)).
Proof.
  destruct (castObjectId (in_params_id i)) as [b|] eqn:Hid.
  - rewrite (bookinstance_update_post_store _ _ b Hid).
    cbn [fst with_bookinstances set_collection bookinstances genres books].
    split; [reflexivity|]. split; [reflexivity|]. split.
    + apply update_first_fmap. intros d Hd. apply has_id_true in Hd.
      rewrite Hd. apply has_id_true. apply has_id_update. exact Hid.
    + intros d Hd Hother. apply update_first_keeps; [exact Hd|].
      destruct (has_id b d) eqn:E; [|reflexivity].
      apply has_id_true in E. destruct (Hother b eq_refl E).
  - rewrite (bookinstance_update_post_malformed _ _ Hid).
    repeat split. intros d Hd _. exact Hd.
Qed.

(** X26: an update for a well-formed id no stored book instance has
    changes nothing and inserts nothing, yet redirects to the detail
    page of that id, which answers not found. *)
Theorem bookinstance_update_post_unknown_id (i : Incoming) (st : Store)
    (b : ObjectId) :
  castObjectId (in_params_id i) = Some b ->
  (forall d, In d (bookinstances st) -> d !! "_id" <> Some (VId b)) ->
  serve (route bookinstance_update_post) i st =
    (st, Redirect ("/catalog/bookinstance/" +:+ oid_hex b))
  /\ serveP bookinstance_detail i st =
     (st, Other (Next (NotFound "Book copy not found"))).
Proof.
  intros Hid Hno. apply find_has_id_none in Hno.
  rewrite (bookinstance_update_post_store _ _ b Hid),
    bookinstance_detail_eval, Hid, Hno.
  rewrite (update_first_absent _ _ _ Hno), with_bookinstances_same.
  split; reflexivity.
Qed.

(** X27: once a book instance is deleted under its own id its detail
    page answers not found, and deleting it again changes nothing. *)
Theorem bookinstance_delete_post_then_gone (i : Incoming) (st : Store)
    (b : ObjectId) :
  castObjectId (in_params_id i) = Some b ->
  in_bookinstanceid i = in_params_id i ->
  at_most_one b (bookinstances st) ->
  serveP bookinstance_detail i (serve (route bookinstance_delete_post) i st).1 =
    ((serve (route bookinstance_delete_post) i st).1,
     Other (Next (NotFound "Book copy not found")))
  /\ serve (route bookinstance_delete_post) i
       (serve (route bookinstance_delete_post) i st).1 =
     ((serve (route bookinstance_delete_post) i st).1,
      Redirect "/catalog/bookinstances").
Proof.
  intros Hid Hsame Hone.
  assert (Hgone : List.find (has_id b)
                    (remove_first (has_id b) (bookinstances st)) = None)
    by (apply find_remove_first; exact Hone).
  rewrite bookinstance_detail_eval, !bookinstance_delete_post_eval,
    Hsame, Hid.
  cbn [fst with_bookinstances set_collection bookinstances].
  rewrite Hgone, (remove_first_absent _ _ Hgone). split; reflexivity.
Qed.

(** X28: the update handler stores imprint and status exactly as they
    were submitted, blank or with markup, where the create handler
    trims and escapes them. *)
Theorem bookinstance_update_post_stores_as_submitted (i : Incoming)
    (st : Store) (b : ObjectId) (d : Doc) (im sv : string) :
  castObjectId (in_params_id i) = Some b ->
  List.find (has_id b) (bookinstances st) = Some d ->
  in_body i !! "imprint" = Some im ->
  in_body i !! "status" = Some sv ->
  exists (l1 l2 : list Doc) (d' : Doc),
    bookinstances st = l1 ++ d :: l2
    /\ bookinstances (serve (route bookinstance_update_post) i st).1 =
       l1 ++ d' :: l2
    /\ d' !! "_id" = d !! "_id"
    /\ d' !! "imprint" = Some (VStr im)
    /\ d' !! "status" = Some (VStr sv).
Proof.
  intros Hid Hd Him Hsv.
  destruct (bookinstance_update_post_record i st b d Hid Hd)
    as (l1 & l2 & E1 & E2 & _).
  destruct (update_document_fields i b Hid) as (Fid & _ & Fim & Fsv & _).
  exists l1, l2, (doc_fields (update_document i) ∪ d).
  split; [exact E1|]. split; [exact E2|].
  apply find_some in Hd. destruct Hd as [_ Hd]. apply has_id_true in Hd.
  split; [|split].
  - rewrite Hd. apply lookup_union_Some_l. exact Fid.
  - apply lookup_union_Some_l. exact (Fim im Him).
  - apply lookup_union_Some_l. exact (Fsv sv Hsv).
Qed.

(** X29: the delete handler never touches genres or books and removes
    at most one book instance; every book instance whose id is not the
    one of the form field stays. *)
Theorem bookinstance_delete_post_frame (i : Incoming) (st : Store) :
  genres (serve (route bookinstance_delete_post) i st).1 = genres st
  /\ books (serve (route bookinstance_delete_post) i st).1 = books st
  /\ List.length (bookinstances st) <=
     List.length (bookinstances (serve (route bookinstance_delete_post) i st).1)
     + 1
  /\ (forall d, In d (bookinstances (serve (route bookinstance_delete_post) i st).1)
                -> In d (bookinstances st))
  /\ (forall d, In d (bookinstances st) ->
                (forall b, castObjectId (in_bookinstanceid i) = Some b ->
                           d !! "_id" <> Some (VId b)) ->
                In d (bookinstances (serve (route bookinstance_delete_post) i st).1)).
Proof.
  rewrite bookinstance_delete_post_eval.
  destruct (castObjectId (in_bookinstanceid i)) as [b|];
    [|cbn [fst]; repeat split; try lia; auto].
  cbn [fst with_bookinstances set_collection bookinstances genres books].
  split; [reflexivity|]. split; [reflexivity|].
  split; [apply remove_first_length|].
  split; [intros d; apply remove_first_In|].
  intros d Hd Hother. apply remove_first_keeps; [exact Hd|].
  destruct (has_id b d) eqn:E; [|reflexivity].
  apply has_id_true in E. destruct (Hother b eq_refl E).
Qed.

(** X30: the list shows every stored book instance once, in store
    order, each with its book populated: the stored book with that id,
    or null when there is none. *)
Theorem bookinstance_list_shows_all (i : Incoming) (st : Store) :
  exists l : list Populated,
    serveP bookinstance_list i st =
    (st, PRender "bookinstance_list"
           [("title", Plain (LString "Book Instance List"));
            ("bookinstance_list", PDocs l)])
    /\ pop_fields <$> l = bookinstances st
    /\ Forall
         (fun p =>
            forall b, pop_fields p !! "book" = Some (VId b) ->
              pop_ref p =
              match List.find (has_id b) (books st) with
              | Some bk => RefDoc bk
              | None => RefNull
              end)
         l.
Proof.
  exists (populate_doc "book" Book st <$> bookinstances st).
  split; [apply bookinstance_list_eval|]. split.
  - induction (bookinstances st) as [|d l IH]; [reflexivity|].
    cbn. f_equal. exact IH.
  - induction (bookinstances st) as [|d l IH]; constructor; [|exact IH].
    intros b Hb. unfold populate_doc in *. cbn in *. rewrite Hb. reflexivity.
Qed.

End BookInstanceProperties.

(** ** The properties above at the sample catalogue *)

Lemma bookinstance_update_post_always_updates_witness :
  (serve (route (@BookInstanceController.bookinstance_update_post
                   sample_externals)) update_copy_request catalogue).2 =
    Redirect "/catalog/bookinstance/65a1b2c3d4e5f60718293c01"
  /\ genres (serve (route (@BookInstanceController.bookinstance_update_post
                             sample_externals)) update_copy_request
               catalogue).1 = [genre_scifi; genre_fantasy]
  /\ books (serve (route (@BookInstanceController.bookinstance_update_post
                            sample_externals)) update_copy_request
              catalogue).1 = [book_dune]
  /\ exists d' : Doc,
       bookinstances
         (serve (route (@BookInstanceController.bookinstance_update_post
                          sample_externals)) update_copy_request catalogue).1
       = [d']
       /\ d' !! "_id" = Some (VId oid_copy)
       /\ d' !! "imprint" = Some (VStr " <b>Ace</b> ")
       /\ d' !! "status" = Some (VStr "Loaned")
       /\ d' !! "book" = Some (VId oid_dune)
       /\ d' !! "due_back" = Some (VDate "2026-12-01T00:00:00.000Z").
Proof.
  destruct (@bookinstance_update_post_always_updates sample_externals
              update_copy_request catalogue oid_copy eq_refl)
    as (_ & Hres & Hg & Hb & _ & Hd).
  split; [exact Hres|]. split; [exact Hg|]. split; [exact Hb|].
  destruct (Hd copy_dune eq_refl)
    as (l1 & l2 & d' & E1 & _ & E2 & Fid & Fim & Fst & Fbook & Fdue & _).
  exists d'. apply split_single in E1. destruct E1 as [-> ->].
  split; [exact E2|]. split; [exact Fid|].
  split; [exact (Fim _ eq_refl)|]. split; [exact (Fst _ eq_refl)|].
  split; [exact (Fbook _ oid_dune eq_refl eq_refl)|].
  exact (Fdue "2026-12-01" _ eq_refl eq_refl).
Defined.

(** C3 does not hold for every request: with a route parameter that is
    not a well-formed id the error list is empty and the success branch
    is taken, but the update rejects there, so that nothing is replaced
    and the response is no redirect: the error goes to [next]. *)
Lemma bookinstance_update_post_malformed_id :
  validationResult
    (run_validations
       (validations (route (@BookInstanceController.bookinstance_update_post
                              sample_externals)))
       (receive malformed_update_request)) = []
  /\ serve (route (@BookInstanceController.bookinstance_update_post
                     sample_externals)) malformed_update_request catalogue =
     (catalogue, Next (CastError (VStr "the-copy"))).
Proof. split; reflexivity. Qed.

Lemma bookinstance_create_post_invalid_date_witness :
  (serve (@BookInstanceController.bookinstance_create_post sample_externals)
     bad_date_request catalogue).1 = catalogue
  /\ (serve (@BookInstanceController.bookinstance_create_post sample_externals)
        bad_date_request catalogue).2 =
     Render "bookinstance_form"
       [("title", LString "Create BookInstance");
        ("book_list", LDocs [obj [("_id", Some (VId oid_dune));
                                  ("title", Some (VStr "Dune"))]]);
        ("selected_book", LId oid_dune);
        ("errors", LErrors [date_error]);
        ("bookinstance", LDoc rendered_copy)].
Proof.
  destruct (@bookinstance_create_post_invalid_date sample_externals
              bad_date_request catalogue)
    as (Hst & _ & _ & Hr).
  - vm_compute. discriminate.
  - reflexivity.
  - split; [exact Hst|]. rewrite (Hr oid_dune) by reflexivity. reflexivity.
Defined.

(** C7 does not hold for the values as submitted: the book instance the
    form is rendered with carries neither the imprint nor the
    [due_back] that was submitted. *)
Lemma bookinstance_create_post_values_not_as_submitted :
  submitted bad_date_request "due_back" <> EmptyString
  /\ is_calendar_date (submitted bad_date_request "due_back") = false
  /\ (serve (@BookInstanceController.bookinstance_create_post sample_externals)
        bad_date_request catalogue).2 =
     Render "bookinstance_form"
       [("title", LString "Create BookInstance");
        ("book_list", LDocs [obj [("_id", Some (VId oid_dune));
                                  ("title", Some (VStr "Dune"))]]);
        ("selected_book", LId oid_dune);
        ("errors", LErrors [date_error]);
        ("bookinstance", LDoc rendered_copy)]
  /\ rendered_copy !! "due_back" <>
     Some (VStr (submitted bad_date_request "due_back"))
  /\ rendered_copy !! "imprint" <>
     Some (VStr (submitted bad_date_request "imprint")).
Proof.
  split; [vm_compute; discriminate|]. split; [reflexivity|].
  split; [reflexivity|].
  split; intros E; vm_compute in E; discriminate E.
Qed.

(** With no book selected, reading [_id] of the book the document does
    not have throws, and the error goes to [next]. *)
Lemma bookinstance_create_post_blank_book_throws :
  serve (@BookInstanceController.bookinstance_create_post sample_externals)
    blank_book_request catalogue =
  (catalogue,
   Next (TypeError "Cannot read properties of undefined (reading '_id')")).
Proof. reflexivity. Qed.

(** An imprint of no-break spaces is empty once trimmed: the error on
    [imprint] is recorded and the imprint rendered is empty. *)
Example bookinstance_create_post_blank_unicode_imprint :
  (serve (@BookInstanceController.bookinstance_create_post sample_externals)
     (request oid_unknown oid_unknown oid_unknown
        [("book", "65a1b2c3d4e5f60718293b01"); ("imprint", nbsp);
         ("status", "Available"); ("due_back", "tomorrow")])
     catalogue).2 =
  Render "bookinstance_form"
    [("title", LString "Create BookInstance");
     ("book_list", LDocs [obj [("_id", Some (VId oid_dune));
                               ("title", Some (VStr "Dune"))]]);
     ("selected_book", LId oid_dune);
     ("errors",
      LErrors [{| err_path := "imprint";
                  err_msg := "Imprint must be specified" |}; date_error]);
     ("bookinstance",
      LDoc (obj [("_id", Some (VId oid_new)); ("book", Some (VId oid_dune));
                 ("imprint", Some (VStr EmptyString));
                 ("status", Some (VStr "Available"));
                 ("due_back", Some VNull)]))].
Proof. reflexivity. Qed.

Lemma bookinstance_delete_post_always_redirects_witness :
  (serve (route (@BookInstanceController.bookinstance_delete_post
                   sample_externals)) copy_request catalogue).2 =
    Redirect "/catalog/bookinstances"
  /\ genres (serve (route (@BookInstanceController.bookinstance_delete_post
                             sample_externals)) copy_request catalogue).1 =
     [genre_scifi; genre_fantasy]
  /\ books (serve (route (@BookInstanceController.bookinstance_delete_post
                            sample_externals)) copy_request catalogue).1 =
     [book_dune]
  /\ bookinstances
       (serve (route (@BookInstanceController.bookinstance_delete_post
                        sample_externals)) copy_request catalogue).1 = [].
Proof.
  destruct (@bookinstance_delete_post_always_redirects sample_externals
              copy_request catalogue oid_copy eq_refl)
    as (Hres & Hg & Hb & _ & Hd).
  split; [exact Hres|]. split; [exact Hg|]. split; [exact Hb|].
  destruct (Hd copy_dune eq_refl) as (l1 & l2 & E1 & _ & E2).
  rewrite E2. apply split_single in E1. destruct E1 as [-> ->]. reflexivity.
Defined.

(** C8 does not hold for every request: with a form field that is not
    a well-formed id the delete rejects, nothing is deleted and the
    response is no redirect: the error goes to [next]. *)
Lemma bookinstance_delete_post_malformed_id :
  serve (route (@BookInstanceController.bookinstance_delete_post
                  sample_externals)) malformed_bookinstanceid_request
    catalogue =
  (catalogue, Next (CastError (VStr "the-copy"))).
Proof. reflexivity. Qed.

Lemma genre_detail_shows_titles_and_summaries_witness :
  exists shown : list Doc,
    serve (route GenreController.genre_detail) delete_scifi_request catalogue =
    (catalogue,
     Render "genre_detail"
       [("title", LString "Genre Detail");
        ("genre", LDoc genre_scifi);
        ("genre_books", LDocs shown)])
    /\ Forall2
         (fun s b =>
            s !! "_id" = b !! "_id" /\ s !! "title" = b !! "title"
            /\ s !! "summary" = b !! "summary"
            /\ forall k, k <> "_id" -> k <> "title" -> k <> "summary" ->
                         s !! k = None)
         shown (books_using oid_scifi catalogue)
    /\ forall b, In b (books_using oid_scifi catalogue) <->
                 In b (books catalogue) /\ references oid_scifi b.
Proof.
  apply (genre_detail_shows_titles_and_summaries delete_scifi_request catalogue
           oid_scifi genre_scifi); reflexivity.
Defined.

Lemma genre_create_post_saves_new_name_witness :
  genres (serve GenreController.genre_create_post horror_request catalogue).1 =
    [genre_scifi; genre_fantasy; genre_doc oid_new "Horror"]
  /\ books (serve GenreController.genre_create_post horror_request catalogue).1
     = [book_dune]
  /\ bookinstances
       (serve GenreController.genre_create_post horror_request catalogue).1
     = [copy_dune]
  /\ (serve GenreController.genre_create_post horror_request catalogue).2 =
     Redirect "/catalog/genre/65a1b2c3d4e5f60718293f01".
Proof.
  apply (genre_create_post_saves_new_name horror_request catalogue).
  - vm_compute. lia.
  - no_such_doc.
Defined.

Lemma genre_create_post_twice_witness :
  serve GenreController.genre_create_post horror_request
    (serve GenreController.genre_create_post horror_request catalogue).1 =
  ((serve GenreController.genre_create_post horror_request catalogue).1,
   Redirect "/catalog/genre/65a1b2c3d4e5f60718293f01")
  /\ (serve GenreController.genre_create_post horror_request catalogue).2 =
     Redirect "/catalog/genre/65a1b2c3d4e5f60718293f01"
  /\ genres (serve GenreController.genre_create_post horror_request
               catalogue).1 =
     [genre_scifi; genre_fantasy; genre_doc oid_new "Horror"].
Proof.
  apply (genre_create_post_twice horror_request horror_request catalogue).
  - vm_compute. lia.
  - no_such_doc.
  - reflexivity.
Defined.

Lemma genre_create_post_keeps_names_distinct_witness :
  NoDup (names
           (genres (serve GenreController.genre_create_post horror_request
                      catalogue).1)).
Proof.
  apply (genre_create_post_keeps_names_distinct horror_request catalogue).
  compute_done.
Defined.

Lemma genre_create_post_stores_sanitized_witness :
  exists s : string,
    genre_doc oid_new "Horror" = renamed oid_new s
    /\ 3 <= Validator.len s
    /\ string_forallb (fun c => negb (html_special c)) s = true.
Proof.
  apply (genre_create_post_stores_sanitized horror_request catalogue
           (genre_doc oid_new "Horror")).
  - vm_compute. tauto.
  - intros Hin.
    repeat (destruct Hin as [E|Hin]; [vm_compute in E; discriminate E|]).
    destruct Hin.
Defined.

Lemma genre_create_then_detail_witness :
  serve (route GenreController.genre_detail) new_genre_request
    (serve GenreController.genre_create_post horror_request catalogue).1 =
  ((serve GenreController.genre_create_post horror_request catalogue).1,
   Render "genre_detail"
     [("title", LString "Genre Detail");
      ("genre", LDoc (genre_doc oid_new "Horror"));
      ("genre_books", LDocs [])])
  /\ In (genre_doc oid_new "Horror")
        (genres (serve GenreController.genre_create_post horror_request
                   catalogue).1)
  /\ (Validator.trim (submitted horror_request "name") =
      submitted horror_request "name" ->
      unescaped (submitted horror_request "name") = true ->
      sanitized (submitted horror_request "name") =
      submitted horror_request "name").
Proof.
  apply (genre_create_then_detail horror_request new_genre_request catalogue).
  - vm_compute. lia.
  - no_such_doc.
  - no_such_doc.
  - reflexivity.
Defined.

Lemma genre_update_post_blank_name_witness :
  serve GenreController.genre_update_post blank_rename_request catalogue =
  (catalogue,
   Render "genre_form"
     [("title", LString "Update Genre");
      ("genre", LDoc (renamed oid_fantasy EmptyString));
      ("errors",
       LErrors [{| err_path := "name";
                   err_msg := "Genre name must not be empty." |}])]).
Proof.
  apply (genre_update_post_blank_name blank_rename_request catalogue
           oid_fantasy); reflexivity.
Defined.

Lemma genre_update_post_renames_witness :
  exists l1 l2 : list Doc,
    genres catalogue = l1 ++ genre_fantasy :: l2
    /\ List.find (has_id oid_fantasy) l1 = None
    /\ genres (serve GenreController.genre_update_post rename_request
                catalogue).1 =
       l1 ++ genre_doc oid_fantasy "High Fantasy" :: l2
    /\ books (serve GenreController.genre_update_post rename_request
               catalogue).1 = [book_dune]
    /\ bookinstances
         (serve GenreController.genre_update_post rename_request catalogue).1
       = [copy_dune]
    /\ (serve GenreController.genre_update_post rename_request catalogue).2 =
       Redirect "/catalog/genre/65a1b2c3d4e5f60718293a02".
Proof.
  apply (genre_update_post_renames rename_request catalogue oid_fantasy
           genre_fantasy).
  - vm_compute. lia.
  - reflexivity.
  - reflexivity.
Defined.

Lemma genre_update_post_unknown_id_witness :
  serve GenreController.genre_update_post rename_unknown_request catalogue =
  (catalogue, Redirect "/catalog/genre/65a1b2c3d4e5f60718293e01")
  /\ serve (route GenreController.genre_detail) rename_unknown_request catalogue
     = (catalogue, Next (NotFound "Genre not found")).
Proof.
  apply (genre_update_post_unknown_id rename_unknown_request catalogue
           oid_unknown).
  - vm_compute. lia.
  - reflexivity.
  - no_such_doc.
Defined.

Lemma genre_short_name_create_and_update_witness :
  serve GenreController.genre_create_post short_rename_request catalogue =
  (catalogue,
   Render "genre_form"
     [("title", LString "Create Genre");
      ("genre", LDoc (genre_doc oid_new "SF"));
      ("errors", LErrors [name_error])])
  /\ (serve GenreController.genre_update_post short_rename_request
        catalogue).2 = Redirect "/catalog/genre/65a1b2c3d4e5f60718293a02"
  /\ genres (serve GenreController.genre_update_post short_rename_request
               catalogue).1 = [genre_scifi; genre_doc oid_fantasy "SF"].
Proof.
  destruct (genre_short_name_create_and_update short_rename_request catalogue
              oid_fantasy genre_fantasy) as (Hc & Hr & l1 & l2 & E1 & _ & E2).
  - vm_compute. lia.
  - vm_compute. lia.
  - reflexivity.
  - reflexivity.
  - split; [exact Hc|]. split; [exact Hr|].
    rewrite E2. apply split_pair in E1.
    + destruct E1 as [-> ->]. reflexivity.
    + intros E. apply (f_equal (fun d : Doc => d !! "_id")) in E.
      vm_compute in E. discriminate E.
Defined.

Lemma genre_update_post_duplicates_name_witness :
  In genre_scifi
    (genres (serve GenreController.genre_update_post duplicate_rename_request
               catalogue).1)
  /\ In (genre_doc oid_fantasy "Science Fiction")
       (genres (serve GenreController.genre_update_post
                  duplicate_rename_request catalogue).1)
  /\ ~ NoDup (names
               (genres (serve GenreController.genre_update_post
                          duplicate_rename_request catalogue).1)).
Proof.
  apply (genre_update_post_duplicates_name duplicate_rename_request catalogue
           oid_fantasy genre_fantasy genre_scifi).
  - vm_compute. lia.
  - reflexivity.
  - reflexivity.
  - left. reflexivity.
  - intros E. vm_compute in E. discriminate E.
  - reflexivity.
Defined.

Lemma genre_update_post_then_get_witness :
  serve (route GenreController.genre_update_get) rename_request
    (serve GenreController.genre_update_post rename_request catalogue).1 =
  ((serve GenreController.genre_update_post rename_request catalogue).1,
   Render "genre_form"
     [("title", LString "Update Genre");
      ("genre", LDoc (genre_doc oid_fantasy "High Fantasy"))]).
Proof.
  apply (genre_update_post_then_get rename_request catalogue oid_fantasy
           genre_fantasy).
  - vm_compute. lia.
  - reflexivity.
  - reflexivity.
Defined.

Lemma genre_delete_post_orphans_books_witness :
  In book_dune
    (books (serve (route GenreController.genre_delete_post)
              mismatched_delete_request catalogue).1)
  /\ (forall g',
        In g' (genres (serve (route GenreController.genre_delete_post)
                         mismatched_delete_request catalogue).1) ->
        g' !! "_id" <> Some (VId oid_scifi))
  /\ (serve (route GenreController.genre_delete_post)
        mismatched_delete_request catalogue).2 = Redirect "/catalog/genres".
Proof.
  apply (genre_delete_post_orphans_books mismatched_delete_request catalogue
           oid_fantasy oid_scifi genre_scifi book_dune).
  - reflexivity.
  - no_such_doc.
  - reflexivity.
  - reflexivity.
  - unfold at_most_one. vm_compute. lia.
  - left. reflexivity.
  - reflexivity.
Defined.

Lemma genre_delete_post_then_gone_witness :
  serve (route GenreController.genre_detail) delete_fantasy_request
    (serve (route GenreController.genre_delete_post) delete_fantasy_request
       catalogue).1 =
  ((serve (route GenreController.genre_delete_post) delete_fantasy_request
      catalogue).1, Next (NotFound "Genre not found"))
  /\ serve (route GenreController.genre_delete_post) delete_fantasy_request
       (serve (route GenreController.genre_delete_post) delete_fantasy_request
          catalogue).1 =
     ((serve (route GenreController.genre_delete_post) delete_fantasy_request
         catalogue).1, Redirect "/catalog/genres").
Proof.
  apply (genre_delete_post_then_gone delete_fantasy_request catalogue
           oid_fantasy).
  - reflexivity.
  - no_such_doc.
  - reflexivity.
  - unfold at_most_one. vm_compute. lia.
Defined.

Lemma bookinstance_create_post_saves_witness :
  serve (@BookInstanceController.bookinstance_create_post sample_externals)
    new_copy_request catalogue =
  ({| genres := [genre_scifi; genre_fantasy];
      books := [book_dune];
      bookinstances :=
        [copy_dune;
         obj [("_id", Some (VId oid_new)); ("book", Some (VId oid_dune));
              ("imprint", Some (VStr "Ace, 1990"));
              ("status", Some (VStr "Available")); ("due_back", Some VNull)]] |},
   Redirect "/catalog/bookinstance/65a1b2c3d4e5f60718293f01").
Proof.
  apply (@bookinstance_create_post_saves sample_externals new_copy_request
           catalogue oid_dune EmptyString).
  - reflexivity.
  - vm_compute. lia.
  - compute_done.
  - reflexivity.
  - left. reflexivity.
Defined.

Lemma bookinstance_create_post_without_book_witness :
  exists e : Error,
    serve (@BookInstanceController.bookinstance_create_post sample_externals)
      blank_book_request catalogue = (catalogue, Next e)
    /\ (e = TypeError "Cannot read properties of undefined (reading '_id')"
        \/ e = MongooseValidationError).
Proof.
  apply (@bookinstance_create_post_without_book sample_externals
           blank_book_request catalogue).
  reflexivity.
Defined.

(** A book given with whitespace of any kind around it is the book
    once trimmed, and the copy is saved. *)
Example bookinstance_create_post_trims_unicode_book :
  serve (@BookInstanceController.bookinstance_create_post sample_externals)
    (request oid_unknown oid_unknown oid_unknown
       [("book", nbsp +:+ "65a1b2c3d4e5f60718293b01" +:+ nbsp);
        ("imprint", "Ace, 1990"); ("status", "Available");
        ("due_back", EmptyString)])
    bookless_catalogue =
  ({| genres := [genre_scifi; genre_fantasy];
      books := [];
      bookinstances :=
        [copy_dune;
         obj [("_id", Some (VId oid_new)); ("book", Some (VId oid_dune));
              ("imprint", Some (VStr "Ace, 1990"));
              ("status", Some (VStr "Available")); ("due_back", Some VNull)]] |},
   Redirect "/catalog/bookinstance/65a1b2c3d4e5f60718293f01").
Proof. reflexivity. Qed.

Lemma bookinstance_missing_is_not_found_witness :
  serveP (@BookInstanceController.bookinstance_detail sample_externals)
    plain_request catalogue =
    (catalogue,
     Other (Next (JsError "Error" "Book copy not found" (Some 404))))
  /\ serveP (@BookInstanceController.bookinstance_delete_get sample_externals)
       plain_request catalogue =
     (catalogue,
      Other (Next (JsError "Error" "BookInstance not found" (Some 404))))
  /\ serveP (@BookInstanceController.bookinstance_update_get sample_externals)
       plain_request catalogue =
     (catalogue,
      Other (Next (JsError "Error" "Book instance not found" (Some 404)))).
Proof.
  apply (@bookinstance_missing_is_not_found sample_externals plain_request
           catalogue oid_unknown).
  - reflexivity.
  - no_such_doc.
Defined.

Lemma bookinstance_with_missing_book_witness :
  serveP (@BookInstanceController.bookinstance_update_get sample_externals)
    copy_request bookless_catalogue =
    (bookless_catalogue,
     Other (Next (TypeError
                    "Cannot read properties of null (reading 'title')")))
  /\ serveP (@BookInstanceController.bookinstance_detail sample_externals)
       copy_request bookless_catalogue =
     (bookless_catalogue,
      PRender "bookinstance_detail"
        [("title", Plain (LString "Book:"));
         ("bookinstance",
          PDoc {| pop_fields := copy_dune; pop_path := "book";
                  pop_ref := RefNull |})])
  /\ serveP (@BookInstanceController.bookinstance_delete_get sample_externals)
       copy_request bookless_catalogue =
     (bookless_catalogue,
      PRender "bookinstance_delete"
        [("title", Plain (LString "Delete Book Instance"));
         ("bookinstance",
          PDoc {| pop_fields := copy_dune; pop_path := "book";
                  pop_ref := RefNull |})]).
Proof.
  apply (@bookinstance_with_missing_book sample_externals copy_request
           bookless_catalogue oid_copy copy_dune oid_dune).
  - reflexivity.
  - reflexivity.
  - reflexivity.
  - no_such_doc.
Defined.

Lemma bookinstance_update_get_shows_book_witness :
  serveP (@BookInstanceController.bookinstance_update_get sample_externals)
    copy_request catalogue =
  (catalogue,
   PRender "bookinstance_form"
     [("title", Plain (LString "Update Book Instance"));
      ("bookinstance",
       PDoc {| pop_fields := copy_dune; pop_path := "book";
               pop_ref := RefDoc book_dune |});
      ("book_list",
       Plain (LDocs [obj [("_id", Some (VId oid_dune));
                          ("title", Some (VStr "Dune"))]]));
      ("default_book_title", PValue (Some (VStr "Dune")))])
  /\ book_dune !! "_id" = Some (VId oid_dune) /\ In book_dune (books catalogue).
Proof.
  apply (@bookinstance_update_get_shows_book sample_externals copy_request
           catalogue oid_copy copy_dune book_dune oid_dune); reflexivity.
Defined.

Lemma bookinstance_update_post_unknown_id_witness :
  serve (route (@BookInstanceController.bookinstance_update_post
                  sample_externals)) plain_request catalogue =
    (catalogue, Redirect "/catalog/bookinstance/65a1b2c3d4e5f60718293e01")
  /\ serveP (@BookInstanceController.bookinstance_detail sample_externals)
       plain_request catalogue =
     (catalogue, Other (Next (NotFound "Book copy not found"))).
Proof.
  apply (@bookinstance_update_post_unknown_id sample_externals plain_request
           catalogue oid_unknown).
  - reflexivity.
  - no_such_doc.
Defined.

Lemma bookinstance_delete_post_then_gone_witness :
  serveP (@BookInstanceController.bookinstance_detail sample_externals)
    copy_request
    (serve (route (@BookInstanceController.bookinstance_delete_post
                     sample_externals)) copy_request catalogue).1 =
    ((serve (route (@BookInstanceController.bookinstance_delete_post
                      sample_externals)) copy_request catalogue).1,
     Other (Next (NotFound "Book copy not found")))
  /\ serve (route (@BookInstanceController.bookinstance_delete_post
                     sample_externals)) copy_request
       (serve (route (@BookInstanceController.bookinstance_delete_post
                        sample_externals)) copy_request catalogue).1 =
     ((serve (route (@BookInstanceController.bookinstance_delete_post
                       sample_externals)) copy_request catalogue).1,
      Redirect "/catalog/bookinstances").
Proof.
  apply (@bookinstance_delete_post_then_gone sample_externals copy_request
           catalogue oid_copy).
  - reflexivity.
  - reflexivity.
  - unfold at_most_one. vm_compute. lia.
Defined.

Lemma bookinstance_update_post_stores_as_submitted_witness :
  exists (l1 l2 : list Doc) (d' : Doc),
    bookinstances catalogue = l1 ++ copy_dune :: l2
    /\ bookinstances
         (serve (route (@BookInstanceController.bookinstance_update_post
                          sample_externals)) update_copy_request catalogue).1 =
       l1 ++ d' :: l2
    /\ d' !! "_id" = copy_dune !! "_id"
    /\ d' !! "imprint" = Some (VStr " <b>Ace</b> ")
    /\ d' !! "status" = Some (VStr "Loaned").
Proof.
  apply (@bookinstance_update_post_stores_as_submitted sample_externals
           update_copy_request catalogue oid_copy copy_dune); reflexivity.
Defined.

(** The update handler on the sample catalogue, and the delete handler
    for an id no copy has. *)
Example bookinstance_update_post_sample :
  serve (route (@BookInstanceController.bookinstance_update_post sample_externals))
    (request oid_copy oid_unknown oid_unknown
       [("book", "65a1b2c3d4e5f60718293b02"); ("imprint", "Penguin, 2003");
        ("status", "Loaned"); ("due_back", "2026-12-01")])
    catalogue =
  ({| genres := [genre_scifi; genre_fantasy];
      books := [book_dune];
      bookinstances :=
        [obj [("_id", Some (VId oid_copy)); ("book", Some (VId oid_emma));
              ("imprint", Some (VStr "Penguin, 2003"));
              ("status", Some (VStr "Loaned"));
              ("due_back", Some (VDate "2026-12-01T00:00:00.000Z"))]] |},
   Redirect "/catalog/bookinstance/65a1b2c3d4e5f60718293c01").
Proof. reflexivity. Qed.

Example bookinstance_delete_post_sample :
  serve (route (@BookInstanceController.bookinstance_delete_post sample_externals))
    plain_request catalogue =
  (catalogue, Redirect "/catalog/bookinstances").
Proof. reflexivity. Qed.
